(** * f2v: the file <-> video codec of file-to-video-backend

    A shallow embedding of [app/utils/conversion.py] (encode) and
    [app/utils/utils.py] (decode), with the properties of the codec stated
    and settled against it.

    Conventions of the embedding.
    - Python integers are [Z]; [range(n)] is [seq 0 n] mapped into [Z].
    - [bytes] and [bytearray] are [list byte]; [bytearray.append] raises
      [ValueError] outside [0, 256).
    - A value returned by [json.load] is a [json] tree.  A JSON object is the
      [dict] Python builds from it: an association list in insertion order
      whose keys are distinct.  JSON numbers are integers here (the encoder
      writes no other number); a string is the sequence of its code points,
      all below 256.
    - Exceptions are explicit: a computation yields [Ok v] or [Raise e].
    - Files, the video sink and the log are fields of a [world] threaded
      through every effectful function.  Opening and reading a file that
      exists succeeds, and so does creating or overwriting a file: the
      directories exist and can be written, and an upload is named so that
      its copy can be created.  A file holds the JSON document or the frames
      last written to it.
    - [hashlib.sha256] is a parameter of the development.
    - The pool of worker threads is modelled by the computations the workers
      run; the order in which [as_completed] hands back the futures of the
      encoder is an explicit schedule. *)

From Stdlib Require Import DecimalFacts.
From Stdlib Require Import ZArith List String Ascii Bool Lia.
From Stdlib Require Import Strings.Byte.
From Stdlib Require Import Permutation FinFun DecimalString Decimal DecimalZ DecimalPos.
Import ListNotations.

#[local] Set Warnings "-register-all".

Local Open Scope string_scope.
Local Open Scope list_scope.
Local Open Scope Z_scope.

(* ================================================================== *)
(** * Python values and primitives                                      *)
(* ================================================================== *)

Module Py.

(** Exception classes raised by the modelled code. *)
Inductive exn : Type :=
| KeyError
| TypeError
| ValueError
| AttributeError.

Inductive outcome (A : Type) : Type :=
| Ok (a : A)
| Raise (e : exn).
Arguments Ok {A} a.
Arguments Raise {A} e.

(** What [json.load] returns. *)
Inductive json : Type :=
| JNull
| JBool (b : bool)
| JNum (n : Z)
| JStr (s : string)
| JArr (l : list json)
| JObj (kvs : list (string * json)).

(** [str(n)] for an integer. *)
Definition str (n : Z) : string := NilZero.string_of_int (Z.to_int n).

(** ** [int(s)] for a string

    White space around the number is skipped, one sign is accepted, then
    decimal digits, where single underscores may separate digits.  The
    white space of [int] is the characters 9 to 13 and the blank and,
    beyond ASCII, the code points 133 and 160; the separators 28 to 31 are
    no white space to it.  A text of more than [max_str_digits] digits is
    refused whatever its value: the interpreter's limit on the conversion,
    at its default. *)

Definition is_space (c : ascii) : bool :=
  let n := nat_of_ascii c in
  (((9 <=? n) && (n <=? 13)) || (n =? 32) || (n =? 133) || (n =? 160))%nat.

Fixpoint lstrip (s : string) : string :=
  match s with
  | String c s' => if is_space c then lstrip s' else s
  | EmptyString => EmptyString
  end.

Fixpoint rstrip (s : string) : string :=
  match s with
  | EmptyString => EmptyString
  | String c s' =>
      match rstrip s' with
      | EmptyString => if is_space c then EmptyString else String c EmptyString
      | r => String c r
      end
  end.

Definition strip (s : string) : string := rstrip (lstrip s).

Definition digit_val (c : ascii) : option Z :=
  let n := nat_of_ascii c in
  if ((48 <=? n) && (n <=? 57))%nat then Some (Z.of_nat n - 48) else None.

(** [digits acc prev s]: [acc] is the value read so far, [prev] tells whether
    the previous character was a digit (an underscore needs a digit on both
    sides; the text must end on a digit). *)
Fixpoint digits (acc : Z) (prev : bool) (s : string) : option Z :=
  match s with
  | EmptyString => if prev then Some acc else None
  | String c s' =>
      match digit_val c with
      | Some d => digits (10 * acc + d) true s'
      | None =>
          if (Ascii.eqb c "_" && prev)%bool then digits acc false s' else None
      end
  end.

Definition max_str_digits : Z := 4300.

(** The number of digits of a text, leading zeros included. *)
Fixpoint digit_count (s : string) : Z :=
  match s with
  | EmptyString => 0
  | String c s' =>
      match digit_val c with
      | Some _ => 1 + digit_count s'
      | None => digit_count s'
      end
  end.

Definition int (s : string) : outcome Z :=
  let body (t : string) :=
    match t with
    | String "-" t' => option_map Z.opp (digits 0 false t')
    | String "+" t' => digits 0 false t'
    | _ => digits 0 false t
    end in
  match body (strip s) with
  | Some n =>
      if digit_count (strip s) <=? max_str_digits then Ok n else Raise ValueError
  | None => Raise ValueError
  end.

(** ** Containers *)

Fixpoint assoc {A : Type} (k : string) (kvs : list (string * A)) : option A :=
  match kvs with
  | [] => None
  | (k', v) :: rest => if String.eqb k k' then Some v else assoc k rest
  end.

(** [needle in hay] for two strings. *)
Fixpoint contains (needle hay : string) : bool :=
  (prefix needle hay ||
   match hay with
   | EmptyString => false
   | String _ hay' => contains needle hay'
   end)%bool.

(** [key in container], for a string [key]. *)
Definition contains_key (key : string) (container : json) : outcome bool :=
  match container with
  | JObj kvs => Ok (existsb (fun kv => String.eqb key (fst kv)) kvs)
  | JArr l =>
      Ok (existsb (fun v => match v with JStr s => String.eqb s key | _ => false end) l)
  | JStr s => Ok (contains key s)
  | JNull | JBool _ | JNum _ => Raise TypeError
  end.

(** [container[key]], for a string [key]. *)
Definition getitem (container : json) (key : string) : outcome json :=
  match container with
  | JObj kvs =>
      match assoc key kvs with
      | Some v => Ok v
      | None => Raise KeyError
      end
  | _ => Raise TypeError
  end.

(** [container.items()]. *)
Definition items (container : json) : outcome (list (string * json)) :=
  match container with
  | JObj kvs => Ok kvs
  | _ => Raise AttributeError
  end.

(** [isinstance(v, dict)] and the truth value of a dict. *)
Definition is_dict (v : json) : bool :=
  match v with JObj _ => true | _ => false end.

Definition truthy (v : json) : bool :=
  match v with
  | JNull => false
  | JBool b => b
  | JNum n => negb (n =? 0)
  | JStr s => negb (String.eqb s "")
  | JArr l => match l with [] => false | _ => true end
  | JObj kvs => match kvs with [] => false | _ => true end
  end.

(** A JSON value used as an integer: [bool] is a subclass of [int]. *)
Definition as_int (v : json) : outcome Z :=
  match v with
  | JNum n => Ok n
  | JBool b => Ok (if b then 1 else 0)
  | _ => Raise TypeError
  end.

(** [v == n] for an integer [n], and [v == s] for a string [s]. *)
Definition eq_int (v : json) (n : Z) : bool :=
  match as_int v with
  | Ok m => m =? n
  | Raise _ => false
  end.

Definition eq_str (v : json) (s : string) : bool :=
  match v with
  | JStr t => String.eqb t s
  | _ => false
  end.

(** [x, y = v]: unpacking an iterable of exactly two items. *)
Definition unpack2 (v : json) : outcome (json * json) :=
  match v with
  | JArr [a; b] => Ok (a, b)
  | JArr _ => Raise ValueError
  | JStr (String a (String b EmptyString)) =>
      Ok (JStr (String a EmptyString), JStr (String b EmptyString))
  | JStr _ => Raise ValueError
  | JObj [(a, _); (b, _)] => Ok (JStr a, JStr b)
  | JObj _ => Raise ValueError
  | JNull | JBool _ | JNum _ => Raise TypeError
  end.

(** [bytearray.append(n)]. *)
Definition bytearray_append (buf : list byte) (n : Z) : outcome (list byte) :=
  if (0 <=? n) && (n <? 256) then
    match Byte.of_N (Z.to_N n) with
    | Some b => Ok (buf ++ [b])
    | None => Raise ValueError
    end
  else Raise ValueError.

(** [s.split(sep)[-1]] for a one-character separator. *)
Fixpoint last_field (sep : ascii) (s : string) : string :=
  match s with
  | EmptyString => EmptyString
  | String c s' =>
      if existsb (Ascii.eqb sep) (list_ascii_of_string s') then last_field sep s'
      else if Ascii.eqb c sep then s' else s
  end.

(** [os.path.join(a, b)]: an absolute second component discards the first. *)
Definition path_join (a b : string) : string :=
  match b with
  | String "/" _ => b
  | _ => (a ++ "/" ++ b)%string
  end.

(** Slice bounds [start:stop] on an axis of length [n], as Python and numpy
    normalise them: a negative bound counts from the end, then both are
    clamped to [0, n]. *)
Definition slice_bound (n i : Z) : Z :=
  let i' := if i <? 0 then i + n else i in
  Z.max 0 (Z.min n i').

Definition slice_indices (n start stop : Z) : list Z :=
  let lo := slice_bound n start in
  let hi := slice_bound n stop in
  map (fun k => lo + Z.of_nat k) (seq 0 (Z.to_nat (hi - lo))).

End Py.

(* ================================================================== *)
(** * The world of the codec: frames, files, log                        *)
(* ================================================================== *)

Module World.
Import Py.

(** A pixel is its three channels, in the order the arrays store them. *)
Definition pixel : Type := (Z * Z * Z)%type.

(** A frame is a [numpy] array of shape [(shape0, shape1, 3)] and dtype
    [uint8]: its height, its width and the pixel at each row and column.
    Only positions inside the shape are ever read. *)
Record frame : Type := {
  shape0 : Z;
  shape1 : Z;
  px : Z -> Z -> pixel
}.

(** [np.zeros((h, w, 3), dtype=np.uint8)]. *)
Definition zeros (h w : Z) : frame :=
  {| shape0 := h; shape1 := w; px := fun _ _ => (0, 0, 0) |}.

Definition mem (i : Z) (l : list Z) : bool := existsb (Z.eqb i) l.

(** [f[y0:y1, x0:x1] = c]. *)
Definition assign_block (f : frame) (y0 y1 x0 x1 : Z) (c : pixel) : frame :=
  let rows := slice_indices (shape0 f) y0 y1 in
  let cols := slice_indices (shape1 f) x0 x1 in
  {| shape0 := shape0 f;
     shape1 := shape1 f;
     px := fun y x => if (mem y rows && mem x cols)%bool then c else px f y x |}.

(** The pixels of [f[y0:y1, x0:x1]], row by row. *)
Definition block_pixels (f : frame) (y0 y1 x0 x1 : Z) : list pixel :=
  let rows := slice_indices (shape0 f) y0 y1 in
  let cols := slice_indices (shape1 f) x0 x1 in
  flat_map (fun y => map (fun x => px f y x) cols) rows.

Definition chan_r (p : pixel) : Z := fst (fst p).
Definition chan_g (p : pixel) : Z := snd (fst p).
Definition chan_b (p : pixel) : Z := snd p.

Definition channel_sum (chan : pixel -> Z) (ps : list pixel) : Z :=
  fold_right Z.add 0 (map chan ps).

(** [map(int, block.mean(axis=(0, 1)))].  The mean of [uint8] values is a
    quotient of two small integers, which [float64] holds to well within
    1/16 of its value, and [int] truncates it toward zero.  Over an empty
    block the mean is NaN and [int] raises [ValueError]. *)
Definition mean_int (ps : list pixel) : outcome pixel :=
  let n := Z.of_nat (List.length ps) in
  if n =? 0 then Raise ValueError
  else Ok (Z.quot (channel_sum chan_r ps) n,
           Z.quot (channel_sum chan_g ps) n,
           Z.quot (channel_sum chan_b ps) n).

(** ** Log records: level, message text, interpolated values *)

Inductive level : Type := DEBUG | INFO | WARNING | ERROR.

Inductive arg : Type :=
| AJson (v : json)
| AInt (n : Z)
| AStr (s : string)
| AExn (e : exn)
| ABytes (b : list byte)
| AColor (c : option pixel).

Definition log_record : Type := (level * string * list arg)%type.

(** ** Files *)

Record world : Type := {
  uploads : list (string * list byte);
  videos : list (string * list frame);
  mapping_file : option json;
  metadata_file : option json;
  reconstructed_file : option (list byte);
  log : list log_record
}.

Definition empty_world : world :=
  {| uploads := []; videos := []; mapping_file := None; metadata_file := None;
     reconstructed_file := None; log := [] |}.

Definition with_log (w : world) (l : list log_record) : world :=
  {| uploads := uploads w; videos := videos w; mapping_file := mapping_file w;
     metadata_file := metadata_file w; reconstructed_file := reconstructed_file w;
     log := l |}.

Definition with_upload (w : world) (path : string) (content : list byte) : world :=
  {| uploads := (path, content) :: uploads w; videos := videos w;
     mapping_file := mapping_file w; metadata_file := metadata_file w;
     reconstructed_file := reconstructed_file w; log := log w |}.

Definition with_video (w : world) (path : string) (fs : list frame) : world :=
  {| uploads := uploads w; videos := (path, fs) :: videos w;
     mapping_file := mapping_file w; metadata_file := metadata_file w;
     reconstructed_file := reconstructed_file w; log := log w |}.

Definition with_mapping (w : world) (v : json) : world :=
  {| uploads := uploads w; videos := videos w; mapping_file := Some v;
     metadata_file := metadata_file w; reconstructed_file := reconstructed_file w;
     log := log w |}.

Definition with_metadata (w : world) (v : json) : world :=
  {| uploads := uploads w; videos := videos w; mapping_file := mapping_file w;
     metadata_file := Some v; reconstructed_file := reconstructed_file w;
     log := log w |}.

Definition with_reconstructed (w : world) (b : list byte) : world :=
  {| uploads := uploads w; videos := videos w; mapping_file := mapping_file w;
     metadata_file := metadata_file w; reconstructed_file := Some b;
     log := log w |}.

(** ** The monad of effectful code: world in, outcome and world out *)

Definition M (A : Type) : Type := world -> outcome A * world.

Definition ret {A : Type} (a : A) : M A := fun w => (Ok a, w).

Definition bind {A B : Type} (c : M A) (k : A -> M B) : M B :=
  fun w =>
    match c w with
    | (Ok a, w') => k a w'
    | (Raise e, w') => (Raise e, w')
    end.

(** A pure step that may raise. *)
Definition lift {A : Type} (o : outcome A) : M A := fun w => (o, w).

(** [try: c  except Exception as e: h e]. *)
Definition try_except {A : Type} (c : M A) (h : exn -> M A) : M A :=
  fun w =>
    match c w with
    | (Ok a, w') => (Ok a, w')
    | (Raise e, w') => h e w'
    end.

Definition append_log (w : world) (l : list log_record) : world :=
  with_log w (log w ++ l).

Definition logger (l : level) (text : string) (args : list arg) : M unit :=
  fun w => (Ok tt, append_log w [(l, text, args)]).

Definition get_world : M world := fun w => (Ok w, w).
Definition modify (f : world -> world) : M unit := fun w => (Ok tt, f w).

(** [for x in l: body x]. *)
Fixpoint for_each {A : Type} (l : list A) (body : A -> M unit) : M unit :=
  match l with
  | [] => ret tt
  | x :: rest => bind (body x) (fun _ => for_each rest body)
  end.

(** [for x in l: acc = body acc x]. *)
Fixpoint for_fold {A S : Type} (l : list A) (acc : S) (body : S -> A -> M S) : M S :=
  match l with
  | [] => ret acc
  | x :: rest => bind (body acc x) (fun acc' => for_fold rest acc' body)
  end.

End World.

Declare Scope codec_scope.
Delimit Scope codec_scope with codec.
Notation "x <- c ;; k" := (World.bind c (fun x => k))
  (at level 61, c at next level, right associativity) : codec_scope.
Notation "c ;;; k" := (World.bind c (fun _ => k))
  (at level 61, right associativity) : codec_scope.

(* ================================================================== *)
(** * app/utils/utils.py: decode                                        *)
(* ================================================================== *)

Module Utils.
Import Py World.
Local Open Scope codec_scope.

Definition RECONSTRUCTED_FILE_PATH : string := "reconstructed_file.bin".
Definition METADATA_PATH : string := "mappings/video_metadata.json".
Definition COLOR_MAPPING_PATH : string := "mappings/color_mapping.json".

Definition required_keys : list string := ["file_size"; "file_hash"; "byte_ranges"].

(** The first key of [keys] that is not [in metadata], if any. *)
Fixpoint first_missing (keys : list string) (metadata : json) : outcome (option string) :=
  match keys with
  | [] => Ok None
  | key :: rest =>
      match contains_key key metadata with
      | Raise e => Raise e
      | Ok false => Ok (Some key)
      | Ok true => first_missing rest metadata
      end
  end.

Definition verify_metadata (metadata : json) : M bool :=
  missing <- lift (first_missing required_keys metadata) ;;
  match missing with
  | Some key =>
      logger ERROR "Missing required metadata key: {}" [AStr key] ;;;
      ret false
  | None =>
      byte_ranges <- lift (getitem metadata "byte_ranges") ;;
      if (negb (is_dict byte_ranges) || negb (truthy byte_ranges))%bool then
        logger ERROR "Byte ranges should be a non-empty dictionary." [] ;;;
        ret false
      else
        logger INFO "Metadata verification passed." [] ;;;
        ret true
  end.

(** [process_block(frame, x, y)]: [None] is the result of the source's
    out-of-bounds branch. *)
Definition process_block (frame : World.frame) (x y : json) : M (option pixel) :=
  yv <- lift (as_int y) ;;
  in_rows <- ret (yv + 4 <=? shape0 frame) ;;
  in_bounds <-
    (if in_rows : bool then
       xv <- lift (as_int x) ;; ret (xv + 4 <=? shape1 frame)
     else ret false) ;;
  if in_bounds : bool then
    xv <- lift (as_int x) ;;
    block_color <- lift (mean_int (block_pixels frame yv (yv + 4) xv (xv + 4))) ;;
    logger DEBUG "Average color for block ({}, {}): R={}, G={}, B={}"
      [AJson x; AJson y; AInt (chan_r block_color); AInt (chan_g block_color);
       AInt (chan_b block_color)] ;;;
    ret (Some block_color)
  else
    logger WARNING "Block out of frame bounds for ({}, {})" [AJson x; AJson y] ;;;
    ret None.

(** The inner loop of [reconstruct_bytes_from_frame]: the entries of the
    colour table in order, up to the first whose colour equals
    [block_color]; its key, read as an integer, is appended.  The result
    carries [found]. *)
Fixpoint match_color (entries : list (string * json)) (block_color : pixel)
    (x y : json) (original_bytes : list byte) : M (bool * list byte) :=
  match entries with
  | [] => ret (false, original_bytes)
  | (mapped_byte_index, color) :: rest =>
      logger DEBUG "Checking mapped color: {} against block color: {}"
        [AJson color; AColor (Some block_color)] ;;;
      r <- lift (getitem color "r") ;;
      g <- lift (getitem color "g") ;;
      b <- lift (getitem color "b") ;;
      if (eq_int r (chan_r block_color) && eq_int g (chan_g block_color)
          && eq_int b (chan_b block_color))%bool then
        n <- lift (int mapped_byte_index) ;;
        original_bytes' <- lift (bytearray_append original_bytes n) ;;
        logger INFO "Found matching color for block at ({}, {}): {} -> {}"
          [AJson x; AJson y; AColor (Some block_color); AStr mapped_byte_index] ;;;
        ret (true, original_bytes')
      else match_color rest block_color x y original_bytes
  end.

(** The body of the outer loop of [reconstruct_bytes_from_frame]. *)
Definition reconstruct_entry (frame : World.frame) (color_mapping : json)
    (original_bytes : list byte) (entry : string * json) : M (list byte) :=
  let byte_info := snd entry in
  has_coordinates <- lift (contains_key "coordinates" byte_info) ;;
  if has_coordinates : bool then
    coordinates <- lift (getitem byte_info "coordinates") ;;
    xy <- lift (unpack2 coordinates) ;;
    let x := fst xy in
    let y := snd xy in
    block_color <- process_block frame x y ;;
    logger DEBUG "Block color at ({}, {}): {}" [AJson x; AJson y; AColor block_color] ;;;
    match block_color with
    | Some c =>
        entries <- lift (items color_mapping) ;;
        res <- match_color entries c x y original_bytes ;;
        (if fst res : bool then ret tt
         else logger WARNING "No matching color found for block at ({}, {}): {}"
                [AJson x; AJson y; AColor block_color]) ;;;
        ret (snd res)
    | None =>
        logger WARNING "Block color not computed at ({}, {})" [AJson x; AJson y] ;;;
        ret original_bytes
    end
  else ret original_bytes.

Definition reconstruct_bytes_from_frame (frame : World.frame)
    (color_mapping metadata : json) : M (list byte) :=
  logger DEBUG "Decrypting frame with metadata: {}" [AJson metadata] ;;;
  byte_ranges <- lift (getitem metadata "byte_ranges") ;;
  entries <- lift (items byte_ranges) ;;
  original_bytes <- for_fold entries [] (reconstruct_entry frame color_mapping) ;;
  logger DEBUG "Original bytes decrypted: {}" [ABytes original_bytes] ;;;
  ret original_bytes.

Section Hash.

Variable sha256 : list byte -> string.

(** [calculate_file_hash(RECONSTRUCTED_FILE_PATH)]. *)
Definition calculate_file_hash : M (option string) :=
  w <- get_world ;;
  match reconstructed_file w with
  | Some data => ret (Some (sha256 data))
  | None =>
      logger ERROR "File not found: {}" [AStr RECONSTRUCTED_FILE_PATH] ;;;
      ret None
  end.

Definition check_file_properties (metadata : json) : M unit :=
  w <- get_world ;;
  match reconstructed_file w with
  | None => logger ERROR "File not found: {}" [AStr RECONSTRUCTED_FILE_PATH]
  | Some data =>
      let actual_file_size := Z.of_nat (List.length data) in
      actual_file_hash <- calculate_file_hash ;;
      logger INFO "Overview of file properties:" [] ;;;
      expected_file_size <- lift (getitem metadata "file_size") ;;
      logger INFO "Expected File Size: {} bytes" [AJson expected_file_size] ;;;
      logger INFO "Actual File Size: {} bytes" [AInt actual_file_size] ;;;
      (if negb (eq_int expected_file_size actual_file_size)
       then logger WARNING "Warning: File size does not match!" []
       else logger INFO "File size matches." []) ;;;
      expected_file_hash <- lift (getitem metadata "file_hash") ;;
      logger INFO "Expected File Hash: {}" [AJson expected_file_hash] ;;;
      logger INFO "Actual File Hash: {}"
        [match actual_file_hash with Some h => AStr h | None => AJson JNull end] ;;;
      (if negb (match actual_file_hash with
                | Some h => eq_str expected_file_hash h
                | None => match expected_file_hash with JNull => true | _ => false end
                end)
       then logger WARNING "Warning: File hash does not match!" []
       else logger INFO "File hash matches." [])
  end.

(** The submission loop over [metadata['byte_ranges'].items()]: one future
    per entry whose ['frame'] is 6, every one running
    [reconstruct_bytes_from_frame] on the same arguments. *)
Definition submit_blocks (frame : World.frame) (color_mapping metadata : json)
    : M (list (M (list byte))) :=
  byte_ranges <- lift (getitem metadata "byte_ranges") ;;
  entries <- lift (items byte_ranges) ;;
  for_fold entries []
    (fun futures entry =>
       let block_info := snd entry in
       block_frame <- lift (getitem block_info "frame") ;;
       if eq_int block_frame 6 then
         block <- lift (getitem block_info "block") ;;
         logger DEBUG "Processing block {} for frame 6" [AJson block] ;;;
         ret (futures ++ [reconstruct_bytes_from_frame frame color_mapping metadata])
       else ret futures).

(** The collection loop over [as_completed(futures)].  A future is the
    computation its worker runs, executed where its result is collected:
    the workers share nothing but the log, and all futures of one decode
    run the same computation, so the order of collection is immaterial. *)
Definition collect_futures (futures : list (M (list byte))) : M (list byte) :=
  for_fold futures []
    (fun original_bytes future =>
       try_except
         (frame_bytes <- future ;;
          logger DEBUG "Frame bytes received: {}, type: {}"
            [ABytes frame_bytes; AStr "<class 'bytearray'>"] ;;;
          ret (original_bytes ++ frame_bytes))
         (fun e =>
            logger ERROR "Error processing future: {}" [AExn e] ;;;
            ret original_bytes)).

Definition convert_video_to_file (video_path : string) : M (option string) :=
  try_except
    (w <- get_world ;;
     match metadata_file w with
     | None =>
         logger ERROR "Metadata file not found at {}" [AStr METADATA_PATH] ;;;
         ret None
     | Some metadata =>
         logger INFO "Loaded metadata for video: {}" [AJson metadata] ;;;
         verified <- verify_metadata metadata ;;
         if negb verified then
           logger ERROR "Metadata verification failed. Aborting processing." [] ;;;
           ret None
         else
           match assoc video_path (videos w) with
           | None =>
               logger ERROR "Unable to open video file: {}" [AStr video_path] ;;;
               ret None
           | Some cap =>
               match mapping_file w with
               | None =>
                   logger ERROR "Color mapping file not found at {}"
                     [AStr COLOR_MAPPING_PATH] ;;;
                   ret None
               | Some color_mapping =>
                   logger INFO "Total frames in video: {}"
                     [AInt (Z.of_nat (List.length cap))] ;;;
                   futures <-
                     match nth_error cap 6 with
                     | None =>
                         logger ERROR "Failed to read frame 6. Stopping reconstruction." [] ;;;
                         ret []
                     | Some frame =>
                         logger INFO "Submitting frame 6 for processing" [] ;;;
                         submit_blocks frame color_mapping metadata
                     end ;;
                   original_bytes <- collect_futures futures ;;
                   modify (fun w' => with_reconstructed w' original_bytes) ;;;
                   logger INFO "Reconstructed file successfully saved to: {}"
                     [AStr RECONSTRUCTED_FILE_PATH] ;;;
                   check_file_properties metadata ;;;
                   ret (Some RECONSTRUCTED_FILE_PATH)
               end
           end
     end)
    (fun e =>
       logger ERROR "An error occurred during video to file conversion: {}" [AExn e] ;;;
       ret None).

End Hash.

End Utils.

(* ================================================================== *)
(** * app/utils/conversion.py: encode                                   *)
(* ================================================================== *)

Module Conversion.
Import Py World.
Local Open Scope codec_scope.

Definition VIDEO_DIRECTORY : string := "generated_videos".
Definition UPLOAD_DIRECTORY : string := "uploaded_files".
Definition MAPPING_FILE : string := "mappings/color_mapping.json".
Definition METADATA_FILE : string := "mappings/video_metadata.json".

Definition frame_height : Z := 4320.
Definition frame_width : Z := 7680.

(** [range(n)]. *)
Definition range (n : Z) : list Z := map Z.of_nat (seq 0 (Z.to_nat n)).

(** The two values stored per byte index by the loop over
    [range(total_bytes)]. *)
Definition color_entry (i : Z) : json :=
  JObj [("r", JNum ((i * 3) mod 256));
        ("g", JNum ((i * 5) mod 256));
        ("b", JNum ((i * 7) mod 256))].

Definition block_entry (i : Z) : json :=
  JObj [("frame", JNum 6); ("block", JNum i)].

(** A dict with integer keys, in insertion order; the loop inserts each key
    of [range(total_bytes)] once. *)
Definition int_dict : Type := list (Z * json).

Definition build_color_mapping (total_bytes : Z) : int_dict :=
  map (fun i => (i, color_entry i)) (range total_bytes).

Definition build_byte_to_block_map (total_bytes : Z) : int_dict :=
  map (fun i => (i, block_entry i)) (range total_bytes).

(** [d[k]] for an integer key. *)
Fixpoint getitem_int (d : int_dict) (k : Z) : outcome json :=
  match d with
  | [] => Raise KeyError
  | (k', v) :: rest => if k =? k' then Ok v else getitem_int rest k
  end.

(** [json.dump] followed by [json.load]: integer keys come back as their
    decimal text. *)
Definition dumped (d : int_dict) : json :=
  JObj (map (fun kv => (str (fst kv), snd kv)) d).

Definition and_then {A B : Type} (o : outcome A) (k : A -> outcome B) : outcome B :=
  match o with
  | Ok a => k a
  | Raise e => Raise e
  end.

(** The closure [process_frame(frame_idx)]. *)
Definition process_frame (total_bytes : Z) (color_mapping : int_dict)
    (frame_idx : Z) : outcome frame :=
  let frame := zeros frame_height frame_width in
  if frame_idx =? 5 then
    let known_byte_index := total_bytes / 2 in
    and_then (getitem_int color_mapping known_byte_index) (fun entry =>
    and_then (and_then (getitem entry "r") as_int) (fun r =>
    and_then (and_then (getitem entry "g") as_int) (fun g =>
    and_then (and_then (getitem entry "b") as_int) (fun b =>
    let x_start := frame_width / 2 - 2 in
    let y_start := frame_height / 2 - 2 in
    Ok (assign_block frame y_start (y_start + 4) x_start (x_start + 4) (r, g, b))))))
  else Ok frame.

(** [out.write(frame)] on the sink opened at [video_path].  The sink keeps
    the frames as given: the codec of the container is taken to be
    lossless. *)
Definition write_frame (video_path : string) (frame : World.frame) : M unit :=
  modify (fun w =>
    with_video w video_path
      (match assoc video_path (videos w) with
       | Some written => written ++ [frame]
       | None => [frame]
       end)).

(** The check of the reloaded metadata that ends the encoder. *)
Definition log_loaded_metadata (total_bytes : Z) (loaded_metadata : json) : M unit :=
  logger INFO "Loaded Metadata: {}" [AJson loaded_metadata] ;;;
  has_ranges <- lift (contains_key "byte_ranges" loaded_metadata) ;;
  if has_ranges : bool then
    for_each (range total_bytes)
      (fun byte_index =>
         byte_ranges <- lift (getitem loaded_metadata "byte_ranges") ;;
         present <- lift (contains_key (str byte_index) byte_ranges) ;;
         if negb present then
           logger WARNING "Missing byte mapping for byte index: {}" [AInt byte_index]
         else
           info <- lift (getitem byte_ranges (str byte_index)) ;;
           fr <- lift (getitem info "frame") ;;
           blk <- lift (getitem info "block") ;;
           logger DEBUG "Byte {} mapped to frame {} and block {}"
             [AInt byte_index; AJson fr; AJson blk])
  else logger WARNING "No byte_ranges found in metadata." [].

Section Hash.

Variable sha256 : list byte -> string.

Definition metadata_of (filename : string) (content : list byte)
    (video_path : string) : json :=
  JObj [("file_size", JNum (Z.of_nat (List.length content)));
        ("file_hash", JStr (sha256 content));
        ("original_format", JStr (last_field "." filename));
        ("video_path", JStr video_path);
        ("byte_ranges",
           dumped (build_byte_to_block_map (Z.of_nat (List.length content))))].

(** [convert_file_to_video(file)], for an upload named [filename] holding
    [content].  [schedule] is the order in which [as_completed] yields the
    thirty futures, each named by the frame index it was submitted with.
    The copy of the upload is taken to be created without error, as are the
    video and the two JSON files: a file name whose directory does not exist,
    on which opening the copy fails, is outside the embedding. *)
Definition convert_file_to_video (filename : string) (content : list byte)
    (schedule : list Z) : M (option string) :=
  try_except
    (let temp_file_path := path_join UPLOAD_DIRECTORY filename in
     modify (fun w => with_upload w temp_file_path content) ;;;
     let total_bytes := Z.of_nat (List.length content) in
     let video_path := path_join VIDEO_DIRECTORY "sample_video.mp4" in
     modify (fun w => with_video w video_path []) ;;;
     let black_frame := zeros frame_height frame_width in
     for_each (range 30) (fun _ => write_frame video_path black_frame) ;;;
     let color_mapping := build_color_mapping total_bytes in
     for_each schedule
       (fun frame_idx =>
          frame <- lift (process_frame total_bytes color_mapping frame_idx) ;;
          write_frame video_path frame) ;;;
     modify (fun w => with_mapping w (dumped color_mapping)) ;;;
     modify (fun w => with_metadata w (metadata_of filename content video_path)) ;;;
     w <- get_world ;;
     match metadata_file w with
     | Some loaded_metadata => log_loaded_metadata total_bytes loaded_metadata
     | None => ret tt
     end ;;;
     logger INFO "Video created successfully: {}" [AStr video_path] ;;;
     ret (Some video_path))
    (fun e =>
       logger ERROR "Error converting file to video: {}" [AExn e] ;;;
       ret None).

End Hash.

End Conversion.

(* ================================================================== *)
(** * app/routes/routes.py: the two endpoints                           *)
(* ================================================================== *)

Module Routes.
Import Py World.
Local Open Scope codec_scope.

(** What an endpoint answers: the HTTP status and the JSON body.  A [dict]
    returned by a handler is answered with status 200. *)
Definition response : Type := (Z * json)%type.

(** [str(e)] in the body of an error answer, rendered as the name of the
    class of the exception. *)
Definition exn_text (e : exn) : string :=
  match e with
  | KeyError => "KeyError"
  | TypeError => "TypeError"
  | ValueError => "ValueError"
  | AttributeError => "AttributeError"
  end.

(** A path or [None] as a JSON value. *)
Definition json_of_path (p : option string) : json :=
  match p with
  | Some s => JStr s
  | None => JNull
  end.



Section Hash.

Variable sha256 : list byte -> string.

(** [upload_file(file)]: the size is read off the upload by seeking to its
    end. *)
Definition upload_file (filename : string) (content : list byte)
    (schedule : list Z) : M response :=
  try_except
    (let file_size := Z.of_nat (List.length content) in
     logger INFO "Uploaded file: {}, Size: {} bytes" [AStr filename; AInt file_size] ;;;
     video_path <- Conversion.convert_file_to_video sha256 filename content schedule ;;
     logger INFO "Successfully converted file to video: {}"
       [AJson (json_of_path video_path)] ;;;
     ret (200, JObj [("video_url", json_of_path video_path)]))
    (fun e =>
       logger ERROR "Error during file upload and conversion: {}" [AExn e] ;;;
       ret (500, JObj [("error", JStr (exn_text e))])).


End Hash.

End Routes.

(* ================================================================== *)
(** * Vocabulary of the properties                                      *)
(* ================================================================== *)

Module Props.
Import Py World.

(** Text that holds no white space. *)
Fixpoint no_space (s : string) : bool :=
  match s with
  | EmptyString => true
  | String c s' => (negb (is_space c) && no_space s')%bool
  end.

(** A computation that leaves the files alone: whatever its outcome, the
    world it returns is the one it was given with records added to the log. *)
Definition logs_only {A : Type} (c : M A) : Prop :=
  forall w, exists o l, c w = (o, append_log w l).

(** The member [k] of a JSON object. *)
Definition field (k : string) (v : json) : option json :=
  match v with
  | JObj kvs => assoc k kvs
  | _ => None
  end.

(** A manifest with the three required keys whose [byte_ranges] is a
    non-empty mapping. *)
Definition well_formed_manifest (md : json) : Prop :=
  (forall k, In k Utils.required_keys -> field k md <> None) /\
  exists kv rest, field "byte_ranges" md = Some (JObj (kv :: rest)).

Definition passed_record : log_record :=
  (INFO, "Metadata verification passed.", []).

Definition saved_record : log_record :=
  (INFO, "Reconstructed file successfully saved to: {}",
   [AStr Utils.RECONSTRUCTED_FILE_PATH]).

(** What [check_file_properties] logs for a manifest that stores size [s]
    and hash [h] when the reconstructed file holds [data] and hashes to
    [actual_hash]. *)
Definition integrity_log (actual_hash : string) (s h : json) (data : list byte)
    : list log_record :=
  [ (INFO, "Overview of file properties:", []);
    (INFO, "Expected File Size: {} bytes", [AJson s]);
    (INFO, "Actual File Size: {} bytes", [AInt (Z.of_nat (List.length data))]);
    (if eq_int s (Z.of_nat (List.length data))
     then (INFO, "File size matches.", [])
     else (WARNING, "Warning: File size does not match!", []));
    (INFO, "Expected File Hash: {}", [AJson h]);
    (INFO, "Actual File Hash: {}", [AStr actual_hash]);
    (if eq_str h actual_hash
     then (INFO, "File hash matches.", [])
     else (WARNING, "Warning: File hash does not match!", [])) ].

(** Every entry of [byte_ranges] can be read by the submission loop of the
    decoder: it has a ['frame'], and a ['block'] when that frame is 6. *)
Definition submittable_entry (entry : string * json) : Prop :=
  exists fr, getitem (snd entry) "frame" = Ok fr /\
             (eq_int fr 6 = true -> exists blk, getitem (snd entry) "block" = Ok blk).

Definition submittable (md : json) : Prop :=
  forall entries, field "byte_ranges" md = Some (JObj entries) ->
                  Forall submittable_entry entries.

(** Why a decode may end without a result. *)
Definition refusal_cause (video_path : string) (w : world) : Prop :=
  metadata_file w = None \/
  (exists md, metadata_file w = Some md /\ ~ well_formed_manifest md) \/
  assoc video_path (videos w) = None \/
  mapping_file w = None \/
  (exists md, metadata_file w = Some md /\ ~ submittable md).

(** ** The encoder's products, in closed form *)

(** The colour the encoder derives from a byte index. *)
Definition rgb (i : Z) : pixel :=
  ((i * 3) mod 256, (i * 5) mod 256, (i * 7) mod 256).

Definition black_frame : frame :=
  zeros Conversion.frame_height Conversion.frame_width.

(** The frame [process_frame] builds for index 5: black but for the 4x4
    block at the centre, painted with the colour of index [total_bytes // 2]. *)
Definition painted_frame (total_bytes : Z) : frame :=
  assign_block black_frame 2158 2162 3838 3842 (rgb (total_bytes / 2)).

Definition frame_of (total_bytes frame_idx : Z) : frame :=
  if frame_idx =? 5 then painted_frame total_bytes else black_frame.

Definition video_path : string := "generated_videos/sample_video.mp4".

(** The log of a successful encode of [total_bytes] bytes. *)
Definition encode_log (metadata : json) (total_bytes : Z) : list log_record :=
  (INFO, "Loaded Metadata: {}", [AJson metadata])
  :: map (fun i => (DEBUG, "Byte {} mapped to frame {} and block {}",
                    [AInt i; AJson (JNum 6); AJson (JNum i)]))
         (Conversion.range total_bytes)
  ++ [(INFO, "Video created successfully: {}", [AStr video_path])].

(** Two worlds that differ in their videos at most. *)
Definition same_but_videos (w w' : world) : Prop :=
  uploads w' = uploads w /\
  mapping_file w' = mapping_file w /\
  metadata_file w' = metadata_file w /\
  reconstructed_file w' = reconstructed_file w /\
  log w' = log w.

(** ** The colour table *)

(** A table entry that reads as the colour [c], and one that reads as
    another colour. *)
Definition color_matches (v : json) (c : pixel) (result : bool) : Prop :=
  exists r g b,
    getitem v "r" = Ok r /\ getitem v "g" = Ok g /\ getitem v "b" = Ok b /\
    (eq_int r (chan_r c) && eq_int g (chan_g c) && eq_int b (chan_b c))%bool = result.

Definition color_is (v : json) (c : pixel) : Prop := color_matches v c true.
Definition color_isnt (v : json) (c : pixel) : Prop := color_matches v c false.

(** The index the lookup loop of the recoverer yields for the colour [c]:
    the loop is run on an empty stream, and the byte it appends is read
    back as a number. *)
Definition byteFor (color_mapping : json) (c : pixel) : option Z :=
  match items color_mapping with
  | Ok entries =>
      match fst (Utils.match_color entries c (JNum 0) (JNum 0) [] empty_world) with
      | Ok (true, [b]) => Some (Z.of_N (Byte.to_N b))
      | _ => None
      end
  | Raise _ => None
  end.

(** ** Block means *)

(** The sixteen pixels of the 4x4 block whose top-left corner is at column
    [x] and row [y]. *)
Definition block4 (f : frame) (x y : Z) : list pixel :=
  flat_map (fun i => map (fun j => px f (y + i) (x + j)) [0; 1; 2; 3]) [0; 1; 2; 3].

(** The mean of the block with each channel truncated toward zero. *)
Definition mean_truncated (f : frame) (x y : Z) : pixel :=
  (Z.quot (channel_sum chan_r (block4 f x y)) 16,
   Z.quot (channel_sum chan_g (block4 f x y)) 16,
   Z.quot (channel_sum chan_b (block4 f x y)) 16).

(** Follows the words of the specification, to be compared with the code:
    the mean of the block with each channel rounded to the nearest integer. *)
Definition round_nearest (sum n : Z) : Z := (2 * sum + n) / (2 * n).

Definition mean_rounded (f : frame) (x y : Z) : pixel :=
  (round_nearest (channel_sum chan_r (block4 f x y)) 16,
   round_nearest (channel_sum chan_g (block4 f x y)) 16,
   round_nearest (channel_sum chan_b (block4 f x y)) 16).

(** ** Vocabulary of the further properties *)

(** A computation whose outcome is the same from every world and that
    leaves the files alone. *)
Definition oblivious {A : Type} (c : M A) : Prop :=
  exists o, forall w, exists l, c w = (o, append_log w l).

(** The test of the submission loop on one entry of [byte_ranges]. *)
Definition on_frame_6 (entry : string * json) : bool :=
  match getitem (snd entry) "frame" with
  | Ok fr => eq_int fr 6
  | Raise _ => false
  end.

(** The number of entries of [byte_ranges] whose frame is 6. *)
Definition frame_6_count (md : json) : nat :=
  match field "byte_ranges" md with
  | Some (JObj entries) => List.length (filter on_frame_6 entries)
  | _ => 0%nat
  end.

(** The conditions under which the decoder reconstructs a file. *)
Definition decode_ready (vp : string) (w : world) : Prop :=
  exists md cap cm,
    metadata_file w = Some md /\
    well_formed_manifest md /\
    assoc vp (videos w) = Some cap /\
    mapping_file w = Some cm /\
    (nth_error cap 6 = None \/ submittable md).

(** The stream one worker recovers from [frame], empty when the worker
    raises.  The outcome of a worker does not depend on the store it runs
    in, so it is read off a run in the empty one. *)
Definition worker_stream (frame : World.frame) (color_mapping metadata : json)
    : list byte :=
  match fst (Utils.reconstruct_bytes_from_frame frame color_mapping metadata
               empty_world) with
  | Ok original_bytes => original_bytes
  | Raise _ => []
  end.

(** What the futures of one decode hand back in all: the stream of one
    worker for every entry of [byte_ranges] on frame 6, and nothing when the
    video has no frame 6. *)
Definition collected_stream (cap : list World.frame) (color_mapping metadata : json)
    : list byte :=
  match nth_error cap 6 with
  | Some frame =>
      List.concat (repeat (worker_stream frame color_mapping metadata)
                     (frame_6_count metadata))
  | None => []
  end.

(** Every channel of every pixel of a frame is a byte. *)
Definition uint8_frame (f : frame) : Prop :=
  forall y x,
    0 <= chan_r (px f y x) < 256 /\
    0 <= chan_g (px f y x) < 256 /\
    0 <= chan_b (px f y x) < 256.

End Props.

(* ================================================================== *)
(** * Concrete inputs                                                   *)
(* ================================================================== *)

Module Examples.
Import Py World Props.

(** A stand-in digest for concrete runs: the decimal length of the data.
    Nothing below depends on the digest being SHA-256. *)
Definition digest (data : list byte) : string := str (Z.of_nat (List.length data)).

(** The futures of the encoder collected in submission order, and in the
    reverse order. *)
Definition in_order : list Z := Conversion.range 30.
Definition reversed : list Z := List.rev in_order.

(** The three bytes of [b"abc"]. *)
Definition abc : list byte := [x61; x62; x63].

(** A 4x4 frame that is 1 on every channel except at its first pixel. *)
Definition speck : frame :=
  {| shape0 := 4;
     shape1 := 4;
     px := fun y x => if ((y =? 0) && (x =? 0))%bool then (0, 0, 0) else (1, 1, 1) |}.

(** A store whose manifest addresses one block at the origin of frame 6,
    whose video holds seven black 8x8 frames, and whose colour table maps
    black to the index 300. *)
Definition world_300 : world :=
  {| uploads := [];
     videos := [("v.mp4", repeat (zeros 8 8) 7)];
     mapping_file :=
       Some (JObj [("300", JObj [("r", JNum 0); ("g", JNum 0); ("b", JNum 0)])]);
     metadata_file :=
       Some (JObj [("file_size", JNum 1);
                   ("file_hash", JStr "1");
                   ("byte_ranges",
                    JObj [("0", JObj [("frame", JNum 6); ("block", JNum 0);
                                      ("coordinates", JArr [JNum 0; JNum 0])])])]);
     reconstructed_file := None;
     log := [] |}.

(** A manifest that addresses two blocks of frame 6, a colour table that
    maps black to the index 7, and a store that holds them with a video of
    seven black 8x8 frames. *)
Definition manifest_twice : json :=
  JObj [("file_size", JNum 2);
        ("file_hash", JStr "2");
        ("byte_ranges",
         JObj [("0", JObj [("frame", JNum 6); ("block", JNum 0);
                           ("coordinates", JArr [JNum 0; JNum 0])]);
               ("1", JObj [("frame", JNum 6); ("block", JNum 1);
                           ("coordinates", JArr [JNum 4; JNum 0])])])].

Definition table_7 : json :=
  JObj [("7", JObj [("r", JNum 0); ("g", JNum 0); ("b", JNum 0)])].

Definition world_twice : world :=
  {| uploads := [];
     videos := [("v.mp4", repeat (zeros 8 8) 7)];
     mapping_file := Some table_7;
     metadata_file := Some manifest_twice;
     reconstructed_file := None;
     log := [] |}.

(** The same store with a video of three frames only. *)
Definition world_short : world :=
  {| uploads := [];
     videos := [("v.mp4", repeat (zeros 8 8) 3)];
     mapping_file := Some table_7;
     metadata_file := Some manifest_twice;
     reconstructed_file := None;
     log := [] |}.

(** A store whose metadata file holds a list of the three key names. *)
Definition key_names : list json :=
  [JStr "file_size"; JStr "file_hash"; JStr "byte_ranges"].

Definition world_key_names : world :=
  {| uploads := [];
     videos := [];
     mapping_file := None;
     metadata_file := Some (JArr key_names);
     reconstructed_file := None;
     log := [] |}.

(** A colour table that knows white only, and a manifest entry for the
    block at the origin. *)
Definition table_white : list (string * json) :=
  [("0", JObj [("r", JNum 255); ("g", JNum 255); ("b", JNum 255)])].

Definition entry_origin : string * json :=
  ("0", JObj [("frame", JNum 6); ("block", JNum 0);
              ("coordinates", JArr [JNum 0; JNum 0])]).

(** A store whose manifest lacks [file_hash], and one whose manifest has
    the three keys and an empty [byte_ranges]. *)
Definition manifest_no_hash : json :=
  JObj [("file_size", JNum 1);
        ("byte_ranges", JObj [("0", JObj [("frame", JNum 6); ("block", JNum 0)])])].

Definition manifest_empty_ranges : json :=
  JObj [("file_size", JNum 1); ("file_hash", JStr "1"); ("byte_ranges", JObj [])].

Definition world_with_manifest (md : json) : world :=
  {| uploads := [];
     videos := [("v.mp4", repeat (zeros 8 8) 7)];
     mapping_file := Some table_7;
     metadata_file := Some md;
     reconstructed_file := None;
     log := [] |}.

(** The manifest and the colour table of [world_300]. *)
Definition manifest_origin : json :=
  JObj [("file_size", JNum 1);
        ("file_hash", JStr "1");
        ("byte_ranges", JObj [entry_origin])].

Definition table_300 : list (string * json) :=
  [("300", JObj [("r", JNum 0); ("g", JNum 0); ("b", JNum 0)])].

End Examples.

(* ================================================================== *)
(** * Decimal text: [int (str n) = n]                                   *)
(* ================================================================== *)

Module PyFacts.
Import Py Props.

Lemma rstrip_no_space (s : string) : no_space s = true -> rstrip s = s.
Proof.
  induction s as [|c s IH]; cbn [no_space rstrip]; [reflexivity|].
  intros H. apply andb_prop in H. destruct H as [Hc Hs].
  rewrite (IH Hs). apply negb_true_iff in Hc. rewrite Hc.
  destruct s; reflexivity.
Qed.

Lemma lstrip_no_space (s : string) : no_space s = true -> lstrip s = s.
Proof.
  destruct s as [|c s]; cbn [no_space lstrip]; [reflexivity|].
  intros H. apply andb_prop in H. destruct H as [Hc _].
  apply negb_true_iff in Hc. now rewrite Hc.
Qed.

Lemma strip_no_space (s : string) : no_space s = true -> strip s = s.
Proof.
  intros H. unfold strip. rewrite (lstrip_no_space s H). now apply rstrip_no_space.
Qed.

Lemma no_space_uint (d : uint) : no_space (NilEmpty.string_of_uint d) = true.
Proof. induction d; cbn [NilEmpty.string_of_uint no_space]; auto. Qed.

(** Reading the digits of [d] after the value [acc]. *)
Lemma digits_uint_acc (d : uint) : forall (acc : positive) (prev : bool),
  digits (Z.pos acc) prev (NilEmpty.string_of_uint d)
  = if (prev || match d with Nil => false | _ => true end)%bool
    then Some (Z.pos (Pos.of_uint_acc d acc)) else None.
Proof.
  induction d; intros acc prev; cbn [NilEmpty.string_of_uint Pos.of_uint_acc];
    [ destruct prev; reflexivity | .. ];
    rewrite orb_true_r; cbn [digits];
    match goal with
    | |- context [digit_val ?c] =>
        let v := eval vm_compute in (digit_val c) in change (digit_val c) with v
    end; cbv iota;
    match goal with
    | |- digits ?a true _ = _ =>
        match goal with
        | |- context [Pos.of_uint_acc _ ?p] =>
            replace a with (Z.pos p) by lia
        end
    end;
    rewrite IHd; reflexivity.
Qed.

Lemma digits_uint (d : uint) : forall prev : bool,
  (prev || match d with Nil => false | _ => true end)%bool = true ->
  digits 0 prev (NilEmpty.string_of_uint d) = Some (Z.of_N (Pos.of_uint d)).
Proof.
  induction d; intros prev Hp; cbn [NilEmpty.string_of_uint Pos.of_uint];
    [ rewrite orb_false_r in Hp; subst prev; reflexivity | .. ];
    cbn [digits];
    match goal with
    | |- context [digit_val ?c] =>
        let v := eval vm_compute in (digit_val c) in change (digit_val c) with v
    end; cbv iota.
  - change (10 * 0 + 0) with 0. apply IHd. reflexivity.
  - change (10 * 0 + 1) with (Z.pos 1); rewrite digits_uint_acc; reflexivity.
  - change (10 * 0 + 2) with (Z.pos 2); rewrite digits_uint_acc; reflexivity.
  - change (10 * 0 + 3) with (Z.pos 3); rewrite digits_uint_acc; reflexivity.
  - change (10 * 0 + 4) with (Z.pos 4); rewrite digits_uint_acc; reflexivity.
  - change (10 * 0 + 5) with (Z.pos 5); rewrite digits_uint_acc; reflexivity.
  - change (10 * 0 + 6) with (Z.pos 6); rewrite digits_uint_acc; reflexivity.
  - change (10 * 0 + 7) with (Z.pos 7); rewrite digits_uint_acc; reflexivity.
  - change (10 * 0 + 8) with (Z.pos 8); rewrite digits_uint_acc; reflexivity.
  - change (10 * 0 + 9) with (Z.pos 9); rewrite digits_uint_acc; reflexivity.
Qed.

(** The text of a positive number: its digits read back as the number,
    and the first of them is no zero. *)
Lemma str_pos (p : positive) :
  exists c s v,
    str (Z.pos p) = String c s /\
    digit_val c = Some v /\ 1 <= v /\
    digits 0 false (String c s) = Some (Z.pos p) /\
    strip (String c s) = String c s.
Proof.
  unfold str. cbn [Z.to_int NilZero.string_of_int].
  pose proof (DecimalPos.Unsigned.to_uint_nonnil p) as Hnil.
  pose proof (DecimalPos.Unsigned.to_uint_nonzero p) as Hnz.
  assert (Hs : NilZero.string_of_uint (Pos.to_uint p)
               = NilEmpty.string_of_uint (Pos.to_uint p)).
  { unfold NilZero.string_of_uint. destruct (Pos.to_uint p); congruence. }
  rewrite Hs.
  assert (Hd : digits 0 false (NilEmpty.string_of_uint (Pos.to_uint p)) = Some (Z.pos p)).
  { rewrite digits_uint.
    - now rewrite DecimalPos.Unsigned.of_to.
    - destruct (Pos.to_uint p); [congruence | reflexivity ..]. }
  pose proof (strip_no_space _ (no_space_uint (Pos.to_uint p))) as Hstrip.
  assert (Hnorm : unorm (Pos.to_uint p) = Pos.to_uint p).
  { pose proof (DecimalPos.Unsigned.to_of (Pos.to_uint p)) as H.
    rewrite DecimalPos.Unsigned.of_to in H. symmetry. exact H. }
  destruct (Pos.to_uint p) as [|u|u|u|u|u|u|u|u|u|u] eqn:E; [congruence | | ..].
  - exfalso. rewrite unorm_D0 in Hnorm.
    destruct u as [|u'|u'|u'|u'|u'|u'|u'|u'|u'|u'] eqn:Eu; [now apply Hnz | ..];
      match goal with
      | H : unorm ?d = D0 ?d |- _ =>
          let Hle := fresh in
          assert (Hle : (nb_digits (unorm d) <= nb_digits d)%nat)
            by (apply nb_digits_unorm; discriminate);
          rewrite H in Hle; cbn [nb_digits] in Hle; lia
      end.
  - cbn [NilEmpty.string_of_uint] in *. do 3 eexists.
    split; [reflexivity|]. split; [vm_compute; reflexivity|].
    split; [lia|]. split; assumption.
  - cbn [NilEmpty.string_of_uint] in *. do 3 eexists.
    split; [reflexivity|]. split; [vm_compute; reflexivity|].
    split; [lia|]. split; assumption.
  - cbn [NilEmpty.string_of_uint] in *. do 3 eexists.
    split; [reflexivity|]. split; [vm_compute; reflexivity|].
    split; [lia|]. split; assumption.
  - cbn [NilEmpty.string_of_uint] in *. do 3 eexists.
    split; [reflexivity|]. split; [vm_compute; reflexivity|].
    split; [lia|]. split; assumption.
  - cbn [NilEmpty.string_of_uint] in *. do 3 eexists.
    split; [reflexivity|]. split; [vm_compute; reflexivity|].
    split; [lia|]. split; assumption.
  - cbn [NilEmpty.string_of_uint] in *. do 3 eexists.
    split; [reflexivity|]. split; [vm_compute; reflexivity|].
    split; [lia|]. split; assumption.
  - cbn [NilEmpty.string_of_uint] in *. do 3 eexists.
    split; [reflexivity|]. split; [vm_compute; reflexivity|].
    split; [lia|]. split; assumption.
  - cbn [NilEmpty.string_of_uint] in *. do 3 eexists.
    split; [reflexivity|]. split; [vm_compute; reflexivity|].
    split; [lia|]. split; assumption.
  - cbn [NilEmpty.string_of_uint] in *. do 3 eexists.
    split; [reflexivity|]. split; [vm_compute; reflexivity|].
    split; [lia|]. split; assumption.
Qed.

Lemma digit_val_bounds (c : ascii) (d : Z) : digit_val c = Some d -> 0 <= d <= 9.
Proof.
  unfold digit_val.
  destruct (48 <=? nat_of_ascii c)%nat eqn:H1; [|discriminate].
  destruct (nat_of_ascii c <=? 57)%nat eqn:H2; [|discriminate].
  cbn [andb]. intros [= <-].
  apply Nat.leb_le in H1, H2. lia.
Qed.

Lemma digit_count_nonneg (s : string) : 0 <= digit_count s.
Proof.
  induction s as [|c s IH]; cbn [digit_count]; [lia|].
  destruct (digit_val c); lia.
Qed.

(** A number is at least its leading part shifted by the digits that
    follow. *)
Lemma digits_lower (s : string) : forall (acc : Z) (prev : bool) (n : Z),
  1 <= acc -> digits acc prev s = Some n -> acc * 10 ^ digit_count s <= n.
Proof.
  induction s as [|c s IH]; intros acc prev n Hacc H; cbn [digits digit_count] in *.
  - destruct prev; [|discriminate]. injection H as <-. rewrite Z.pow_0_r. lia.
  - destruct (digit_val c) as [d|] eqn:Hd.
    + pose proof (digit_val_bounds c d Hd) as Hb.
      pose proof (digit_count_nonneg s) as Hk.
      apply IH in H; [|lia].
      rewrite Z.pow_add_r by lia. rewrite Z.pow_1_r.
      assert (0 < 10 ^ digit_count s) by (apply Z.pow_pos_nonneg; lia).
      nia.
    + destruct (Ascii.eqb c "_" && prev)%bool; [|discriminate].
      now apply (IH acc false).
Qed.

(** [int] reads back the text of every number the limit on digits lets
    through. *)
Lemma int_str (n : Z) : 0 <= n < 10 ^ max_str_digits -> int (str n) = Ok n.
Proof.
  intros [Hn Hlt]. destruct n as [|p|p]; [reflexivity | | lia].
  destruct (str_pos p) as (c & s & v & Hstr & Hc & Hv & Hd & Hstrip).
  rewrite Hstr. unfold int. rewrite Hstrip.
  assert (Hcount : digit_count (String c s) <= max_str_digits).
  { cbn [digit_count]. rewrite Hc.
    cbn [digits] in Hd. rewrite Hc in Hd.
    apply digits_lower in Hd; [|lia].
    pose proof (digit_count_nonneg s) as Hk.
    assert (Hpow : 10 ^ digit_count s < 10 ^ max_str_digits).
    { assert (0 < 10 ^ digit_count s) by (apply Z.pow_pos_nonneg; lia). nia. }
    apply Z.pow_lt_mono_r_iff in Hpow; [lia | lia | unfold max_str_digits; lia]. }
  apply Z.leb_le in Hcount. rewrite Hcount.
  assert (Hsign : c <> "-"%char /\ c <> "+"%char).
  { split; intros ->; vm_compute in Hc; discriminate. }
  destruct Hsign as [Hm Hp].
  destruct c as [[] [] [] [] [] [] [] []]; try (rewrite Hd; reflexivity);
    congruence.
Qed.

Lemma byte_below_limit (n : Z) : n < 256 -> n < 10 ^ max_str_digits.
Proof.
  intros H. apply Z.lt_trans with (10 ^ 3); [lia|].
  apply Z.pow_lt_mono_r; unfold max_str_digits; lia.
Qed.

Lemma int_str_byte (n : Z) : 0 <= n < 256 -> int (str n) = Ok n.
Proof. intros [H0 H1]. apply int_str. split; [exact H0 | now apply byte_below_limit]. Qed.

Lemma str_inj (m n : Z) : 0 <= m -> 0 <= n -> str m = str n -> m = n.
Proof.
  intros Hm Hn H.
  assert (Hz : forall p, str 0 <> str (Z.pos p)).
  { intros p E. destruct (str_pos p) as (c & s & v & Hstr & Hc & Hv & _).
    rewrite Hstr in E. vm_compute in E. injection E as <- _.
    vm_compute in Hc. injection Hc as <-. lia. }
  destruct m as [|p|p], n as [|q|q]; try lia; try reflexivity.
  - now destruct (Hz q).
  - symmetry in H. now destruct (Hz p).
  - destruct (str_pos p) as (c & s & v & Hstr & _ & _ & Hd & _).
    destruct (str_pos q) as (c' & s' & v' & Hstr' & _ & _ & Hd' & _).
    rewrite Hstr, Hstr' in H. rewrite H in Hd. congruence.
Qed.

End PyFacts.

(* ================================================================== *)
(** * Reasoning about effectful code                                    *)
(* ================================================================== *)

Module Logic.
Import Py World Props.
Local Open Scope codec_scope.

Lemma append_log_nil (w : world) : append_log w [] = w.
Proof. destruct w. unfold append_log, with_log. cbn. now rewrite app_nil_r. Qed.

Lemma append_log_app (w : world) (a b : list log_record) :
  append_log (append_log w a) b = append_log w (a ++ b).
Proof. unfold append_log, with_log. cbn. now rewrite app_assoc. Qed.

Lemma logs_only_ret {A} (a : A) : logs_only (ret a).
Proof. intros w. exists (Ok a), []. now rewrite append_log_nil. Qed.

Lemma logs_only_lift {A} (o : outcome A) : logs_only (lift o).
Proof. intros w. exists o, []. now rewrite append_log_nil. Qed.

Lemma logs_only_logger l t a : logs_only (logger l t a).
Proof. intros w. now exists (Ok tt), [(l, t, a)]. Qed.

Lemma logs_only_bind {A B} (c : M A) (k : A -> M B) :
  logs_only c -> (forall a, logs_only (k a)) -> logs_only (bind c k).
Proof.
  intros Hc Hk w. unfold bind. destruct (Hc w) as (o & l & ->).
  destruct o as [a|e].
  - destruct (Hk a (append_log w l)) as (o' & l' & ->).
    exists o', (l ++ l'). now rewrite append_log_app.
  - now exists (Raise e), l.
Qed.

Lemma logs_only_try {A} (c : M A) (h : exn -> M A) :
  logs_only c -> (forall e, logs_only (h e)) -> logs_only (try_except c h).
Proof.
  intros Hc Hh w. unfold try_except. destruct (Hc w) as (o & l & ->).
  destruct o as [a|e].
  - now exists (Ok a), l.
  - destruct (Hh e (append_log w l)) as (o' & l' & ->).
    exists o', (l ++ l'). now rewrite append_log_app.
Qed.

Lemma logs_only_for_fold {A S} (l : list A) (body : S -> A -> M S) :
  (forall acc x, In x l -> logs_only (body acc x)) ->
  forall acc, logs_only (for_fold l acc body).
Proof.
  induction l as [|x l IH]; intros Hb acc; cbn [for_fold].
  - apply logs_only_ret.
  - apply logs_only_bind; [apply Hb; now left|].
    intros acc'. apply IH. intros; apply Hb; now right.
Qed.

Lemma logs_only_for_each {A} (l : list A) (body : A -> M unit) :
  (forall x, In x l -> logs_only (body x)) -> logs_only (for_each l body).
Proof.
  induction l as [|x l IH]; intros Hb; cbn [for_each].
  - apply logs_only_ret.
  - apply logs_only_bind; [apply Hb; now left|].
    intros _. apply IH. intros; apply Hb; now right.
Qed.

End Logic.

(* ================================================================== *)
(** * Facts about the decoder                                           *)
(* ================================================================== *)

Module DecodeFacts.
Import Py World Props Logic Utils.
Local Open Scope codec_scope.

Ltac logs_step :=
  first
    [ apply logs_only_ret
    | apply logs_only_lift
    | apply logs_only_logger
    | apply logs_only_bind; [| intros ? ]
    | match goal with
      | |- logs_only (if ?b then _ else _) => destruct b
      | |- logs_only (match ?o with Some _ => _ | None => _ end) => destruct o
      end ].

Lemma process_block_logs_only frame x y : logs_only (process_block frame x y).
Proof. unfold process_block. repeat logs_step. Qed.

Lemma match_color_logs_only entries c x y : forall buf,
  logs_only (match_color entries c x y buf).
Proof.
  induction entries as [|[k v] entries IH]; intros buf; cbn [match_color].
  - apply logs_only_ret.
  - repeat logs_step. apply IH.
Qed.

Lemma reconstruct_entry_logs_only frame cm buf entry :
  logs_only (reconstruct_entry frame cm buf entry).
Proof.
  unfold reconstruct_entry.
  repeat (first [ apply process_block_logs_only | apply match_color_logs_only | logs_step ]).
Qed.

Lemma reconstruct_logs_only frame cm md :
  logs_only (reconstruct_bytes_from_frame frame cm md).
Proof.
  unfold reconstruct_bytes_from_frame.
  repeat (first [ apply logs_only_for_fold; intros; apply reconstruct_entry_logs_only
                | logs_step ]).
Qed.

(** ** [verify_metadata] *)

Lemma assoc_existsb {A} (k : string) (kvs : list (string * A)) :
  existsb (fun kv => String.eqb k (fst kv)) kvs = true <-> assoc k kvs <> None.
Proof.
  induction kvs as [|[k' v] kvs IH]; cbn [existsb assoc fst].
  - split; [discriminate | congruence].
  - destruct (String.eqb k k'); cbn [orb].
    + split; [discriminate | reflexivity].
    + exact IH.
Qed.

Lemma contains_key_field (k : string) (kvs : list (string * json)) :
  contains_key k (JObj kvs) = Ok true <-> field k (JObj kvs) <> None.
Proof.
  cbn [contains_key field]. rewrite <- assoc_existsb.
  split; [congruence | intros ->; reflexivity].
Qed.

Lemma missing_not_well_formed (k : string) (kvs : list (string * json)) :
  In k required_keys ->
  contains_key k (JObj kvs) = Ok false ->
  ~ well_formed_manifest (JObj kvs).
Proof.
  intros Hin Hc [Hk _]. apply Hk in Hin. apply contains_key_field in Hin. congruence.
Qed.

(** [verify_metadata] returns [True] exactly on well-formed manifests, and
    logs an error whenever it returns [False]. *)
Lemma verify_metadata_run (md : json) (w : world) :
  (well_formed_manifest md /\
   verify_metadata md w = (Ok true, append_log w [passed_record])) \/
  (~ well_formed_manifest md /\
   ((exists text args,
       verify_metadata md w = (Ok false, append_log w [(ERROR, text, args)])) \/
    (exists e, verify_metadata md w = (Raise e, w)))).
Proof.
  assert (Hnot : forall v, (forall kvs, v <> JObj kvs) -> ~ well_formed_manifest v).
  { intros v Hv [Hk _]. specialize (Hk "file_size" (or_introl eq_refl)).
    destruct v; cbn in Hk; try congruence. now apply (Hv kvs). }
  destruct md as [| b | n | s | l | kvs];
    try (right; split; [apply Hnot; intros; discriminate|]; right;
         exists TypeError; reflexivity).
  - (* a string: [in] is the substring test, then indexing raises *)
    right; split; [apply Hnot; intros; discriminate|].
    unfold verify_metadata, bind, lift, required_keys. cbn [first_missing contains_key].
    destruct (contains "file_size" s); [|left; eexists; eexists; reflexivity].
    destruct (contains "file_hash" s); [|left; eexists; eexists; reflexivity].
    destruct (contains "byte_ranges" s); [|left; eexists; eexists; reflexivity].
    right; exists TypeError; reflexivity.
  - (* a list: [in] is membership, then indexing raises *)
    right; split; [apply Hnot; intros; discriminate|].
    unfold verify_metadata, bind, lift, required_keys. cbn [first_missing contains_key].
    destruct (existsb _ l); [|left; eexists; eexists; reflexivity].
    destruct (existsb _ l); [|left; eexists; eexists; reflexivity].
    destruct (existsb _ l); [|left; eexists; eexists; reflexivity].
    right; exists TypeError; reflexivity.
  - (* an object *)
    unfold verify_metadata, bind, lift, required_keys. cbn [first_missing].
    destruct (contains_key "file_size" (JObj kvs)) as [[|]|] eqn:E1;
      [ | right; split;
          [ eapply missing_not_well_formed; [|eassumption]; cbn; tauto
          | left; eexists; eexists; reflexivity ]
        | discriminate ].
    destruct (contains_key "file_hash" (JObj kvs)) as [[|]|] eqn:E2;
      [ | right; split;
          [ eapply missing_not_well_formed; [|eassumption]; cbn; tauto
          | left; eexists; eexists; reflexivity ]
        | discriminate ].
    destruct (contains_key "byte_ranges" (JObj kvs)) as [[|]|] eqn:E3;
      [ | right; split;
          [ eapply missing_not_well_formed; [|eassumption]; cbn; tauto
          | left; eexists; eexists; reflexivity ]
        | discriminate ].
    apply contains_key_field in E1, E2, E3.
    cbn [field] in E1, E2, E3. cbn [getitem].
    destruct (assoc "byte_ranges" kvs) as [br|] eqn:Ebr; [|congruence].
    destruct br as [| | | | | [|kv rest]]; cbn [is_dict truthy negb orb];
      try (right; split;
           [ intros [_ (kv' & rest' & Hf)]; cbn [field] in Hf; congruence
           | left; eexists; eexists; reflexivity ]).
    left. split; [|reflexivity].
    split.
    + intros k [<-|[<-|[<-|[]]]]; cbn [field]; congruence.
    + exists kv, rest. exact Ebr.
Qed.

(** ** The two loops over the futures *)

Lemma bind_ok {A B} (c : M A) (k : A -> M B) w a w' :
  c w = (Ok a, w') -> bind c k w = k a w'.
Proof. intros H. unfold bind. now rewrite H. Qed.

Lemma bind_raise {A B} (c : M A) (k : A -> M B) w e w' :
  c w = (Raise e, w') -> bind c k w = (Raise e, w').
Proof. intros H. unfold bind. now rewrite H. Qed.

Section Futures.

Variables (frame : World.frame) (color_mapping metadata : json).

Let worker : M (list byte) :=
  reconstruct_bytes_from_frame frame color_mapping metadata.

Let submit_body (futures : list (M (list byte))) (entry : string * json)
    : M (list (M (list byte))) :=
  let block_info := snd entry in
  block_frame <- lift (getitem block_info "frame") ;;
  if eq_int block_frame 6 then
    block <- lift (getitem block_info "block") ;;
    logger DEBUG "Processing block {} for frame 6" [AJson block] ;;;
    ret (futures ++ [worker])
  else ret futures.

Lemma submit_body_run (futures : list (M (list byte))) (entry : string * json)
    (w : world) :
  exists o l,
    submit_body futures entry w = (o, append_log w l) /\
    (forall fs, o = Ok fs -> fs = futures \/ fs = futures ++ [worker]) /\
    (submittable_entry entry -> exists fs, o = Ok fs).
Proof.
  unfold submit_body, bind, lift, logger, ret.
  destruct (getitem (snd entry) "frame") as [fr|e] eqn:Efr.
  2:{ exists (Raise e), []. rewrite append_log_nil.
      split; [reflexivity|]. split; [intros fs [=]|].
      intros (fr & Hfr & _). congruence. }
  destruct (eq_int fr 6) eqn:E6.
  - destruct (getitem (snd entry) "block") as [blk|e] eqn:Eblk.
    + eexists; eexists. split; [reflexivity|].
      split; [intros fs [= <-]; now right | intros _; eexists; reflexivity].
    + exists (Raise e), []. rewrite append_log_nil.
      split; [reflexivity|]. split; [intros fs [=]|].
      intros (fr' & Hfr & Hblk). rewrite Efr in Hfr. injection Hfr as <-.
      destruct (Hblk E6) as (blk & Hb). congruence.
  - exists (Ok futures), []. rewrite append_log_nil.
    split; [reflexivity|].
    split; [intros fs [= <-]; now left | intros _; eexists; reflexivity].
Qed.

Lemma submit_loop (entries : list (string * json)) :
  forall futures w,
    Forall (eq worker) futures ->
    exists o l,
      for_fold entries futures submit_body w = (o, append_log w l) /\
      (forall fs, o = Ok fs -> Forall (eq worker) fs) /\
      (Forall submittable_entry entries -> exists fs, o = Ok fs).
Proof.
  induction entries as [|entry entries IH]; intros futures w Hf; cbn [for_fold].
  - exists (Ok futures), []. rewrite append_log_nil. unfold ret.
    split; [reflexivity|].
    split; [intros fs [= <-]; exact Hf | intros _; now exists futures].
  - destruct (submit_body_run futures entry w) as (o & l & Hrun & Hshape & Hok).
    destruct o as [fs|e].
    + rewrite (bind_ok _ _ _ _ _ Hrun).
      destruct (IH fs (append_log w l)) as (o' & l' & Hrun' & Hall & Hok').
      { destruct (Hshape fs eq_refl) as [-> | ->]; [exact Hf|].
        apply Forall_app. split; [exact Hf | now constructor]. }
      exists o', (l ++ l'). rewrite <- append_log_app.
      split; [exact Hrun'|]. split; [exact Hall|].
      intros H. apply Hok'. now inversion H.
    + rewrite (bind_raise _ _ _ _ _ Hrun).
      exists (Raise e), l. split; [reflexivity|]. split; [intros fs [=]|].
      intros H. inversion H as [|? ? He _]; subst.
      destruct (Hok He) as (fs & [=]).
Qed.

Lemma submit_blocks_run (w : world) :
  exists o l,
    submit_blocks frame color_mapping metadata w = (o, append_log w l) /\
    (forall fs, o = Ok fs -> Forall (eq worker) fs) /\
    (well_formed_manifest metadata -> submittable metadata -> exists fs, o = Ok fs).
Proof.
  unfold submit_blocks. unfold bind at 1, lift at 1.
  destruct (getitem metadata "byte_ranges") as [br|e] eqn:Ebr.
  2:{ exists (Raise e), []. rewrite append_log_nil.
      split; [reflexivity|]. split; [intros fs [=]|].
      intros [_ (kv & rest & Hf)] _. destruct metadata; try discriminate.
      cbn [field getitem] in *. rewrite Hf in Ebr. discriminate. }
  unfold bind at 1, lift at 1.
  destruct (items br) as [entries|e] eqn:Eit.
  2:{ exists (Raise e), []. rewrite append_log_nil.
      split; [reflexivity|]. split; [intros fs [=]|].
      intros [_ (kv & rest & Hf)] _. destruct metadata; try discriminate.
      cbn [field getitem] in *. rewrite Hf in Ebr. injection Ebr as <-. discriminate. }
  destruct (submit_loop entries [] w (Forall_nil _)) as (o & l & Hrun & Hall & Hok).
  exists o, l.
  split; [exact Hrun|]. split; [exact Hall|].
  intros _ Hsub. apply Hok. apply Hsub.
  destruct br; try discriminate. injection Eit as <-.
  destruct metadata; try discriminate. cbn [field getitem] in *.
  destruct (assoc "byte_ranges" kvs0); [now injection Ebr as -> | discriminate].
Qed.

End Futures.

(** Whatever the workers do, collecting their futures returns: a worker
    that raises costs its own bytes only. *)
Lemma collect_futures_run (P : list byte -> Prop) (futures : list (M (list byte))) :
  (forall f, In f futures -> logs_only f) ->
  (forall f w r acc, In f futures -> fst (f w) = Ok r -> P acc -> P (acc ++ r)) ->
  P [] ->
  forall w, exists bytes l,
    collect_futures futures w = (Ok bytes, append_log w l) /\ P bytes.
Proof.
  unfold collect_futures. generalize (@nil byte) as acc.
  induction futures as [|f futures IH]; intros acc Hlogs Hstep Hacc w; cbn [for_fold].
  - exists acc, []. rewrite append_log_nil. now split.
  - destruct (Hlogs f (or_introl eq_refl) w) as (o & l & Hf).
    unfold bind at 1, try_except at 1, bind at 1. rewrite Hf.
    destruct o as [r|e].
    + unfold bind at 1, logger at 1, ret at 1.
      edestruct (IH (acc ++ r)) as (bytes & l' & Hrun & HP).
      * intros g Hg. apply Hlogs. now right.
      * intros g w' r' acc' Hg. apply Hstep. now right.
      * apply (Hstep f w r acc (or_introl eq_refl)); [now rewrite Hf | exact Hacc].
      * rewrite Hrun. eexists; eexists. split; [|exact HP].
        rewrite !append_log_app. reflexivity.
    + unfold bind at 1, logger at 1, ret at 1.
      edestruct (IH acc) as (bytes & l' & Hrun & HP).
      * intros g Hg. apply Hlogs. now right.
      * intros g w' r' acc' Hg. apply Hstep. now right.
      * exact Hacc.
      * rewrite Hrun. eexists; eexists. split; [|exact HP].
        rewrite !append_log_app. reflexivity.
Qed.

Lemma field_getitem (k : string) (md v : json) :
  field k md = Some v -> getitem md k = Ok v.
Proof. destruct md; cbn [field getitem]; try discriminate. now intros ->. Qed.

Lemma check_file_properties_run (sha256 : list byte -> string) (md : json)
    (w : world) (data : list byte) (s h : json) :
  reconstructed_file w = Some data ->
  field "file_size" md = Some s ->
  field "file_hash" md = Some h ->
  check_file_properties sha256 md w
  = (Ok tt, append_log w (integrity_log (sha256 data) s h data)).
Proof.
  intros Hdata Hs Hh. apply field_getitem in Hs, Hh.
  unfold check_file_properties, calculate_file_hash.
  unfold bind, get_world, lift, ret.
  repeat (progress (rewrite ?Hdata, ?Hs, ?Hh; cbv beta iota)).
  unfold integrity_log, logger.
  destruct (eq_int s (Z.of_nat (List.length data))), (eq_str h (sha256 data));
    cbn [negb]; rewrite !append_log_app; reflexivity.
Qed.

(** ** The decoder as a whole *)

Lemma with_reconstructed_append_log (w : world) (l : list log_record) (b : list byte) :
  with_reconstructed (append_log w l) b = append_log (with_reconstructed w b) l.
Proof. reflexivity. Qed.

Lemma snoc_app {A} (l : list A) (x : A) (r : list A) : (l ++ [x]) ++ r = l ++ x :: r.
Proof. now rewrite <- app_assoc. Qed.

Ltac close_log :=
  rewrite snoc_app;
  match goal with
  | |- ?a :: ?b :: ?c :: ?d :: ?t ++ ?r = _ =>
      exact (eq_refl ((a :: b :: c :: d :: t) ++ r))
  end.

Lemma decode_run (sha256 : list byte -> string) (video_path : string) (w : world) :
  (exists l0 text args,
     convert_video_to_file sha256 video_path w
     = (Ok None, append_log w (l0 ++ [(ERROR, text, args)])) /\
     refusal_cause video_path w /\
     (metadata_file w = None ->
      l0 = [] /\ text = "Metadata file not found at {}" /\ args = [AStr METADATA_PATH]))
  \/
  (exists md cap cm s h futures w' bytes l0,
     metadata_file w = Some md /\
     well_formed_manifest md /\
     assoc video_path (videos w) = Some cap /\
     mapping_file w = Some cm /\
     field "file_size" md = Some s /\
     field "file_hash" md = Some h /\
     (forall f, In f futures ->
        exists frame, nth_error cap 6 = Some frame /\
                      f = reconstruct_bytes_from_frame frame cm md) /\
     fst (collect_futures futures w') = Ok bytes /\
     convert_video_to_file sha256 video_path w
     = (Ok (Some RECONSTRUCTED_FILE_PATH),
        append_log (with_reconstructed w bytes)
          (l0 ++ saved_record :: integrity_log (sha256 bytes) s h bytes))).
Proof.
  destruct (convert_video_to_file sha256 video_path w) as [res wend] eqn:Hres.
  unfold convert_video_to_file, try_except in Hres.
  unfold bind at 1, get_world at 1 in Hres.
  destruct (metadata_file w) as [md|] eqn:Hmd.
  2:{ left. exists [], "Metadata file not found at {}", [AStr METADATA_PATH].
      cbv in Hres. injection Hres as <- <-.
      split; [reflexivity|]. split; [now left | now intros _]. }
  unfold bind at 1, logger at 1 in Hres.
  set (w1 := append_log w [(INFO, "Loaded metadata for video: {}", [AJson md])]) in Hres.
  unfold bind at 1 in Hres.
  destruct (verify_metadata_run md w1) as [[Hwf Hv] | [Hnwf [(t & a & Hv) | (e & Hv)]]];
    rewrite Hv in Hres; cbn [negb] in Hres.
  3:{ left. eexists [_], _, _. unfold logger, bind, ret in Hres. subst w1.
      rewrite !append_log_app in Hres. injection Hres as <- <-.
      split; [reflexivity|]. split; [right; left; eauto | congruence]. }
  2:{ left. eexists [_; _], _, _. unfold logger, bind, ret in Hres. subst w1.
      rewrite !append_log_app in Hres. injection Hres as <- <-.
      split; [reflexivity|]. split; [right; left; eauto | congruence]. }
  destruct (assoc video_path (videos w)) as [cap|] eqn:Hcap.
  2:{ left. eexists [_; _], _, _. unfold logger, bind, ret in Hres. subst w1.
      rewrite !append_log_app in Hres. injection Hres as <- <-.
      split; [reflexivity|]. split; [right; right; left; eauto | congruence]. }
  destruct (mapping_file w) as [cm|] eqn:Hcm.
  2:{ left. eexists [_; _], _, _. unfold logger, bind, ret in Hres. subst w1.
      rewrite !append_log_app in Hres. injection Hres as <- <-.
      split; [reflexivity|]. split; [right; right; right; left; eauto | congruence]. }
  destruct Hwf as [Hkeys Hranges].
  destruct (field "file_size" md) as [s|] eqn:Hs;
    [| exfalso; apply (Hkeys "file_size"); [cbn; tauto | exact Hs]].
  destruct (field "file_hash" md) as [h|] eqn:Hh;
    [| exfalso; apply (Hkeys "file_hash"); [cbn; tauto | exact Hh]].
  assert (Hwf : well_formed_manifest md).
  { split; [|exact Hranges]. intros k Hk. apply Hkeys, Hk. }
  unfold bind at 1, logger at 1 in Hres. subst w1.
  rewrite !append_log_app in Hres.
  unfold bind at 1 in Hres.
  destruct (nth_error cap 6) as [frame|] eqn:H6.
  - unfold bind at 1, logger at 1 in Hres.
    rewrite !append_log_app in Hres.
    match type of Hres with
    | context [submit_blocks ?f ?c ?m ?w0] =>
        destruct (submit_blocks_run f c m w0) as (o & l & Hrun & Hall & Hok)
    end.
    rewrite Hrun in Hres. rewrite !append_log_app in Hres.
    destruct o as [futures|e].
    + unfold bind at 1 in Hres.
      match type of Hres with
      | context [collect_futures ?fs ?w0] =>
          destruct (collect_futures_run (fun _ => True) fs) with (w := w0)
            as (bytes & l' & Hcol & _);
            [ intros f Hf; apply (proj1 (Forall_forall _ _) (Hall _ eq_refl)) in Hf;
              subst f; apply reconstruct_logs_only
            | trivial | trivial | ];
          pose proof (f_equal fst Hcol) as Hbytes; cbn [fst] in Hbytes
      end.
      rewrite Hcol in Hres. rewrite !append_log_app in Hres.
      unfold bind at 1, modify at 1 in Hres.
      rewrite with_reconstructed_append_log in Hres.
      unfold bind at 1, logger at 1 in Hres.
      rewrite !append_log_app in Hres.
      unfold bind at 1 in Hres.
      erewrite check_file_properties_run in Hres; [| reflexivity | exact Hs | exact Hh].
      rewrite !append_log_app in Hres. unfold ret in Hres.
      injection Hres as <- <-.
      right. exists md, cap, cm, s, h, futures. eexists. exists bytes. eexists.
      repeat (split; [first [reflexivity | eassumption] |]).
      split.
      { intros f Hf. exists frame. split; [exact H6|].
        apply (proj1 (Forall_forall _ _) (Hall _ eq_refl)) in Hf. now subst f. }
      split; [exact Hbytes|].
      do 2 f_equal. close_log.
    + left. unfold logger, bind, ret in Hres.
      rewrite !append_log_app in Hres. injection Hres as <- <-.
      match goal with
      | |- exists _ _ _,
            (_, append_log _ (?a :: ?b :: ?c :: ?d :: ?t ++ [(_, ?tx, ?ar)])) = _ /\ _ =>
          exists (a :: b :: c :: d :: t), tx, ar
      end.
      split; [reflexivity|].
      split; [| congruence].
      right; right; right; right. exists md. split; [exact Hmd|].
      intros Hsub. destruct (Hok Hwf Hsub) as (fs & [=]).
  - unfold bind at 1, logger at 1, ret at 1 in Hres.
    rewrite !append_log_app in Hres.
    unfold bind at 1 in Hres.
    match type of Hres with
    | context [collect_futures ?fs ?w0] =>
        destruct (collect_futures_run (fun _ => True) fs) with (w := w0)
          as (bytes & l' & Hcol & _);
          [ intros f [] | trivial | trivial | ];
          pose proof (f_equal fst Hcol) as Hbytes; cbn [fst] in Hbytes
    end.
    rewrite Hcol in Hres. rewrite !append_log_app in Hres.
    unfold bind at 1, modify at 1 in Hres.
    rewrite with_reconstructed_append_log in Hres.
    unfold bind at 1, logger at 1 in Hres.
    rewrite !append_log_app in Hres.
    unfold bind at 1 in Hres.
    erewrite check_file_properties_run in Hres; [| reflexivity | exact Hs | exact Hh].
    rewrite !append_log_app in Hres. unfold ret in Hres.
    injection Hres as <- <-.
    right. exists md, cap, cm, s, h, []. eexists. exists bytes. eexists.
    repeat (split; [first [reflexivity | eassumption] |]).
    split; [intros f []|].
    split; [exact Hbytes|].
    do 2 f_equal. close_log.
Qed.

End DecodeFacts.

(* ================================================================== *)
(** * Facts about the encoder                                           *)
(* ================================================================== *)

Module EncodeFacts.
Import Py World Props Logic PyFacts Conversion.
Local Open Scope codec_scope.

Lemma in_range (n i : Z) : In i (range n) <-> 0 <= i < n.
Proof.
  unfold range. rewrite in_map_iff. split.
  - intros (k & <- & Hk). apply in_seq in Hk. lia.
  - intros H. exists (Z.to_nat i). split; [lia|]. apply in_seq. lia.
Qed.

Lemma range_length (n : Z) : List.length (range n) = Z.to_nat n.
Proof. unfold range. now rewrite length_map, length_seq. Qed.

Lemma range_NoDup (n : Z) : NoDup (range n).
Proof.
  unfold range. apply Injective_map_NoDup; [|apply seq_NoDup].
  intros a b H. lia.
Qed.

(** ** The two tables built over [range(total_bytes)] *)

Lemma getitem_int_build (f : Z -> json) (l : list Z) (k : Z) :
  In k l -> getitem_int (map (fun i => (i, f i)) l) k = Ok (f k).
Proof.
  induction l as [|j l IH]; [intros []|]. intros Hin. cbn [map getitem_int].
  destruct (Z.eqb_spec k j) as [->|Hne]; [reflexivity|].
  apply IH. destruct Hin; [congruence | assumption].
Qed.

Lemma assoc_dumped (f : Z -> json) (l : list Z) (i : Z) :
  In i l -> (forall j, In j l -> 0 <= j) ->
  assoc (str i) (map (fun kv => (str (fst kv), snd kv)) (map (fun j => (j, f j)) l))
  = Some (f i).
Proof.
  induction l as [|j l IH]; [intros []|]. intros Hin Hpos. cbn [map assoc fst snd].
  destruct (String.eqb_spec (str i) (str j)) as [E|Hne].
  - apply str_inj in E; [now subst | |].
    + apply Hpos, Hin.
    + apply Hpos. now left.
  - apply IH.
    + destruct Hin as [->|H]; [congruence | exact H].
    + intros k Hk. apply Hpos. now right.
Qed.

Lemma getitem_dumped (f : Z -> json) (n i : Z) :
  0 <= i < n ->
  getitem (dumped (map (fun j => (j, f j)) (range n))) (str i) = Ok (f i).
Proof.
  intros H. unfold dumped. cbn [getitem].
  rewrite assoc_dumped; [reflexivity | now apply in_range |].
  intros j Hj. apply in_range in Hj. lia.
Qed.

(** ** [process_frame] *)

Lemma process_frame_ok (total_bytes frame_idx : Z) :
  1 <= total_bytes ->
  process_frame total_bytes (build_color_mapping total_bytes) frame_idx
  = Ok (frame_of total_bytes frame_idx).
Proof.
  intros H. unfold process_frame, frame_of.
  destruct (frame_idx =? 5); [|reflexivity].
  unfold build_color_mapping. rewrite getitem_int_build.
  - reflexivity.
  - apply in_range. split; [apply Z.div_pos; lia | apply Z.div_lt_upper_bound; lia].
Qed.

(** ** Loops *)

Lemma same_but_videos_refl (w : world) : same_but_videos w w.
Proof. repeat split. Qed.

Lemma same_but_videos_trans (a b c : world) :
  same_but_videos a b -> same_but_videos b c -> same_but_videos a c.
Proof.
  unfold same_but_videos.
  intros (H1 & H2 & H3 & H4 & H5) (G1 & G2 & G3 & G4 & G5).
  repeat split; congruence.
Qed.

Lemma write_frame_run (p : string) (f : frame) (w : world) (written : list frame) :
  assoc p (videos w) = Some written ->
  exists w', write_frame p f w = (Ok tt, w') /\
             assoc p (videos w') = Some (written ++ [f]) /\
             same_but_videos w w'.
Proof.
  intros H. unfold write_frame, modify. rewrite H. eexists. split; [reflexivity|].
  split; [|repeat split].
  cbn [videos with_video assoc]. now rewrite String.eqb_refl.
Qed.

(** A loop whose body writes one frame per item. *)
Lemma write_loop {A} (p : string) (f : A -> frame) (body : A -> M unit) (l : list A) :
  (forall x w, In x l -> body x w = write_frame p (f x) w) ->
  forall w written,
    assoc p (videos w) = Some written ->
    exists w', for_each l body w = (Ok tt, w') /\
               assoc p (videos w') = Some (written ++ map f l) /\
               same_but_videos w w'.
Proof.
  induction l as [|x l IH]; intros Hb w written Hw; cbn [for_each map].
  - exists w. rewrite app_nil_r. split; [reflexivity|]. split; [exact Hw|].
    apply same_but_videos_refl.
  - destruct (write_frame_run p (f x) w written Hw) as (w1 & H1 & Hv1 & Hs1).
    rewrite <- Hb in H1 by now left.
    rewrite (DecodeFacts.bind_ok _ _ _ _ _ H1).
    destruct (IH (fun y w' Hy => Hb y w' (or_intror Hy)) w1 _ Hv1) as (w2 & H2 & Hv2 & Hs2).
    exists w2. split; [exact H2|]. split.
    + rewrite Hv2. now rewrite <- app_assoc.
    + eapply same_but_videos_trans; eassumption.
Qed.

(** A loop whose body logs and returns. *)
Lemma log_loop {A} (g : A -> list log_record) (body : A -> M unit) (l : list A) :
  (forall x w, In x l -> body x w = (Ok tt, append_log w (g x))) ->
  forall w, for_each l body w = (Ok tt, append_log w (flat_map g l)).
Proof.
  induction l as [|x l IH]; intros Hb w; cbn [for_each flat_map].
  - unfold ret. now rewrite append_log_nil.
  - rewrite (DecodeFacts.bind_ok _ _ _ _ _ (Hb x w (or_introl eq_refl))).
    rewrite IH by (intros; apply Hb; now right).
    now rewrite append_log_app.
Qed.

Lemma flat_map_single {A B} (g : A -> B) (l : list A) :
  flat_map (fun x => [g x]) l = map g l.
Proof. induction l as [|x l IH]; [reflexivity|]. cbn [flat_map map List.app]. now rewrite IH. Qed.

(** ** The encoder as a whole *)

Section Run.

Variable sha256 : list byte -> string.
Variables (filename : string) (content : list byte).

Let total_bytes : Z := Z.of_nat (List.length content).
Let metadata : json := metadata_of sha256 filename content video_path.

Lemma metadata_byte_ranges :
  getitem metadata "byte_ranges" = Ok (dumped (build_byte_to_block_map total_bytes)).
Proof. reflexivity. Qed.

Lemma log_loaded_metadata_run (w : world) :
  log_loaded_metadata total_bytes metadata w
  = (Ok tt,
     append_log w
       ((INFO, "Loaded Metadata: {}", [AJson metadata])
        :: map (fun i => (DEBUG, "Byte {} mapped to frame {} and block {}",
                          [AInt i; AJson (JNum 6); AJson (JNum i)]))
               (range total_bytes))).
Proof.
  unfold log_loaded_metadata.
  unfold bind at 1, logger at 1. unfold bind at 1, lift at 1.
  change (contains_key "byte_ranges" metadata) with (@Ok bool true). cbv iota.
  rewrite (log_loop
             (fun i => [(DEBUG, "Byte {} mapped to frame {} and block {}",
                         [AInt i; AJson (JNum 6); AJson (JNum i)])])).
  - rewrite append_log_app. now rewrite flat_map_single.
  - intros i w' Hi. apply in_range in Hi.
    unfold bind at 1, lift at 1. rewrite metadata_byte_ranges.
    pose proof (getitem_dumped block_entry total_bytes i Hi) as Hget.
    fold (build_byte_to_block_map total_bytes) in Hget.
    assert (Hin : contains_key (str i) (dumped (build_byte_to_block_map total_bytes))
                  = Ok true).
    { unfold dumped in *. cbn [getitem] in Hget. apply DecodeFacts.contains_key_field.
      cbn [field]. destruct (assoc _ _); [discriminate | discriminate]. }
    unfold bind at 1, lift at 1. rewrite Hin. cbn [negb].
    unfold bind at 1, lift at 1. rewrite Hget. reflexivity.
Qed.

Lemma frames_ok (schedule : list Z) :
  content <> [] \/ ~ In 5 schedule ->
  forall idx, In idx schedule ->
    process_frame total_bytes (build_color_mapping total_bytes) idx
    = Ok (frame_of total_bytes idx).
Proof.
  intros [Hne | H5] idx Hidx.
  - apply process_frame_ok. subst total_bytes.
    destruct content; [congruence | cbn [List.length]; lia].
  - unfold process_frame, frame_of. destruct (Z.eqb_spec idx 5) as [->|_]; [tauto|].
    reflexivity.
Qed.

Lemma encode_run (schedule : list Z) (w0 : world) :
  content <> [] \/ ~ In 5 schedule ->
  exists w1,
    convert_file_to_video sha256 filename content schedule w0
    = (Ok (Some video_path), w1) /\
    uploads w1 = (path_join UPLOAD_DIRECTORY filename, content) :: uploads w0 /\
    assoc video_path (videos w1)
    = Some (repeat black_frame 30 ++ map (frame_of total_bytes) schedule) /\
    mapping_file w1 = Some (dumped (build_color_mapping total_bytes)) /\
    metadata_file w1 = Some metadata /\
    reconstructed_file w1 = reconstructed_file w0 /\
    log w1 = log w0 ++ encode_log metadata total_bytes.
Proof.
  intros Hok. pose proof (frames_ok schedule Hok) as Hframes.
  unfold convert_file_to_video, try_except.
  change (path_join VIDEO_DIRECTORY "sample_video.mp4") with video_path.
  fold total_bytes. fold metadata.
  unfold bind at 1, modify at 1. unfold bind at 1, modify at 1.
  set (wa := with_video (with_upload w0 (path_join UPLOAD_DIRECTORY filename) content)
               video_path []).
  assert (Hva : assoc video_path (videos wa) = Some []) by reflexivity.
  destruct (write_loop video_path (fun _ : Z => black_frame)
              (fun _ : Z => write_frame video_path (zeros frame_height frame_width))
              (range 30) (fun _ _ _ => eq_refl) wa [] Hva)
    as (wb & Hb & Hvb & Hsb).
  unfold bind at 1. rewrite Hb.
  change ([] ++ map (fun _ : Z => black_frame) (range 30))
    with (repeat black_frame 30) in Hvb.
  destruct (write_loop video_path (frame_of total_bytes)
              (fun frame_idx =>
                 frame <- lift (process_frame total_bytes
                                  (build_color_mapping total_bytes) frame_idx) ;;
                 write_frame video_path frame)
              schedule) with (w := wb) (written := repeat black_frame 30)
    as (wc & Hc & Hvc & Hsc).
  { intros idx w Hidx. unfold bind, lift. now rewrite Hframes. }
  { exact Hvb. }
  unfold bind at 1. rewrite Hc.
  unfold bind at 1, modify at 1. unfold bind at 1, modify at 1.
  unfold bind at 1, get_world at 1.
  cbn [metadata_file with_metadata].
  unfold bind at 1. rewrite log_loaded_metadata_run.
  unfold bind at 1, logger at 1. unfold ret. rewrite append_log_app.
  eexists. split; [reflexivity|].
  destruct Hsb as (B1 & B2 & B3 & B4 & B5), Hsc as (C1 & C2 & C3 & C4 & C5).
  cbn [uploads videos mapping_file metadata_file reconstructed_file log
       append_log with_log with_metadata with_mapping].
  repeat split.
  - now rewrite C1, B1.
  - exact Hvc.
  - now rewrite C4, B4.
  - rewrite C5, B5. unfold encode_log. cbn [log wa with_video with_upload].
    f_equal.
Qed.

End Run.

(** ** The encoder on an empty upload *)

(** The collection loop on an empty upload: black frames are written until
    the future of frame 5 is collected, whose [KeyError] ends the loop. *)
Lemma schedule_loop_empty (schedule : list Z) :
  In 5 schedule ->
  forall w written,
    assoc video_path (videos w) = Some written ->
    exists w' k,
      for_each schedule
        (fun frame_idx =>
           frame <- lift (process_frame 0 (build_color_mapping 0) frame_idx) ;;
           write_frame video_path frame) w
      = (Raise KeyError, w') /\
      assoc video_path (videos w') = Some (written ++ repeat black_frame k) /\
      (k < List.length schedule)%nat /\
      same_but_videos w w'.
Proof.
  induction schedule as [|idx schedule IH]; [intros []|].
  intros Hin w written Hw. cbn [for_each].
  destruct (Z.eqb_spec idx 5) as [->|Hne].
  - exists w, 0%nat. cbn [repeat List.length]. rewrite app_nil_r.
    split; [reflexivity|]. split; [exact Hw|]. split; [lia|].
    apply same_but_videos_refl.
  - destruct Hin as [->|Hin]; [congruence|].
    destruct (write_frame_run video_path black_frame w written Hw) as (w1 & H1 & Hv1 & Hs1).
    assert (Hbody : (frame <- lift (process_frame 0 (build_color_mapping 0) idx) ;;
                     write_frame video_path frame) w = (Ok tt, w1)).
    { unfold bind at 1, lift at 1, process_frame.
      destruct (Z.eqb_spec idx 5); [congruence | exact H1]. }
    rewrite (DecodeFacts.bind_ok _ _ _ _ _ Hbody).
    destruct (IH Hin w1 _ Hv1) as (w2 & k & H2 & Hv2 & Hk & Hs2).
    exists w2, (S k). split; [exact H2|]. split.
    + rewrite Hv2, <- app_assoc. reflexivity.
    + split; [cbn [List.length]; lia|].
      eapply same_but_videos_trans; eassumption.
Qed.

Lemma encode_empty (sha256 : list byte -> string) (filename : string)
    (schedule : list Z) (w0 : world) :
  In 5 schedule ->
  exists w1 k,
    convert_file_to_video sha256 filename [] schedule w0 = (Ok None, w1) /\
    uploads w1 = (path_join UPLOAD_DIRECTORY filename, []) :: uploads w0 /\
    assoc video_path (videos w1) = Some (repeat black_frame (30 + k)) /\
    (k < List.length schedule)%nat /\
    mapping_file w1 = mapping_file w0 /\
    metadata_file w1 = metadata_file w0 /\
    reconstructed_file w1 = reconstructed_file w0 /\
    log w1 = log w0 ++ [(ERROR, "Error converting file to video: {}", [AExn KeyError])].
Proof.
  intros H5.
  unfold convert_file_to_video, try_except.
  change (path_join VIDEO_DIRECTORY "sample_video.mp4") with video_path.
  unfold bind at 1, modify at 1. unfold bind at 1, modify at 1.
  set (wa := with_video (with_upload w0 (path_join UPLOAD_DIRECTORY filename) [])
               video_path []).
  assert (Hva : assoc video_path (videos wa) = Some []) by reflexivity.
  destruct (write_loop video_path (fun _ : Z => black_frame)
              (fun _ : Z => write_frame video_path (zeros frame_height frame_width))
              (range 30) (fun _ _ _ => eq_refl) wa [] Hva)
    as (wb & Hb & Hvb & Hsb).
  unfold bind at 1. rewrite Hb.
  change ([] ++ map (fun _ : Z => black_frame) (range 30))
    with (repeat black_frame 30) in Hvb.
  cbn [List.length Z.of_nat].
  destruct (schedule_loop_empty schedule H5 wb _ Hvb) as (wc & k & Hc & Hvc & Hk & Hsc).
  unfold bind at 1. rewrite Hc.
  unfold bind, logger, ret.
  eexists. exists k. split; [reflexivity|].
  destruct Hsb as (B1 & B2 & B3 & B4 & B5), Hsc as (C1 & C2 & C3 & C4 & C5).
  cbn [uploads videos mapping_file metadata_file reconstructed_file log
       append_log with_log].
  repeat split.
  - now rewrite C1, B1.
  - rewrite Hvc. now rewrite <- repeat_app.
  - exact Hk.
  - now rewrite C2, B2.
  - now rewrite C3, B3.
  - now rewrite C4, B4.
  - now rewrite C5, B5.
Qed.

End EncodeFacts.

(* ================================================================== *)
(** * Decoding what the encoder wrote                                   *)
(* ================================================================== *)

Module RoundTripFacts.
Import Py World Props Logic PyFacts Utils Conversion DecodeFacts EncodeFacts.
Local Open Scope codec_scope.

(** The outer loop of the recoverer skips every entry without
    ['coordinates']. *)
Lemma reconstruct_no_coordinates (frame : World.frame) (cm : json)
    (entries : list (string * json)) :
  (forall e, In e entries -> contains_key "coordinates" (snd e) = Ok false) ->
  forall buf w, for_fold entries buf (reconstruct_entry frame cm) w = (Ok buf, w).
Proof.
  induction entries as [|e entries IH]; intros H buf w; cbn [for_fold]; [reflexivity|].
  unfold bind at 1, reconstruct_entry at 1. unfold bind at 1, lift at 1.
  rewrite (H e (or_introl eq_refl)). unfold ret at 1.
  apply IH. intros; apply H; now right.
Qed.

Lemma dumped_entries (f : Z -> json) (n : Z) (e : string * json) :
  In e (map (fun kv => (str (fst kv), snd kv)) (map (fun j => (j, f j)) (range n))) ->
  exists i, 0 <= i < n /\ e = (str i, f i).
Proof.
  rewrite map_map. cbn [fst snd]. rewrite in_map_iff.
  intros (i & <- & Hi). apply in_range in Hi. now exists i.
Qed.

Section Encoded.

Variable sha256 : list byte -> string.
Variables (filename : string) (content : list byte).

Let total_bytes : Z := Z.of_nat (List.length content).
Let metadata : json := metadata_of sha256 filename content video_path.
Let entries : list (string * json) :=
  map (fun kv => (str (fst kv), snd kv)) (build_byte_to_block_map total_bytes).

Lemma encoded_byte_ranges : field "byte_ranges" metadata = Some (JObj entries).
Proof. reflexivity. Qed.

Lemma encoded_entry (e : string * json) :
  In e entries -> exists i, 0 <= i < total_bytes /\ e = (str i, block_entry i).
Proof. apply dumped_entries. Qed.

Lemma encoded_entries_length : List.length entries = List.length content.
Proof.
  unfold entries, build_byte_to_block_map. rewrite !length_map, range_length.
  subst total_bytes. lia.
Qed.

Lemma encoded_well_formed : content <> [] -> well_formed_manifest metadata.
Proof.
  intros Hne. split.
  - intros k [<-|[<-|[<-|[]]]]; discriminate.
  - rewrite encoded_byte_ranges. pose proof encoded_entries_length as Hlen.
    destruct entries as [|kv rest].
    + destruct content; [congruence | discriminate].
    + now exists kv, rest.
Qed.

Lemma encoded_submittable : submittable metadata.
Proof.
  intros es Hes. rewrite encoded_byte_ranges in Hes. injection Hes as <-.
  apply Forall_forall. intros e He.
  destruct (encoded_entry e He) as (i & _ & ->).
  exists (JNum 6). split; [reflexivity|]. intros _. now exists (JNum i).
Qed.

(** On a manifest written by the encoder every worker returns no byte. *)
Lemma reconstruct_encoded (frame : World.frame) (cm : json) (w : world) :
  fst (reconstruct_bytes_from_frame frame cm metadata w) = Ok [].
Proof.
  unfold reconstruct_bytes_from_frame.
  unfold bind at 1, logger at 1. unfold bind at 1, lift at 1.
  rewrite (field_getitem _ _ _ encoded_byte_ranges).
  unfold bind at 1, lift at 1. cbn [items].
  unfold bind at 1. rewrite reconstruct_no_coordinates; [reflexivity|].
  intros e He. destruct (encoded_entry e He) as (i & _ & ->). reflexivity.
Qed.

(** Whatever the video and the colour table, a decode that runs on a
    manifest written by the encoder reconstructs the empty stream. *)
Lemma decode_encoded_manifest (vp : string) (w2 w3 : world) (res : string) :
  metadata_file w2 = Some metadata ->
  convert_video_to_file sha256 vp w2 = (Ok (Some res), w3) ->
  res = RECONSTRUCTED_FILE_PATH /\ reconstructed_file w3 = Some [].
Proof.
  intros Hmd Hrun.
  destruct (decode_run sha256 vp w2)
    as [(l0 & t & a & Hd & _) |
        (md & cap & cm & s & h & futures & w' & bytes & l0 &
         Hmd' & _ & _ & _ & _ & _ & Hfut & Hcol & Hd)];
    rewrite Hd in Hrun; [discriminate|].
  injection Hrun as <- <-. split; [reflexivity|].
  rewrite Hmd in Hmd'. injection Hmd' as <-.
  destruct (collect_futures_run (fun b => b = []) futures) with (w := w')
    as (bytes' & l' & Hcol' & ->).
  - intros f Hf. destruct (Hfut f Hf) as (frame & _ & ->). apply reconstruct_logs_only.
  - intros f w r acc Hf Hr ->. destruct (Hfut f Hf) as (frame & _ & ->).
    rewrite reconstruct_encoded in Hr. now injection Hr as <-.
  - reflexivity.
  - rewrite Hcol' in Hcol. cbn [fst] in Hcol. injection Hcol as <-. reflexivity.
Qed.

(** Encode, then decode the video the encoder returned. *)
Lemma encode_then_decode (schedule : list Z) (w0 : world) :
  content <> [] ->
  exists w1 w2,
    convert_file_to_video sha256 filename content schedule w0
    = (Ok (Some video_path), w1) /\
    convert_video_to_file sha256 video_path w1
    = (Ok (Some RECONSTRUCTED_FILE_PATH), w2) /\
    reconstructed_file w2 = Some [].
Proof.
  intros Hne.
  destruct (encode_run sha256 filename content schedule w0 (or_introl Hne))
    as (w1 & Henc & _ & Hvid & Hmap & Hmd & _ & _).
  exists w1.
  destruct (decode_run sha256 video_path w1)
    as [(l0 & t & a & Hd & Hcause & _) |
        (md & cap & cm & s & h & futures & w' & bytes & l0 & _ & _ & _ & _ & _ & _ & _ & _ & Hd)].
  - exfalso. fold metadata in Hmd.
    destruct Hcause as [H | [(md & H & Hn) | [H | [H | (md & H & Hn)]]]];
      try congruence.
    + rewrite Hmd in H. injection H as <-. now apply Hn, encoded_well_formed.
    + rewrite Hmd in H. injection H as <-. apply Hn, encoded_submittable.
  - eexists. split; [exact Henc|]. split; [exact Hd|].
    eapply decode_encoded_manifest; [exact Hmd | exact Hd].
Qed.

End Encoded.

End RoundTripFacts.

(* ================================================================== *)
(** * Facts about sampling and colour lookup                            *)
(* ================================================================== *)

Module LookupFacts.
Import Py World Props Logic PyFacts Utils Conversion DecodeFacts EncodeFacts.
Local Open Scope codec_scope.

(** ** Slices and block means *)

Lemma slice_indices_block (n y : Z) :
  0 <= y -> y + 4 <= n -> slice_indices n y (y + 4) = [y + 0; y + 1; y + 2; y + 3].
Proof.
  intros Hy Hn. unfold slice_indices, slice_bound.
  destruct (Z.ltb_spec y 0); [lia|]. destruct (Z.ltb_spec (y + 4) 0); [lia|].
  rewrite (Z.min_r n y), (Z.min_r n (y + 4)) by lia.
  rewrite (Z.max_r 0 y), (Z.max_r 0 (y + 4)) by lia.
  replace (y + 4 - y) with 4 by lia. reflexivity.
Qed.

Lemma block_pixels_block4 (f : frame) (x y : Z) :
  0 <= x -> 0 <= y -> y + 4 <= shape0 f -> x + 4 <= shape1 f ->
  block_pixels f y (y + 4) x (x + 4) = block4 f x y.
Proof.
  intros Hx Hy HH HW. unfold block_pixels.
  rewrite (slice_indices_block _ y Hy HH), (slice_indices_block _ x Hx HW).
  reflexivity.
Qed.

(** ** The lookup loop *)

Lemma match_color_miss (k : string) (v : json) (rest : list (string * json))
    (c : pixel) (x y : json) (buf : list byte) (w : world) :
  color_isnt v c ->
  match_color ((k, v) :: rest) c x y buf w
  = match_color rest c x y buf
      (append_log w [(DEBUG, "Checking mapped color: {} against block color: {}",
                      [AJson v; AColor (Some c)])]).
Proof.
  intros (r & g & b & Hr & Hg & Hb & Hne). cbn [match_color].
  unfold bind at 1, logger at 1.
  unfold bind at 1, lift at 1. rewrite Hr.
  unfold bind at 1, lift at 1. rewrite Hg.
  unfold bind at 1, lift at 1. rewrite Hb.
  now rewrite Hne.
Qed.

Lemma match_color_skip (pre rest : list (string * json)) (c : pixel) (x y : json)
    (buf : list byte) :
  Forall (fun e => color_isnt (snd e) c) pre ->
  forall w, exists l,
    match_color (pre ++ rest) c x y buf w = match_color rest c x y buf (append_log w l).
Proof.
  induction pre as [|[k v] pre IH]; intros H w.
  - exists []. now rewrite append_log_nil.
  - inversion H as [|? ? Hv Hpre]; subst. cbn [snd] in Hv.
    destruct (IH Hpre (append_log w [(DEBUG, "Checking mapped color: {} against block color: {}",
                                       [AJson v; AColor (Some c)])])) as (l & Hl).
    eexists. rewrite <- app_comm_cons.
    rewrite (match_color_miss k v _ c x y buf w Hv), Hl, append_log_app.
    reflexivity.
Qed.

Lemma match_color_hit (k : string) (v : json) (rest : list (string * json))
    (c : pixel) (x y : json) (buf : list byte) (w : world) :
  color_is v c ->
  fst (match_color ((k, v) :: rest) c x y buf w)
  = match int k with
    | Ok n =>
        match bytearray_append buf n with
        | Ok buf' => Ok (true, buf')
        | Raise e => Raise e
        end
    | Raise e => Raise e
    end.
Proof.
  intros (r & g & b & Hr & Hg & Hb & Heq). cbn [match_color].
  unfold bind at 1, logger at 1.
  unfold bind at 1, lift at 1. rewrite Hr.
  unfold bind at 1, lift at 1. rewrite Hg.
  unfold bind at 1, lift at 1. rewrite Hb.
  rewrite Heq. unfold bind at 1, lift at 1.
  destruct (int k) as [n|e]; [|reflexivity].
  unfold bind at 1, lift at 1.
  destruct (bytearray_append buf n) as [buf'|e]; reflexivity.
Qed.

(** The first entry of the table that reads as [c] decides the lookup. *)
Lemma match_color_first (pre post : list (string * json)) (k : string) (v : json)
    (c : pixel) (x y : json) (buf : list byte) (w : world) :
  Forall (fun e => color_isnt (snd e) c) pre ->
  color_is v c ->
  fst (match_color (pre ++ (k, v) :: post) c x y buf w)
  = match int k with
    | Ok n =>
        match bytearray_append buf n with
        | Ok buf' => Ok (true, buf')
        | Raise e => Raise e
        end
    | Raise e => Raise e
    end.
Proof.
  intros Hpre Hv.
  destruct (match_color_skip pre ((k, v) :: post) c x y buf Hpre w) as (l & ->).
  now apply match_color_hit.
Qed.

Lemma bytearray_append_ok (buf : list byte) (n : Z) :
  0 <= n < 256 ->
  exists b, Byte.to_N b = Z.to_N n /\ bytearray_append buf n = Ok (buf ++ [b]).
Proof.
  intros H. unfold bytearray_append.
  destruct (Z.leb_spec 0 n); [|lia]. destruct (Z.ltb_spec n 256); [|lia]. cbn [andb].
  destruct (Byte.of_N (Z.to_N n)) as [b|] eqn:E.
  - exists b. split; [|reflexivity]. now apply Byte.to_of_N.
  - apply Byte.of_N_None_iff in E. lia.
Qed.

Lemma bytearray_append_out (buf : list byte) (n : Z) :
  n < 0 \/ 256 <= n -> bytearray_append buf n = Raise ValueError.
Proof.
  intros H. unfold bytearray_append.
  destruct (Z.leb_spec 0 n), (Z.ltb_spec n 256); cbn [andb]; try reflexivity. lia.
Qed.

Lemma range_split (n m : Z) :
  0 <= m < n -> exists rest, range n = range m ++ m :: rest.
Proof.
  intros H. unfold range.
  replace (Z.to_nat n) with (Z.to_nat m + S (Z.to_nat (n - m - 1)))%nat by lia.
  rewrite seq_app, map_app. cbn [seq map Nat.add].
  rewrite Z2Nat.id by lia. now eexists.
Qed.

(** ** Colours of the encoder's table *)

Lemma color_entry_matches (j : Z) (c : pixel) :
  color_matches (color_entry j) c
    (((j * 3) mod 256 =? chan_r c) && ((j * 5) mod 256 =? chan_g c)
     && ((j * 7) mod 256 =? chan_b c))%bool.
Proof. eexists; eexists; eexists. repeat split. Qed.

Lemma rgb_mod (i : Z) : rgb (i mod 256) = rgb i.
Proof.
  unfold rgb. now rewrite !Z.mul_mod_idemp_l by lia.
Qed.

Lemma color_entry_is (i : Z) : color_is (color_entry (i mod 256)) (rgb i).
Proof.
  rewrite <- rgb_mod. unfold color_is.
  pose proof (color_entry_matches (i mod 256) (rgb (i mod 256))) as H.
  unfold rgb, chan_r, chan_g, chan_b in H. cbn [fst snd] in H.
  now rewrite !Z.eqb_refl in H.
Qed.

Lemma color_entry_isnt (i j : Z) :
  0 <= j < i mod 256 -> color_isnt (color_entry j) (rgb i).
Proof.
  intros Hj. rewrite <- rgb_mod. unfold color_isnt.
  pose proof (color_entry_matches j (rgb (i mod 256))) as H.
  unfold rgb, chan_r, chan_g, chan_b in H. cbn [fst snd] in H.
  pose proof (Z.mod_pos_bound i 256 ltac:(lia)) as Hm.
  destruct (Z.eqb_spec ((j * 3) mod 256) ((i mod 256 * 3) mod 256)) as [E|_];
    [|exact H].
  exfalso.
  pose proof (Z.div_mod (j * 3) 256 ltac:(lia)).
  pose proof (Z.div_mod (i mod 256 * 3) 256 ltac:(lia)).
  pose proof (Z.mod_pos_bound (j * 3) 256 ltac:(lia)).
  lia.
Qed.

End LookupFacts.

(* ================================================================== *)
(** * Further facts about the decoder                                   *)
(* ================================================================== *)

Module MoreDecodeFacts.
Import Py World Props Logic PyFacts Utils Conversion DecodeFacts EncodeFacts LookupFacts.
Local Open Scope codec_scope.

(** ** Computations whose outcome does not depend on the world *)

Lemma oblivious_ret {A} (a : A) : oblivious (ret a).
Proof. exists (Ok a). intros w. exists []. now rewrite append_log_nil. Qed.

Lemma oblivious_lift {A} (o : outcome A) : oblivious (lift o).
Proof. exists o. intros w. exists []. now rewrite append_log_nil. Qed.

Lemma oblivious_logger l t a : oblivious (logger l t a).
Proof. exists (Ok tt). intros w. now exists [(l, t, a)]. Qed.

Lemma oblivious_bind {A B} (c : M A) (k : A -> M B) :
  oblivious c -> (forall a, oblivious (k a)) -> oblivious (bind c k).
Proof.
  intros [o Hc] Hk. destruct o as [a|e].
  - destruct (Hk a) as [o' Hka]. exists o'. intros w. unfold bind.
    destruct (Hc w) as (l & ->). destruct (Hka (append_log w l)) as (l' & ->).
    exists (l ++ l'). now rewrite append_log_app.
  - exists (Raise e). intros w. unfold bind. destruct (Hc w) as (l & ->). now exists l.
Qed.

Lemma oblivious_for_fold {A S} (l : list A) (body : S -> A -> M S) :
  (forall acc x, oblivious (body acc x)) ->
  forall acc, oblivious (for_fold l acc body).
Proof.
  induction l as [|x l IH]; intros Hb acc; cbn [for_fold].
  - apply oblivious_ret.
  - apply oblivious_bind; [apply Hb|]. intros acc'. now apply IH.
Qed.

Ltac oblivious_step :=
  first
    [ apply oblivious_ret
    | apply oblivious_lift
    | apply oblivious_logger
    | apply oblivious_bind; [| intros ? ]
    | match goal with
      | |- oblivious (if ?b then _ else _) => destruct b
      | |- oblivious (match ?o with Some _ => _ | None => _ end) => destruct o
      end ].

Lemma process_block_oblivious frame x y : oblivious (process_block frame x y).
Proof. unfold process_block. repeat oblivious_step. Qed.

Lemma match_color_oblivious entries c x y : forall buf,
  oblivious (match_color entries c x y buf).
Proof.
  induction entries as [|[k v] entries IH]; intros buf; cbn [match_color].
  - apply oblivious_ret.
  - repeat oblivious_step. apply IH.
Qed.

Lemma reconstruct_entry_oblivious frame cm buf entry :
  oblivious (reconstruct_entry frame cm buf entry).
Proof.
  unfold reconstruct_entry.
  repeat (first [ apply process_block_oblivious | apply match_color_oblivious
                | oblivious_step ]).
Qed.

Lemma reconstruct_oblivious frame cm md :
  oblivious (reconstruct_bytes_from_frame frame cm md).
Proof.
  unfold reconstruct_bytes_from_frame.
  repeat (first [ apply oblivious_for_fold; intros; apply reconstruct_entry_oblivious
                | oblivious_step ]).
Qed.

(** ** The two loops over the futures, exactly *)

Section Submission.

Variables (frame : World.frame) (cm md : json).

Let worker : M (list byte) := reconstruct_bytes_from_frame frame cm md.

Let submit_body (futures : list (M (list byte))) (entry : string * json)
    : M (list (M (list byte))) :=
  let block_info := snd entry in
  block_frame <- lift (getitem block_info "frame") ;;
  if eq_int block_frame 6 then
    block <- lift (getitem block_info "block") ;;
    logger DEBUG "Processing block {} for frame 6" [AJson block] ;;;
    ret (futures ++ [worker])
  else ret futures.

Lemma submit_body_exact (futures : list (M (list byte))) (entry : string * json)
    (w : world) :
  exists o l,
    submit_body futures entry w = (o, append_log w l) /\
    (submittable_entry entry ->
     o = Ok (futures ++ if on_frame_6 entry then [worker] else [])) /\
    ((exists fs, o = Ok fs) -> submittable_entry entry).
Proof.
  unfold submit_body, bind, lift, logger, ret, on_frame_6.
  destruct (getitem (snd entry) "frame") as [fr|e] eqn:Efr.
  2:{ exists (Raise e), []. rewrite append_log_nil. split; [reflexivity|]. split.
      - intros (fr & Hfr & _). congruence.
      - intros (fs & [=]). }
  destruct (eq_int fr 6) eqn:E6.
  - destruct (getitem (snd entry) "block") as [blk|e] eqn:Eblk.
    + eexists; eexists. split; [reflexivity|]. split; [reflexivity|].
      intros _. exists fr. split; [exact Efr|]. intros _. now exists blk.
    + exists (Raise e), []. rewrite append_log_nil. split; [reflexivity|]. split.
      * intros (fr' & Hfr & Hblk). rewrite Efr in Hfr. injection Hfr as <-.
        destruct (Hblk E6) as (blk & Hb). congruence.
      * intros (fs & [=]).
  - exists (Ok futures), []. rewrite append_log_nil. split; [reflexivity|]. split.
    + intros _. now rewrite app_nil_r.
    + intros _. exists fr. split; [exact Efr|]. intros H6. congruence.
Qed.

Lemma submit_loop_exact (entries : list (string * json)) :
  forall futures w,
    exists o l,
      for_fold entries futures submit_body w = (o, append_log w l) /\
      (Forall submittable_entry entries ->
       o = Ok (futures ++ repeat worker (List.length (filter on_frame_6 entries)))) /\
      ((exists fs, o = Ok fs) -> Forall submittable_entry entries).
Proof.
  induction entries as [|entry entries IH]; intros futures w; cbn [for_fold].
  - exists (Ok futures), []. rewrite append_log_nil. cbn [filter List.length repeat].
    rewrite app_nil_r. split; [reflexivity|]. split; [reflexivity | constructor].
  - destruct (submit_body_exact futures entry w) as (o & l & Hrun & Hfwd & Hback).
    destruct o as [fs|e].
    + rewrite (bind_ok _ _ _ _ _ Hrun).
      destruct (IH fs (append_log w l)) as (o' & l' & Hrun' & Hfwd' & Hback').
      exists o', (l ++ l'). rewrite <- append_log_app. split; [exact Hrun'|].
      assert (He : submittable_entry entry) by (apply Hback; now exists fs).
      split.
      * intros H. inversion H as [|? ? _ Hrest]; subst.
        rewrite (Hfwd' Hrest). specialize (Hfwd He). injection Hfwd as ->.
        cbn [filter]. destruct (on_frame_6 entry); cbn [List.length repeat].
        -- now rewrite <- app_assoc.
        -- now rewrite app_nil_r.
      * intros Hfs. constructor; [exact He | now apply Hback'].
    + rewrite (bind_raise _ _ _ _ _ Hrun).
      exists (Raise e), l. split; [reflexivity|]. split.
      * intros H. inversion H as [|? ? He _]; subst. specialize (Hfwd He). discriminate.
      * intros (fs & [=]).
Qed.

End Submission.

Lemma submit_blocks_exact (frame : World.frame) (cm md : json) (w : world) :
  well_formed_manifest md ->
  exists o l,
    submit_blocks frame cm md w = (o, append_log w l) /\
    (submittable md ->
     o = Ok (repeat (reconstruct_bytes_from_frame frame cm md) (frame_6_count md))) /\
    ((exists fs, o = Ok fs) -> submittable md).
Proof.
  intros [_ (kv & rest & Hbr)].
  unfold submit_blocks. unfold bind at 1, lift at 1.
  rewrite (field_getitem _ _ _ Hbr). unfold bind at 1, lift at 1. cbn [items].
  destruct (submit_loop_exact frame cm md (kv :: rest) [] w) as (o & l & Hrun & Hall & Hback).
  exists o, l. split; [exact Hrun|]. split.
  - intros Hsub. unfold frame_6_count. rewrite Hbr.
    rewrite (Hall (Hsub _ Hbr)). reflexivity.
  - intros Hfs es Hes. rewrite Hbr in Hes. injection Hes as <-. now apply Hback.
Qed.

Lemma collect_repeat (worker : M (list byte)) (o : outcome (list byte)) :
  (forall w, exists l, worker w = (o, append_log w l)) ->
  forall n acc w, exists l,
    for_fold (repeat worker n) acc
      (fun original_bytes future =>
         try_except
           (frame_bytes <- future ;;
            logger DEBUG "Frame bytes received: {}, type: {}"
              [ABytes frame_bytes; AStr "<class 'bytearray'>"] ;;;
            ret (original_bytes ++ frame_bytes))
           (fun e =>
              logger ERROR "Error processing future: {}" [AExn e] ;;;
              ret original_bytes)) w
    = (Ok (acc ++ match o with
                  | Ok r => List.concat (repeat r n)
                  | Raise _ => []
                  end),
       append_log w l).
Proof.
  intros Hw n. induction n as [|n IH]; intros acc w; cbn [repeat for_fold].
  - exists []. rewrite append_log_nil. unfold ret.
    destruct o; cbn [List.concat]; now rewrite app_nil_r.
  - unfold bind at 1, try_except at 1, bind at 1.
    destruct (Hw w) as (l & ->). destruct o as [r|e].
    + unfold bind at 1, logger at 1, ret at 1.
      destruct (IH (acc ++ r)
                  (append_log (append_log w l)
                     [(DEBUG, "Frame bytes received: {}, type: {}",
                       [ABytes r; AStr "<class 'bytearray'>"])]))
        as (l' & ->).
      eexists. rewrite !append_log_app. cbn [List.concat]. now rewrite <- app_assoc.
    + unfold bind at 1, logger at 1, ret at 1.
      destruct (IH acc (append_log (append_log w l)
                          [(ERROR, "Error processing future: {}", [AExn e])]))
        as (l' & ->).
      eexists. rewrite !append_log_app. reflexivity.
Qed.

Lemma collect_futures_nil (w : world) : collect_futures [] w = (Ok [], w).
Proof. reflexivity. Qed.

(** ** The decoder past its checks *)

(** Once the manifest is verified and the video and the colour table are
    found, the decoder is its two loops followed by the integrity check. *)
Lemma decode_unfold (sha256 : list byte -> string) (vp : string) (w : world)
    (md : json) (cap : list World.frame) (cm s h : json) :
  metadata_file w = Some md ->
  well_formed_manifest md ->
  assoc vp (videos w) = Some cap ->
  mapping_file w = Some cm ->
  field "file_size" md = Some s ->
  field "file_hash" md = Some h ->
  convert_video_to_file sha256 vp w
  = let start :=
      [(INFO, "Loaded metadata for video: {}", [AJson md]);
       passed_record;
       (INFO, "Total frames in video: {}", [AInt (Z.of_nat (List.length cap))])] in
    let submitted :=
      match nth_error cap 6 with
      | Some frame =>
          submit_blocks frame cm md
            (append_log w (start ++ [(INFO, "Submitting frame 6 for processing", [])]))
      | None =>
          (Ok [],
           append_log w
             (start ++ [(ERROR, "Failed to read frame 6. Stopping reconstruction.", [])]))
      end in
    match fst submitted with
    | Raise e =>
        (Ok None,
         append_log (snd submitted)
           [(ERROR, "An error occurred during video to file conversion: {}", [AExn e])])
    | Ok futures =>
        let collected := collect_futures futures (snd submitted) in
        match fst collected with
        | Ok bytes =>
            (Ok (Some RECONSTRUCTED_FILE_PATH),
             append_log (with_reconstructed (snd collected) bytes)
               (saved_record :: integrity_log (sha256 bytes) s h bytes))
        | Raise e =>
            (Ok None,
             append_log (snd collected)
               [(ERROR, "An error occurred during video to file conversion: {}",
                 [AExn e])])
        end
    end.
Proof.
  intros Hmd Hwf Hcap Hcm Hs Hh. cbv zeta.
  unfold convert_video_to_file, try_except.
  unfold bind at 1, get_world at 1. rewrite Hmd.
  unfold bind at 1, logger at 1. unfold bind at 1.
  destruct (verify_metadata_run md
              (append_log w [(INFO, "Loaded metadata for video: {}", [AJson md])]))
    as [[_ Hv] | [Hn _]]; [|contradiction].
  rewrite Hv. cbn [negb]. rewrite Hcap, Hcm.
  unfold bind at 1, logger at 1. rewrite !append_log_app. cbn [List.app].
  unfold bind at 1.
  destruct (nth_error cap 6) as [frame|].
  - unfold bind at 1, logger at 1. rewrite !append_log_app. cbn [List.app].
    destruct (submit_blocks frame cm md _) as [[futures|e] w2]; cbn [fst snd];
      [|reflexivity].
    unfold bind at 1.
    destruct (collect_futures futures w2) as [[bytes|e] w3]; cbn [fst snd];
      [|reflexivity].
    unfold bind at 1, modify at 1. unfold bind at 1, logger at 1. unfold bind at 1.
    erewrite check_file_properties_run; [| reflexivity | exact Hs | exact Hh].
    unfold ret. rewrite append_log_app. reflexivity.
  - unfold bind at 1, logger at 1, ret at 1. rewrite !append_log_app. cbn [List.app fst snd].
    unfold bind at 1.
    destruct (collect_futures [] _) as [[bytes|e] w3]; cbn [fst snd];
      [|reflexivity].
    unfold bind at 1, modify at 1. unfold bind at 1, logger at 1. unfold bind at 1.
    erewrite check_file_properties_run; [| reflexivity | exact Hs | exact Hh].
    unfold ret. rewrite append_log_app. reflexivity.
Qed.

Lemma well_formed_fields (md : json) :
  well_formed_manifest md ->
  exists s h, field "file_size" md = Some s /\ field "file_hash" md = Some h.
Proof.
  intros [Hkeys _].
  destruct (field "file_size" md) as [s|] eqn:Hs;
    [| exfalso; apply (Hkeys "file_size"); [cbn; tauto | exact Hs]].
  destruct (field "file_hash" md) as [h|] eqn:Hh;
    [| exfalso; apply (Hkeys "file_hash"); [cbn; tauto | exact Hh]].
  now exists s, h.
Qed.

End MoreDecodeFacts.

(* ================================================================== *)
(** * Further facts about sampling and lookup                           *)
(* ================================================================== *)

Module MoreLookupFacts.
Import Py World Props Logic PyFacts Utils Conversion DecodeFacts EncodeFacts LookupFacts.
Local Open Scope codec_scope.

Lemma process_block_in_bounds (frame : World.frame) (x y : Z) (w : world) :
  0 <= x -> 0 <= y -> y + 4 <= shape0 frame -> x + 4 <= shape1 frame ->
  process_block frame (JNum x) (JNum y) w
  = (Ok (Some (mean_truncated frame x y)),
     append_log w
       [(DEBUG, "Average color for block ({}, {}): R={}, G={}, B={}",
         [AJson (JNum x); AJson (JNum y);
          AInt (chan_r (mean_truncated frame x y));
          AInt (chan_g (mean_truncated frame x y));
          AInt (chan_b (mean_truncated frame x y))])]).
Proof.
  intros Hx Hy HH HW. unfold process_block.
  unfold bind at 1, lift at 1. cbn [as_int]. unfold bind at 1, ret at 1.
  destruct (Z.leb_spec (y + 4) (shape0 frame)); [|lia].
  unfold bind at 1. unfold bind at 1, lift at 1, ret at 1.
  destruct (Z.leb_spec (x + 4) (shape1 frame)); [|lia].
  unfold bind at 1, lift at 1. unfold bind at 1, lift at 1.
  rewrite block_pixels_block4 by assumption.
  reflexivity.
Qed.

Lemma mem_block (y i : Z) :
  0 <= i < 4 -> mem (y + i) [y + 0; y + 1; y + 2; y + 3] = true.
Proof.
  intros Hi. unfold mem. cbn [existsb].
  assert (Hcases : i = 0 \/ i = 1 \/ i = 2 \/ i = 3) by lia.
  destruct Hcases as [-> | [-> | [-> | ->]]];
    rewrite Z.eqb_refl, ?orb_true_r; reflexivity.
Qed.

(** The block just assigned reads back as sixteen copies of its colour. *)
Lemma block4_assign (f : frame) (x y : Z) (c : pixel) :
  0 <= x -> 0 <= y -> y + 4 <= shape0 f -> x + 4 <= shape1 f ->
  block4 (assign_block f y (y + 4) x (x + 4) c) x y = repeat c 16.
Proof.
  intros Hx Hy HH HW. unfold block4, assign_block. cbn [px flat_map map List.app].
  rewrite (slice_indices_block _ y Hy HH), (slice_indices_block _ x Hx HW).
  rewrite !mem_block by lia. reflexivity.
Qed.

Lemma mean_of_constant (f : frame) (x y : Z) (c : pixel) :
  block4 f x y = repeat c 16 -> mean_truncated f x y = c.
Proof.
  intros H. unfold mean_truncated. rewrite H. destruct c as [[r g] b].
  unfold channel_sum, chan_r, chan_g, chan_b.
  cbn [repeat map fold_right fst snd].
  replace (r + (r + (r + (r + (r + (r + (r + (r + (r + (r + (r + (r + (r + (r +
            (r + (r + 0)))))))))))))))) with (r * 16) by lia.
  replace (g + (g + (g + (g + (g + (g + (g + (g + (g + (g + (g + (g + (g + (g +
            (g + (g + 0)))))))))))))))) with (g * 16) by lia.
  replace (b + (b + (b + (b + (b + (b + (b + (b + (b + (b + (b + (b + (b + (b +
            (b + (b + 0)))))))))))))))) with (b * 16) by lia.
  now rewrite !Z.quot_mul by lia.
Qed.

(** Sampling the block that was just painted returns its colour. *)
Lemma sample_painted_block (f : frame) (x y : Z) (c : pixel) (w : world) :
  0 <= x -> 0 <= y -> y + 4 <= shape0 f -> x + 4 <= shape1 f ->
  exists l,
    process_block (assign_block f y (y + 4) x (x + 4) c) (JNum x) (JNum y) w
    = (Ok (Some c), append_log w l).
Proof.
  intros Hx Hy HH HW.
  rewrite process_block_in_bounds by assumption.
  rewrite (mean_of_constant _ x y c) by now apply block4_assign.
  now eexists.
Qed.

(** The lookup of the colour of index [i] in the table the encoder saves. *)
Lemma byteFor_table (total_bytes i : Z) :
  0 <= i < total_bytes ->
  byteFor (dumped (build_color_mapping total_bytes)) (rgb i) = Some (i mod 256).
Proof.
  intros Hi.
  pose proof (Z.mod_pos_bound i 256 ltac:(lia)) as Hm.
  assert (Hle : i mod 256 <= i) by (apply Z.mod_le; lia).
  destruct (range_split total_bytes (i mod 256)) as (rest & Hsplit); [lia|].
  unfold byteFor, dumped, build_color_mapping. cbn [items].
  rewrite Hsplit, !map_app. cbn [map fst snd].
  rewrite match_color_first.
  - rewrite int_str_byte by lia.
    destruct (bytearray_append_ok [] (i mod 256) Hm) as (b & Hb & ->).
    change ([] ++ [b]) with [b]. cbv iota. rewrite Hb. f_equal. lia.
  - apply Forall_forall. intros e He. rewrite map_map in He.
    apply in_map_iff in He. destruct He as (j & <- & Hj).
    apply in_range in Hj. cbn [snd]. now apply color_entry_isnt.
  - apply color_entry_is.
Qed.

(** The same lookup as the recoverer runs it, on any stream. *)
Lemma match_color_table (total_bytes i : Z) (x y : json) (buf : list byte) (w : world) :
  0 <= i < total_bytes ->
  exists b,
    Byte.to_N b = Z.to_N (i mod 256) /\
    fst (match_color
           (map (fun kv => (str (fst kv), snd kv)) (build_color_mapping total_bytes))
           (rgb i) x y buf w)
    = Ok (true, buf ++ [b]).
Proof.
  intros Hi.
  pose proof (Z.mod_pos_bound i 256 ltac:(lia)) as Hm.
  assert (Hle : i mod 256 <= i) by (apply Z.mod_le; lia).
  destruct (range_split total_bytes (i mod 256)) as (rest & Hsplit); [lia|].
  unfold build_color_mapping. rewrite Hsplit, !map_app. cbn [map fst snd].
  destruct (bytearray_append_ok buf (i mod 256) Hm) as (b & Hb & Happ).
  exists b. split; [exact Hb|].
  rewrite match_color_first.
  - rewrite int_str_byte by lia. now rewrite Happ.
  - apply Forall_forall. intros e He. rewrite map_map in He.
    apply in_map_iff in He. destruct He as (j & <- & Hj).
    apply in_range in Hj. cbn [snd]. now apply color_entry_isnt.
  - apply color_entry_is.
Qed.

(** ** Inverting a bind *)

Lemma bind_inv {A B} (c : M A) (k : A -> M B) (w : world) (b : B) :
  fst (bind c k w) = Ok b ->
  exists a w', c w = (Ok a, w') /\ fst (k a w') = Ok b.
Proof.
  unfold bind. destruct (c w) as [[a|e] w']; [|discriminate].
  intros H. now exists a, w'.
Qed.

(** The lookup appends one byte at most. *)
Lemma match_color_grows (entries : list (string * json)) (c : pixel) (x y : json)
    (buf : list byte) :
  forall w found buf',
    fst (match_color entries c x y buf w) = Ok (found, buf') ->
    (found = false /\ buf' = buf) \/ (found = true /\ exists b, buf' = buf ++ [b]).
Proof.
  induction entries as [|[k v] entries IH]; intros w found buf' H; cbn [match_color] in H.
  - injection H as <- <-. now left.
  - apply bind_inv in H. destruct H as ([] & w1 & _ & H).
    apply bind_inv in H. destruct H as (r & w2 & _ & H).
    apply bind_inv in H. destruct H as (g & w3 & _ & H).
    apply bind_inv in H. destruct H as (b & w4 & _ & H).
    destruct (eq_int r (chan_r c) && eq_int g (chan_g c) && eq_int b (chan_b c))%bool.
    + apply bind_inv in H. destruct H as (n & w5 & _ & H).
      apply bind_inv in H. destruct H as (buf1 & w6 & Happ & H).
      apply bind_inv in H. destruct H as ([] & w7 & _ & H).
      injection H as <- <-. right. split; [reflexivity|].
      unfold lift, bytearray_append in Happ.
      destruct ((0 <=? n) && (n <? 256))%bool; [|discriminate].
      destruct (Byte.of_N (Z.to_N n)) as [b0|]; [|discriminate].
      injection Happ as <- _. now exists b0.
    + now apply (IH w4).
Qed.

Lemma reconstruct_entry_grows (frame : World.frame) (cm : json) (buf : list byte)
    (entry : string * json) (w : world) (buf' : list byte) :
  fst (reconstruct_entry frame cm buf entry w) = Ok buf' ->
  (List.length buf' <= List.length buf + 1)%nat.
Proof.
  unfold reconstruct_entry. intros H.
  apply bind_inv in H. destruct H as (has & w1 & _ & H).
  destruct has; [|injection H as <-; lia].
  apply bind_inv in H. destruct H as (coords & w2 & _ & H).
  apply bind_inv in H. destruct H as (xy & w3 & _ & H).
  apply bind_inv in H. destruct H as (block_color & w4 & _ & H).
  apply bind_inv in H. destruct H as ([] & w5 & _ & H).
  destruct block_color as [c|].
  - apply bind_inv in H. destruct H as (entries & w6 & _ & H).
    apply bind_inv in H. destruct H as ([found res] & w7 & Hm & H).
    apply bind_inv in H. destruct H as ([] & w8 & _ & H).
    cbn [snd] in H. injection H as <-.
    pose proof (f_equal fst Hm) as Hm'. cbn [fst] in Hm'.
    destruct (match_color_grows _ _ _ _ _ _ _ _ Hm') as [[_ ->] | [_ (b & ->)]].
    + lia.
    + rewrite length_app. cbn [List.length]. lia.
  - apply bind_inv in H. destruct H as ([] & w6 & _ & H). injection H as <-. lia.
Qed.

Lemma reconstruct_loop_grows (frame : World.frame) (cm : json)
    (entries : list (string * json)) :
  forall buf w buf',
    fst (for_fold entries buf (reconstruct_entry frame cm) w) = Ok buf' ->
    (List.length buf' <= List.length buf + List.length entries)%nat.
Proof.
  induction entries as [|e entries IH]; intros buf w buf' H; cbn [for_fold] in H.
  - injection H as <-. cbn [List.length]. lia.
  - apply bind_inv in H. destruct H as (buf1 & w1 & H1 & H).
    apply IH in H. pose proof (f_equal fst H1) as H1'. cbn [fst] in H1'.
    apply reconstruct_entry_grows in H1'. cbn [List.length]. lia.
Qed.

(** ** Columns that count from the right edge *)

Lemma slice_negative_empty (n x : Z) :
  -4 <= x < 0 -> 4 <= n -> slice_indices n x (x + 4) = [].
Proof.
  intros Hx Hn. unfold slice_indices, slice_bound.
  destruct (Z.ltb_spec x 0); [|lia]. destruct (Z.ltb_spec (x + 4) 0); [lia|].
  replace (Z.to_nat (Z.max 0 (Z.min n (x + 4)) - Z.max 0 (Z.min n (x + n)))) with 0%nat
    by lia.
  reflexivity.
Qed.

Lemma slice_negative_wraps (n x : Z) :
  x <= -5 -> 0 <= x + n ->
  slice_indices n x (x + 4) = [x + n + 0; x + n + 1; x + n + 2; x + n + 3].
Proof.
  intros Hx Hn. unfold slice_indices, slice_bound.
  destruct (Z.ltb_spec x 0); [|lia]. destruct (Z.ltb_spec (x + 4) 0); [|lia].
  rewrite (Z.min_r n (x + n)), (Z.min_r n (x + 4 + n)) by lia.
  rewrite (Z.max_r 0 (x + n)), (Z.max_r 0 (x + 4 + n)) by lia.
  replace (x + 4 + n - (x + n)) with 4 by lia. reflexivity.
Qed.

Lemma flat_map_nil {A B} (l : list A) : flat_map (fun _ : A => @nil B) l = [].
Proof. induction l as [|a l IH]; [reflexivity | exact IH]. Qed.

(** The frames the encoder builds hold bytes. *)
Lemma frame_of_uint8 (total_bytes frame_idx : Z) :
  uint8_frame (frame_of total_bytes frame_idx).
Proof.
  assert (Hblack : forall y x : Z,
             0 <= chan_r (0, 0, 0) < 256 /\ 0 <= chan_g (0, 0, 0) < 256 /\
             0 <= chan_b (0, 0, 0) < 256) by (intros; cbn; lia).
  intros y x. unfold frame_of. destruct (frame_idx =? 5); [|apply (Hblack y x)].
  unfold painted_frame, assign_block. cbn [px].
  destruct (mem y _ && mem x _)%bool; [|apply (Hblack y x)].
  unfold rgb, chan_r, chan_g, chan_b. cbn [fst snd].
  repeat split; apply Z.mod_pos_bound; lia.
Qed.

End MoreLookupFacts.

(* ================================================================== *)
(** * Further facts about the encoder and the endpoints                 *)
(* ================================================================== *)

Module MoreEncodeFacts.
Import Py World Props Logic PyFacts Utils Conversion DecodeFacts EncodeFacts.
Local Open Scope codec_scope.

(** [s.split(sep)[-1]] holds no separator and ends [s]. *)
Lemma last_field_spec (sep : ascii) (s : string) :
  existsb (Ascii.eqb sep) (list_ascii_of_string (last_field sep s)) = false /\
  (s = last_field sep s \/
   exists stem, s = (stem ++ String sep (last_field sep s))%string).
Proof.
  induction s as [|c s IH]; cbn [last_field].
  - split; [reflexivity | now left].
  - destruct (existsb (Ascii.eqb sep) (list_ascii_of_string s)) eqn:Hs.
    + destruct IH as [Hnone [Heq | (stem & Heq)]].
      * rewrite <- Heq in Hnone. congruence.
      * split; [exact Hnone|]. right. exists (String c stem).
        cbn [String.append]. now rewrite <- Heq.
    + destruct (Ascii.eqb c sep) eqn:Hc.
      * apply Ascii.eqb_eq in Hc. subst c. split; [exact Hs|].
        right. now exists EmptyString.
      * split; [|now left]. cbn [list_ascii_of_string existsb].
        rewrite Ascii.eqb_sym, Hc, Hs. reflexivity.
Qed.



End MoreEncodeFacts.

(* ================================================================== *)
(** * Exact runs of the decoder                                         *)
(* ================================================================== *)

Module ExactFacts.
Import Py World Props Logic PyFacts Utils Conversion DecodeFacts EncodeFacts LookupFacts.
Import MoreDecodeFacts MoreLookupFacts.
Local Open Scope codec_scope.

Lemma append_log_inj (w : world) (a b : list log_record) :
  append_log w a = append_log w b -> a = b.
Proof.
  intros H. apply (f_equal log) in H. cbn in H. now apply app_inv_head in H.
Qed.

(** ** [verify_metadata] on a JSON object *)

Lemma contains_key_absent (k : string) (kvs : list (string * json)) :
  field k (JObj kvs) = None -> contains_key k (JObj kvs) = Ok false.
Proof.
  intros H. destruct (contains_key k (JObj kvs)) as [[|]|e] eqn:E.
  - apply contains_key_field in E. congruence.
  - reflexivity.
  - cbn [contains_key] in E. discriminate.
Qed.

Lemma first_missing_split (kvs : list (string * json)) (pre : list string) :
  forall keys key post,
    keys = pre ++ key :: post ->
    (forall k, In k pre -> field k (JObj kvs) <> None) ->
    field key (JObj kvs) = None ->
    first_missing keys (JObj kvs) = Ok (Some key).
Proof.
  induction pre as [|k0 pre IH]; intros keys key post -> Hpre Hkey;
    cbn [List.app first_missing].
  - now rewrite contains_key_absent.
  - rewrite (proj2 (contains_key_field k0 kvs)) by (apply Hpre; now left).
    apply (IH _ key post eq_refl); [|exact Hkey].
    intros k Hk. apply Hpre. now right.
Qed.

Lemma first_missing_none (kvs : list (string * json)) (keys : list string) :
  (forall k, In k keys -> field k (JObj kvs) <> None) ->
  first_missing keys (JObj kvs) = Ok None.
Proof.
  induction keys as [|k0 keys IH]; intros Hall; cbn [first_missing]; [reflexivity|].
  rewrite (proj2 (contains_key_field k0 kvs)) by (apply Hall; now left).
  apply IH. intros k Hk. apply Hall. now right.
Qed.

Lemma verify_missing_key (kvs : list (string * json)) (pre : list string)
    (key : string) (post : list string) (w : world) :
  required_keys = pre ++ key :: post ->
  (forall k, In k pre -> field k (JObj kvs) <> None) ->
  field key (JObj kvs) = None ->
  verify_metadata (JObj kvs) w
  = (Ok false,
     append_log w [(ERROR, "Missing required metadata key: {}", [AStr key])]).
Proof.
  intros Hsplit Hpre Hkey. unfold verify_metadata.
  unfold bind at 1, lift at 1.
  rewrite (first_missing_split kvs pre required_keys key post Hsplit Hpre Hkey).
  reflexivity.
Qed.

Lemma verify_bad_ranges (kvs : list (string * json)) (w : world) :
  (forall k, In k required_keys -> field k (JObj kvs) <> None) ->
  ~ (exists kv rest, field "byte_ranges" (JObj kvs) = Some (JObj (kv :: rest))) ->
  verify_metadata (JObj kvs) w
  = (Ok false,
     append_log w [(ERROR, "Byte ranges should be a non-empty dictionary.", [])]).
Proof.
  intros Hall Hbad. unfold verify_metadata.
  unfold bind at 1, lift at 1. rewrite (first_missing_none kvs required_keys Hall).
  destruct (field "byte_ranges" (JObj kvs)) as [br|] eqn:Hbr.
  2:{ exfalso. apply (Hall "byte_ranges"); [cbn; tauto | exact Hbr]. }
  unfold bind at 1, lift at 1. rewrite (field_getitem _ _ _ Hbr).
  destruct br as [| b | n | s | l | [|kv rest]]; try reflexivity.
  exfalso. apply Hbad. now exists kv, rest.
Qed.

(** Metadata that is no JSON object: the membership tests are the ones of
    the list or the string, and anything else cannot be tested. *)
Lemma verify_non_object (md : json) (w : world) :
  (forall kvs, md <> JObj kvs) ->
  (exists key,
     In key required_keys /\
     verify_metadata md w
     = (Ok false,
        append_log w [(ERROR, "Missing required metadata key: {}", [AStr key])])) \/
  verify_metadata md w = (Raise TypeError, w).
Proof.
  intros Hno.
  destruct md as [| b | n | s | l | kvs];
    [ now right | now right | now right | | | now destruct (Hno kvs) ];
    unfold verify_metadata, bind, lift, required_keys;
    cbn [first_missing contains_key].
  - destruct (contains "file_size" s);
      [|left; exists "file_size"; split; [cbn; tauto | reflexivity]].
    destruct (contains "file_hash" s);
      [|left; exists "file_hash"; split; [cbn; tauto | reflexivity]].
    destruct (contains "byte_ranges" s);
      [|left; exists "byte_ranges"; split; [cbn; tauto | reflexivity]].
    now right.
  - destruct (existsb _ l);
      [|left; exists "file_size"; split; [cbn; tauto | reflexivity]].
    destruct (existsb _ l);
      [|left; exists "file_hash"; split; [cbn; tauto | reflexivity]].
    destruct (existsb _ l);
      [|left; exists "byte_ranges"; split; [cbn; tauto | reflexivity]].
    now right.
Qed.

(** ** The decoder before its loops *)

Section Refusal.

Variable sha256 : list byte -> string.
Variables (vp : string) (w : world).

Lemma decode_absent :
  metadata_file w = None ->
  convert_video_to_file sha256 vp w
  = (Ok None,
     append_log w [(ERROR, "Metadata file not found at {}", [AStr METADATA_PATH])]).
Proof.
  intros Hmd. unfold convert_video_to_file, try_except.
  unfold bind at 1, get_world at 1. rewrite Hmd. reflexivity.
Qed.

Lemma decode_unverified (md : json) (rec : log_record) :
  metadata_file w = Some md ->
  verify_metadata md (append_log w [(INFO, "Loaded metadata for video: {}", [AJson md])])
  = (Ok false,
     append_log (append_log w [(INFO, "Loaded metadata for video: {}", [AJson md])])
       [rec]) ->
  convert_video_to_file sha256 vp w
  = (Ok None,
     append_log w
       [(INFO, "Loaded metadata for video: {}", [AJson md]);
        rec;
        (ERROR, "Metadata verification failed. Aborting processing.", [])]).
Proof.
  intros Hmd Hv. unfold convert_video_to_file, try_except.
  unfold bind at 1, get_world at 1. rewrite Hmd.
  unfold bind at 1, logger at 1. unfold bind at 1. rewrite Hv. cbn [negb].
  unfold bind, logger, ret. now rewrite !append_log_app.
Qed.

Lemma decode_verify_raises (md : json) (e : exn) :
  metadata_file w = Some md ->
  verify_metadata md (append_log w [(INFO, "Loaded metadata for video: {}", [AJson md])])
  = (Raise e, append_log w [(INFO, "Loaded metadata for video: {}", [AJson md])]) ->
  convert_video_to_file sha256 vp w
  = (Ok None,
     append_log w
       [(INFO, "Loaded metadata for video: {}", [AJson md]);
        (ERROR, "An error occurred during video to file conversion: {}", [AExn e])]).
Proof.
  intros Hmd Hv. unfold convert_video_to_file, try_except.
  unfold bind at 1, get_world at 1. rewrite Hmd.
  unfold bind at 1, logger at 1. unfold bind at 1. rewrite Hv.
  unfold bind, logger, ret. now rewrite !append_log_app.
Qed.

End Refusal.

(** ** The collection loop on workers that raise *)

Lemma collect_repeat_raise (worker : M (list byte)) (e : exn) :
  (forall w, exists l, worker w = (Raise e, append_log w l)) ->
  forall n acc w, exists l,
    for_fold (repeat worker n) acc
      (fun original_bytes future =>
         try_except
           (frame_bytes <- future ;;
            logger DEBUG "Frame bytes received: {}, type: {}"
              [ABytes frame_bytes; AStr "<class 'bytearray'>"] ;;;
            ret (original_bytes ++ frame_bytes))
           (fun e =>
              logger ERROR "Error processing future: {}" [AExn e] ;;;
              ret original_bytes)) w
    = (Ok acc, append_log w l) /\
    ((0 < n)%nat -> In (ERROR, "Error processing future: {}", [AExn e]) l).
Proof.
  intros Hw n. induction n as [|n IH]; intros acc w; cbn [repeat for_fold].
  - exists []. rewrite append_log_nil. split; [reflexivity | lia].
  - unfold bind at 1, try_except at 1, bind at 1.
    destruct (Hw w) as (l & ->).
    unfold bind at 1, logger at 1, ret at 1.
    destruct (IH acc (append_log (append_log w l)
                        [(ERROR, "Error processing future: {}", [AExn e])]))
      as (l' & -> & _).
    exists (l ++ [(ERROR, "Error processing future: {}", [AExn e])] ++ l').
    rewrite !append_log_app, <- ?app_assoc. split; [reflexivity|].
    intros _. rewrite !in_app_iff. cbn [In]. tauto.
Qed.

Lemma concat_repeat_nil {A} (n : nat) : List.concat (repeat (@nil A) n) = [].
Proof. induction n as [|n IH]; cbn [repeat List.concat List.app]; [reflexivity | exact IH]. Qed.

Lemma worker_stream_run (frame : World.frame) (cm md : json) (w : world) :
  worker_stream frame cm md
  = match fst (reconstruct_bytes_from_frame frame cm md w) with
    | Ok r => r
    | Raise _ => []
    end.
Proof.
  unfold worker_stream.
  destruct (reconstruct_oblivious frame cm md) as [o Ho].
  destruct (Ho empty_world) as (l & ->). destruct (Ho w) as (l' & ->). reflexivity.
Qed.

(** ** The decoder past its checks, in closed form *)

Lemma decode_collects (sha256 : list byte -> string) (vp : string) (w : world)
    (md : json) (cap : list World.frame) (cm s h : json) :
  metadata_file w = Some md ->
  well_formed_manifest md ->
  assoc vp (videos w) = Some cap ->
  mapping_file w = Some cm ->
  nth_error cap 6 = None \/ submittable md ->
  field "file_size" md = Some s ->
  field "file_hash" md = Some h ->
  exists before,
    convert_video_to_file sha256 vp w
    = (Ok (Some RECONSTRUCTED_FILE_PATH),
       append_log (with_reconstructed w (collected_stream cap cm md))
         (before ++ saved_record
                 :: integrity_log (sha256 (collected_stream cap cm md)) s h
                      (collected_stream cap cm md))) /\
    (forall frame e,
       nth_error cap 6 = Some frame ->
       fst (reconstruct_bytes_from_frame frame cm md w) = Raise e ->
       (0 < frame_6_count md)%nat ->
       In (ERROR, "Error processing future: {}", [AExn e]) before).
Proof.
  intros Hmd Hwf Hcap Hcm Hready Hs Hh.
  rewrite (decode_unfold sha256 vp w md cap cm s h) by assumption.
  cbv zeta. unfold collected_stream.
  destruct (nth_error cap 6) as [frame|] eqn:H6.
  - destruct Hready as [|Hsub]; [discriminate|].
    set (start := [(INFO, "Loaded metadata for video: {}", [AJson md]);
                   passed_record;
                   (INFO, "Total frames in video: {}",
                    [AInt (Z.of_nat (List.length cap))])]
                  ++ [(INFO, "Submitting frame 6 for processing", [])]).
    destruct (submit_blocks_exact frame cm md (append_log w start) Hwf)
      as (o' & l & Hrun & Hfwd & _).
    rewrite Hrun, (Hfwd Hsub). cbn [fst snd].
    rewrite (worker_stream_run frame cm md w).
    destruct (reconstruct_oblivious frame cm md) as [o Ho].
    destruct (Ho w) as (lw & Hw). rewrite Hw. cbn [fst].
    unfold collect_futures.
    destruct o as [r|e].
    + destruct (collect_repeat _ (Ok r) Ho (frame_6_count md) []
                  (append_log (append_log w start) l)) as (l' & ->).
      cbn [fst snd List.app].
      exists (start ++ l ++ l'). split.
      * rewrite !with_reconstructed_append_log, !append_log_app, <- ?app_assoc.
        reflexivity.
      * intros frame' e' [= <-] He'. rewrite Hw in He'. discriminate.
    + destruct (collect_repeat_raise _ e Ho (frame_6_count md) []
                  (append_log (append_log w start) l)) as (l' & -> & Hin).
      cbn [fst snd]. rewrite concat_repeat_nil.
      exists (start ++ l ++ l'). split.
      * rewrite !with_reconstructed_append_log, !append_log_app, <- ?app_assoc.
        reflexivity.
      * intros frame' e' [= <-] He' Hpos. rewrite Hw in He'. cbn [fst] in He'.
        injection He' as <-. rewrite !in_app_iff. right. right. now apply Hin.
  - cbn [fst snd]. rewrite collect_futures_nil. cbn [fst snd].
    eexists. split.
    + rewrite !with_reconstructed_append_log, !append_log_app. reflexivity.
    + intros frame e [=].
Qed.

(** ** A worker whose lookup raises *)

Lemma for_fold_app_ok {A S} (body : S -> A -> M S) (l1 l2 : list A) :
  forall acc w a w1,
    for_fold l1 acc body w = (Ok a, w1) ->
    for_fold (l1 ++ l2) acc body w = for_fold l2 a body w1.
Proof.
  induction l1 as [|x l1 IH]; intros acc w a w1 H; cbn [for_fold List.app] in *.
  - unfold ret in H. now injection H as <- <-.
  - unfold bind in *. destruct (body acc x w) as [[acc'|e] w'].
    + now apply IH.
    + discriminate.
Qed.

Lemma reconstruct_entry_raises (frame : World.frame) (table : list (string * json))
    (xv yv : Z) (k : string) (info : json) (buf : list byte) (w : world) :
  field "coordinates" info = Some (JArr [JNum xv; JNum yv]) ->
  0 <= xv -> 0 <= yv -> yv + 4 <= shape0 frame -> xv + 4 <= shape1 frame ->
  (forall x y buf' w',
     fst (match_color table (mean_truncated frame xv yv) x y buf' w') = Raise ValueError) ->
  fst (reconstruct_entry frame (JObj table) buf (k, info) w) = Raise ValueError.
Proof.
  intros Hco Hx Hy HH HW Hraise. unfold reconstruct_entry. cbn [snd].
  destruct info as [| | | | |kvs]; try discriminate.
  unfold bind at 1, lift at 1.
  rewrite (proj2 (contains_key_field "coordinates" kvs)) by congruence.
  unfold bind at 1, lift at 1. rewrite (field_getitem _ _ _ Hco).
  unfold bind at 1, lift at 1. cbn [unpack2 fst snd].
  unfold bind at 1. rewrite process_block_in_bounds by assumption.
  unfold bind at 1, logger at 1.
  unfold bind at 1, lift at 1. cbn [items].
  unfold bind at 1.
  match goal with
  | |- context [match_color table ?c ?x ?y ?b ?w0] =>
      pose proof (Hraise x y b w0) as Hr;
      destruct (match_color table c x y b w0) as [o w1]
  end.
  cbn [fst] in Hr. subst o. reflexivity.
Qed.

Lemma worker_raises (frame : World.frame) (table : list (string * json)) (md : json)
    (skipped rest : list (string * json)) (k : string) (info : json)
    (xv yv : Z) (buf0 : list byte) (w0 : world) :
  field "byte_ranges" md = Some (JObj (skipped ++ (k, info) :: rest)) ->
  fst (for_fold skipped [] (reconstruct_entry frame (JObj table)) w0) = Ok buf0 ->
  field "coordinates" info = Some (JArr [JNum xv; JNum yv]) ->
  0 <= xv -> 0 <= yv -> yv + 4 <= shape0 frame -> xv + 4 <= shape1 frame ->
  (forall x y buf' w',
     fst (match_color table (mean_truncated frame xv yv) x y buf' w') = Raise ValueError) ->
  forall w, fst (reconstruct_bytes_from_frame frame (JObj table) md w) = Raise ValueError.
Proof.
  intros Hbr Hskip Hco Hx Hy HH HW Hraise w.
  unfold reconstruct_bytes_from_frame.
  unfold bind at 1, logger at 1.
  unfold bind at 1, lift at 1. rewrite (field_getitem _ _ _ Hbr).
  unfold bind at 1, lift at 1. cbn [items].
  unfold bind at 1.
  set (w1 := append_log w _).
  destruct (oblivious_for_fold skipped (reconstruct_entry frame (JObj table))
              (fun acc x => reconstruct_entry_oblivious frame (JObj table) acc x) [])
    as [o Ho].
  destruct (Ho w0) as (l0 & H0). rewrite H0 in Hskip. cbn [fst] in Hskip. subst o.
  destruct (Ho w1) as (l1 & H1).
  rewrite (for_fold_app_ok _ skipped ((k, info) :: rest) [] w1 buf0 _ H1).
  cbn [for_fold]. unfold bind at 1.
  pose proof (reconstruct_entry_raises frame table xv yv k info buf0
                (append_log w1 l1) Hco Hx Hy HH HW Hraise) as Hr.
  destruct (reconstruct_entry frame (JObj table) buf0 (k, info) (append_log w1 l1))
    as [o w2].
  cbn [fst] in Hr. subst o. reflexivity.
Qed.

End ExactFacts.

(* ================================================================== *)
(** * The claims                                                        *)
(* ================================================================== *)

Import Py World Props Utils Conversion Examples.

(** C1 (code defect).  The round trip does not hold: for every non-empty
    upload, every collection order and every initial store, the encoder
    succeeds, the decoder run on the video it returned succeeds as well,
    and the file the decoder reconstructs is empty, hence different from
    the upload. *)
Theorem C1_round_trip_yields_empty_file
    (sha256 : list byte -> string) (filename : string) (content : list byte)
    (schedule : list Z) (w0 : world) :
  content <> [] ->
  exists w1 w2,
    convert_file_to_video sha256 filename content schedule w0
    = (Ok (Some video_path), w1) /\
    convert_video_to_file sha256 video_path w1
    = (Ok (Some RECONSTRUCTED_FILE_PATH), w2) /\
    reconstructed_file w2 = Some [] /\
    reconstructed_file w2 <> Some content.
Proof.
  intros Hne.
  destruct (RoundTripFacts.encode_then_decode sha256 filename content schedule w0 Hne)
    as (w1 & w2 & Henc & Hdec & Hrec).
  exists w1, w2. repeat split; try assumption.
  rewrite Hrec. intros [= <-]. now apply Hne.
Qed.

Lemma C1_witness :
  exists w1 w2,
    convert_file_to_video digest "a.txt" [x61] in_order empty_world
    = (Ok (Some video_path), w1) /\
    convert_video_to_file digest video_path w1
    = (Ok (Some RECONSTRUCTED_FILE_PATH), w2) /\
    reconstructed_file w2 = Some [] /\
    reconstructed_file w2 <> Some [x61].
Proof.
  apply (C1_round_trip_yields_empty_file digest "a.txt" [x61] in_order empty_world).
  discriminate.
Defined.

(** C2 (code defect).  The layout the encoder records and paints: every
    byte index gets the same frame number 6 and no coordinate, and the
    data frames written after the thirty fillers are black except for
    one 4x4 block at the centre of the frame of index 5, painted with the
    colour of the byte index [total_bytes // 2]. *)
Theorem C2_layout_is_one_sample_block
    (sha256 : list byte -> string) (filename : string) (content : list byte)
    (schedule : list Z) (w0 : world) :
  content <> [] ->
  let total_bytes := Z.of_nat (List.length content) in
  exists w1 md br,
    convert_file_to_video sha256 filename content schedule w0
    = (Ok (Some video_path), w1) /\
    metadata_file w1 = Some md /\
    field "byte_ranges" md = Some br /\
    (forall i, 0 <= i < total_bytes ->
       getitem br (str i) = Ok (JObj [("frame", JNum 6); ("block", JNum i)])) /\
    assoc video_path (videos w1)
    = Some (repeat black_frame 30 ++ map (frame_of total_bytes) schedule) /\
    (forall idx y x,
       px (frame_of total_bytes idx) y x = (0, 0, 0) \/
       (idx = 5 /\ 2158 <= y < 2162 /\ 3838 <= x < 3842 /\
        px (frame_of total_bytes idx) y x = rgb (total_bytes / 2))).
Proof.
  intros Hne total_bytes.
  destruct (EncodeFacts.encode_run sha256 filename content schedule w0 (or_introl Hne))
    as (w1 & Henc & _ & Hvid & _ & Hmd & _ & _).
  exists w1. eexists. eexists.
  split; [exact Henc|]. split; [exact Hmd|]. split; [reflexivity|].
  split; [|split; [exact Hvid|]].
  - intros i Hi. apply (EncodeFacts.getitem_dumped block_entry), Hi.
  - intros idx y x. unfold frame_of.
    destruct (Z.eqb_spec idx 5) as [->|_]; [|now left].
    unfold painted_frame, assign_block. cbn [px].
    change (slice_indices (shape0 black_frame) 2158 2162) with [2158; 2159; 2160; 2161].
    change (slice_indices (shape1 black_frame) 3838 3842) with [3838; 3839; 3840; 3841].
    destruct (mem y [2158; 2159; 2160; 2161]) eqn:Ey; [|now left].
    destruct (mem x [3838; 3839; 3840; 3841]) eqn:Ex; [|now left].
    right. cbn [andb]. unfold mem in Ey, Ex. cbn [existsb] in Ey, Ex.
    repeat match goal with
           | H : (_ || _)%bool = true |- _ => apply orb_prop in H; destruct H
           | H : (_ =? _) = true |- _ => apply Z.eqb_eq in H
           | H : false = true |- _ => discriminate H
           end; subst; repeat split; lia.
Qed.

Lemma C2_witness :
  exists w1 md br,
    convert_file_to_video digest "abc.txt" abc in_order empty_world
    = (Ok (Some video_path), w1) /\
    metadata_file w1 = Some md /\
    field "byte_ranges" md = Some br /\
    (forall i, 0 <= i < 3 ->
       getitem br (str i) = Ok (JObj [("frame", JNum 6); ("block", JNum i)])) /\
    assoc video_path (videos w1)
    = Some (repeat black_frame 30 ++ map (frame_of 3) in_order) /\
    (forall idx y x,
       px (frame_of 3 idx) y x = (0, 0, 0) \/
       (idx = 5 /\ 2158 <= y < 2162 /\ 3838 <= x < 3842 /\
        px (frame_of 3 idx) y x = rgb (3 / 2))).
Proof.
  apply (C2_layout_is_one_sample_block digest "abc.txt" abc in_order empty_world).
  discriminate.
Defined.

(** C3 (corrected).  As the claim states it, the inverse lookup fails on a
    table of 257 entries: the colour of index 256 is black, also the colour
    of index 0, and the lookup yields 0. *)
Lemma C3_counterexample :
  byteFor (dumped (build_color_mapping 257)) (rgb 256) <> Some 256.
Proof. vm_compute. discriminate. Qed.

(** C3 (amended).  For every byte index [i] below [total_bytes], the
    colour table the encoder saves has one entry under the key of [i],
    holding the colour derived from [i]; the keys of the table are
    distinct; and the lookup of that colour yields [i mod 256], hence [i]
    itself when [i < 256].  Collisions are neither guarded nor reported:
    the encoder succeeds on every non-empty upload, of whatever length,
    and logs nothing above the level INFO. *)
Theorem C3_lookup_yields_index_mod_256 (total_bytes i : Z) :
  0 <= i < total_bytes ->
  let table := dumped (build_color_mapping total_bytes) in
  (exists entries,
     items table = Ok entries /\
     NoDup (map fst entries) /\
     In (str i, color_entry i) entries) /\
  getitem table (str i) = Ok (color_entry i) /\
  color_is (color_entry i) (rgb i) /\
  byteFor table (rgb i) = Some (i mod 256) /\
  (i < 256 -> byteFor table (rgb i) = Some i) /\
  (forall sha256 filename content schedule w0,
     content <> [] ->
     exists w1 added,
       convert_file_to_video sha256 filename content schedule w0
       = (Ok (Some video_path), w1) /\
       log w1 = log w0 ++ added /\
       forall lvl text args, In (lvl, text, args) added -> lvl = INFO \/ lvl = DEBUG).
Proof.
  intros Hi table.
  assert (Hbyte : byteFor table (rgb i) = Some (i mod 256)).
  { pose proof (Z.mod_pos_bound i 256 ltac:(lia)) as Hm.
    assert (Hle : i mod 256 <= i) by (apply Z.mod_le; lia).
    destruct (LookupFacts.range_split total_bytes (i mod 256)) as (rest & Hsplit); [lia|].
    unfold byteFor, table, dumped, build_color_mapping. cbn [items].
    rewrite Hsplit, !map_app. cbn [map fst snd].
    rewrite LookupFacts.match_color_first.
    - rewrite PyFacts.int_str_byte by lia.
      destruct (LookupFacts.bytearray_append_ok [] (i mod 256) Hm) as (b & Hb & ->).
      change ([] ++ [b]) with [b]. cbv iota. rewrite Hb. f_equal. lia.
    - apply Forall_forall. intros e He. rewrite map_map in He.
      apply in_map_iff in He. destruct He as (j & <- & Hj).
      apply EncodeFacts.in_range in Hj. cbn [snd].
      now apply LookupFacts.color_entry_isnt.
    - apply LookupFacts.color_entry_is. }
  split; [|split; [|split; [|split; [|split]]]].
  - eexists. split; [reflexivity|]. split.
    + unfold build_color_mapping. rewrite !map_map. cbn [fst].
      apply Injective_map_NoDup_in; [|apply EncodeFacts.range_NoDup].
      intros a b Ha Hb. apply EncodeFacts.in_range in Ha, Hb.
      apply PyFacts.str_inj; lia.
    + unfold build_color_mapping. rewrite map_map. cbn [fst snd].
      apply in_map_iff. exists i. split; [reflexivity|]. now apply EncodeFacts.in_range.
  - now apply (EncodeFacts.getitem_dumped color_entry).
  - pose proof (LookupFacts.color_entry_matches i (rgb i)) as H.
    unfold rgb, chan_r, chan_g, chan_b in H. cbn [fst snd] in H.
    now rewrite !Z.eqb_refl in H.
  - exact Hbyte.
  - intros Hlt. rewrite Hbyte. f_equal. apply Z.mod_small. lia.
  - intros sha256 filename content schedule w0 Hne.
    destruct (EncodeFacts.encode_run sha256 filename content schedule w0 (or_introl Hne))
      as (w1 & Henc & _ & _ & _ & _ & _ & Hlog).
    exists w1. eexists. split; [exact Henc|]. split; [exact Hlog|].
    intros lvl text args Hin. unfold encode_log in Hin.
    destruct Hin as [[= <- _ _] | Hin]; [now left|].
    apply in_app_or in Hin. destruct Hin as [Hin | [[= <- _ _] | []]]; [|now left].
    apply in_map_iff in Hin. destruct Hin as (j & [= <- _ _] & _). now right.
Qed.

Lemma C3_witness :
  let table := dumped (build_color_mapping 257) in
  (exists entries,
     items table = Ok entries /\
     NoDup (map fst entries) /\
     In (str 256, color_entry 256) entries) /\
  getitem table (str 256) = Ok (color_entry 256) /\
  color_is (color_entry 256) (rgb 256) /\
  byteFor table (rgb 256) = Some (256 mod 256) /\
  (256 < 256 -> byteFor table (rgb 256) = Some 256) /\
  (forall sha256 filename content schedule w0,
     content <> [] ->
     exists w1 added,
       convert_file_to_video sha256 filename content schedule w0
       = (Ok (Some video_path), w1) /\
       log w1 = log w0 ++ added /\
       forall lvl text args, In (lvl, text, args) added -> lvl = INFO \/ lvl = DEBUG).
Proof.
  apply (C3_lookup_yields_index_mod_256 257 256). lia.
Defined.

(** C4 (code defect).  The sink receives the data frames in the order in
    which the futures are collected, not in the order of their indices:
    the frame of the future collected in [k]-th place is the frame at
    position [30 + k] of the video, whatever its index. *)
Theorem C4_frames_written_in_collection_order
    (sha256 : list byte -> string) (filename : string) (content : list byte)
    (schedule : list Z) (w0 : world) :
  content <> [] ->
  let total_bytes := Z.of_nat (List.length content) in
  exists w1 written,
    convert_file_to_video sha256 filename content schedule w0
    = (Ok (Some video_path), w1) /\
    assoc video_path (videos w1) = Some written /\
    written = repeat black_frame 30 ++ map (frame_of total_bytes) schedule /\
    (forall k frame_idx,
       nth_error schedule k = Some frame_idx ->
       nth_error written (30 + k) = Some (frame_of total_bytes frame_idx)).
Proof.
  intros Hne total_bytes.
  destruct (EncodeFacts.encode_run sha256 filename content schedule w0 (or_introl Hne))
    as (w1 & Henc & _ & Hvid & _).
  exists w1. eexists. split; [exact Henc|]. split; [exact Hvid|]. split; [reflexivity|].
  intros k frame_idx Hk.
  rewrite nth_error_app2 by (rewrite repeat_length; lia).
  rewrite repeat_length. replace (30 + k - 30)%nat with k by lia.
  now rewrite nth_error_map, Hk.
Qed.

Lemma C4_witness :
  exists w1 written,
    convert_file_to_video digest "abc.txt" abc reversed empty_world
    = (Ok (Some video_path), w1) /\
    assoc video_path (videos w1) = Some written /\
    written = repeat black_frame 30 ++ map (frame_of 3) reversed /\
    (forall k frame_idx,
       nth_error reversed k = Some frame_idx ->
       nth_error written (30 + k) = Some (frame_of 3 frame_idx)).
Proof.
  apply (C4_frames_written_in_collection_order digest "abc.txt" abc reversed empty_world).
  discriminate.
Defined.

(** C5.  When the metadata file is absent, or the loaded metadata lacks
    one of the keys [file_size], [file_hash], [byte_ranges], or its
    [byte_ranges] is not a non-empty mapping, the decoder returns [None]
    without raising and leaves every file as it was.  What it adds to the
    log ends in an error record and tells the causes apart: for an absent
    file the one record names the metadata file; for a JSON object that
    lacks a key, the records are the loaded metadata, the first missing key
    in the order the keys are checked, and the aborted verification; for a
    JSON object with the three keys, the second record is the complaint
    about [byte_ranges]; for metadata that is no JSON object, either a
    missing key is named in the same way or the [TypeError] of the test is
    caught and logged. *)
Theorem C5_decode_refuses_bad_metadata
    (sha256 : list byte -> string) (vp : string) (w : world) :
  metadata_file w = None \/
  (exists md,
     metadata_file w = Some md /\
     ((exists key, In key required_keys /\ field key md = None) \/
      ~ (exists kv rest, field "byte_ranges" md = Some (JObj (kv :: rest))))) ->
  exists added,
    convert_video_to_file sha256 vp w = (Ok None, append_log w added) /\
    (exists l text args, added = l ++ [(ERROR, text, args)]) /\
    (metadata_file w = None ->
     added = [(ERROR, "Metadata file not found at {}", [AStr METADATA_PATH])]) /\
    (forall kvs pre key post,
       metadata_file w = Some (JObj kvs) ->
       required_keys = pre ++ key :: post ->
       (forall k, In k pre -> field k (JObj kvs) <> None) ->
       field key (JObj kvs) = None ->
       added = [(INFO, "Loaded metadata for video: {}", [AJson (JObj kvs)]);
                (ERROR, "Missing required metadata key: {}", [AStr key]);
                (ERROR, "Metadata verification failed. Aborting processing.", [])]) /\
    (forall kvs,
       metadata_file w = Some (JObj kvs) ->
       (forall k, In k required_keys -> field k (JObj kvs) <> None) ->
       added = [(INFO, "Loaded metadata for video: {}", [AJson (JObj kvs)]);
                (ERROR, "Byte ranges should be a non-empty dictionary.", []);
                (ERROR, "Metadata verification failed. Aborting processing.", [])]) /\
    (forall md,
       metadata_file w = Some md ->
       (forall kvs, md <> JObj kvs) ->
       (exists key,
          In key required_keys /\
          added = [(INFO, "Loaded metadata for video: {}", [AJson md]);
                   (ERROR, "Missing required metadata key: {}", [AStr key]);
                   (ERROR, "Metadata verification failed. Aborting processing.", [])]) \/
       added = [(INFO, "Loaded metadata for video: {}", [AJson md]);
                (ERROR, "An error occurred during video to file conversion: {}",
                 [AExn TypeError])]).
Proof.
  intros Hbad.
  destruct (metadata_file w) as [md|] eqn:Hmd.
  2:{ eexists. split; [now apply ExactFacts.decode_absent|].
      split; [now exists [], "Metadata file not found at {}", [AStr METADATA_PATH]|].
      split; [reflexivity|]. split; [|split]; intros; discriminate. }
  assert (Hnwf : ~ well_formed_manifest md).
  { intros [Hkeys Hranges].
    destruct Hbad as [Hnone | (md' & [= <-] & [(key & Hin & Hkey) | Hnot])];
      [discriminate | now apply (Hkeys key) | now apply Hnot]. }
  set (w1 := append_log w [(INFO, "Loaded metadata for video: {}", [AJson md])]).
  destruct (DecodeFacts.verify_metadata_run md w1)
    as [[Hwf _] | [_ [(t & a & Hv) | (e & Hv)]]]; [contradiction | |].
  - exists [(INFO, "Loaded metadata for video: {}", [AJson md]);
            (ERROR, t, a);
            (ERROR, "Metadata verification failed. Aborting processing.", [])].
    split; [now apply ExactFacts.decode_unverified|].
    split; [now exists [(INFO, "Loaded metadata for video: {}", [AJson md]); (ERROR, t, a)],
                       "Metadata verification failed. Aborting processing.", []|].
    split; [discriminate|]. split; [|split].
    + intros kvs pre key post [= ->] Hsplit Hpre Hkey.
      rewrite (ExactFacts.verify_missing_key kvs pre key post w1 Hsplit Hpre Hkey) in Hv.
      apply (f_equal snd) in Hv. cbn [snd] in Hv.
      apply ExactFacts.append_log_inj in Hv. injection Hv as <- <-. reflexivity.
    + intros kvs [= ->] Hall.
      assert (Hranges : ~ (exists kv rest,
                             field "byte_ranges" (JObj kvs) = Some (JObj (kv :: rest)))).
      { intros Hr. apply Hnwf. now split. }
      rewrite (ExactFacts.verify_bad_ranges kvs w1 Hall Hranges) in Hv.
      apply (f_equal snd) in Hv. cbn [snd] in Hv.
      apply ExactFacts.append_log_inj in Hv. injection Hv as <- <-. reflexivity.
    + intros md' [= <-] Hno. left.
      destruct (ExactFacts.verify_non_object md w1 Hno) as [(key & Hin & Hk) | Hk];
        rewrite Hk in Hv; [|discriminate].
      exists key. split; [exact Hin|].
      apply (f_equal snd) in Hv. cbn [snd] in Hv.
      apply ExactFacts.append_log_inj in Hv. injection Hv as <- <-. reflexivity.
  - exists [(INFO, "Loaded metadata for video: {}", [AJson md]);
            (ERROR, "An error occurred during video to file conversion: {}", [AExn e])].
    split; [now apply ExactFacts.decode_verify_raises|].
    split; [now exists [(INFO, "Loaded metadata for video: {}", [AJson md])],
                       "An error occurred during video to file conversion: {}", [AExn e]|].
    split; [discriminate|]. split; [|split].
    + intros kvs pre key post [= ->] Hsplit Hpre Hkey.
      rewrite (ExactFacts.verify_missing_key kvs pre key post w1 Hsplit Hpre Hkey) in Hv.
      discriminate.
    + intros kvs [= ->] Hall.
      assert (Hranges : ~ (exists kv rest,
                             field "byte_ranges" (JObj kvs) = Some (JObj (kv :: rest)))).
      { intros Hr. apply Hnwf. now split. }
      rewrite (ExactFacts.verify_bad_ranges kvs w1 Hall Hranges) in Hv.
      discriminate.
    + intros md' [= <-] Hno. right.
      destruct (ExactFacts.verify_non_object md w1 Hno) as [(key & Hin & Hk) | Hk];
        rewrite Hk in Hv; [discriminate|].
      injection Hv as <-. reflexivity.
Qed.

Lemma C5_witness :
  convert_video_to_file digest "v.mp4" empty_world
  = (Ok None,
     append_log empty_world
       [(ERROR, "Metadata file not found at {}", [AStr METADATA_PATH])]) /\
  convert_video_to_file digest "v.mp4" (world_with_manifest manifest_no_hash)
  = (Ok None,
     append_log (world_with_manifest manifest_no_hash)
       [(INFO, "Loaded metadata for video: {}", [AJson manifest_no_hash]);
        (ERROR, "Missing required metadata key: {}", [AStr "file_hash"]);
        (ERROR, "Metadata verification failed. Aborting processing.", [])]) /\
  convert_video_to_file digest "v.mp4" (world_with_manifest manifest_empty_ranges)
  = (Ok None,
     append_log (world_with_manifest manifest_empty_ranges)
       [(INFO, "Loaded metadata for video: {}", [AJson manifest_empty_ranges]);
        (ERROR, "Byte ranges should be a non-empty dictionary.", []);
        (ERROR, "Metadata verification failed. Aborting processing.", [])]).
Proof.
  split; [|split].
  - destruct (C5_decode_refuses_bad_metadata digest "v.mp4" empty_world)
      as (added & Hrun & _ & Habsent & _).
    + left. reflexivity.
    + rewrite Hrun, (Habsent eq_refl). reflexivity.
  - destruct (C5_decode_refuses_bad_metadata digest "v.mp4"
                (world_with_manifest manifest_no_hash))
      as (added & Hrun & _ & _ & Hmissing & _).
    + right. exists manifest_no_hash. split; [reflexivity|].
      left. exists "file_hash". split; [cbn; tauto | reflexivity].
    + rewrite Hrun.
      rewrite (Hmissing _ ["file_size"] "file_hash" ["byte_ranges"] eq_refl eq_refl).
      * reflexivity.
      * intros k [<-|[]]. discriminate.
      * reflexivity.
  - destruct (C5_decode_refuses_bad_metadata digest "v.mp4"
                (world_with_manifest manifest_empty_ranges))
      as (added & Hrun & _ & _ & _ & Hranges & _).
    + right. exists manifest_empty_ranges. split; [reflexivity|].
      right. intros (kv & rest & H). discriminate.
    + rewrite Hrun. rewrite (Hranges _ eq_refl).
      * reflexivity.
      * intros k [<-|[<-|[<-|[]]]]; discriminate.
Defined.

(** C6.  A decode that gets past its checks (a well-formed manifest, a
    video and a colour table that exist, and entries whose frame can be
    read) always returns the path of the reconstructed file, and that file
    holds all that the futures handed back, whether or not it passes the
    integrity check.  Its log states the size and hash the manifest
    expects and the size and hash found; when the sizes differ it carries
    the size warning, when the hashes differ the hash warning. *)
Theorem C6_integrity_mismatch_is_advisory
    (sha256 : list byte -> string) (vp : string) (w : world)
    (md : json) (cap : list World.frame) (cm s h : json) :
  metadata_file w = Some md ->
  well_formed_manifest md ->
  assoc vp (videos w) = Some cap ->
  mapping_file w = Some cm ->
  nth_error cap 6 = None \/ submittable md ->
  field "file_size" md = Some s ->
  field "file_hash" md = Some h ->
  let bytes := collected_stream cap cm md in
  exists w' added,
    convert_video_to_file sha256 vp w = (Ok (Some RECONSTRUCTED_FILE_PATH), w') /\
    reconstructed_file w' = Some bytes /\
    log w' = log w ++ added /\
    In (INFO, "Expected File Size: {} bytes", [AJson s]) added /\
    In (INFO, "Actual File Size: {} bytes", [AInt (Z.of_nat (List.length bytes))]) added /\
    In (INFO, "Expected File Hash: {}", [AJson h]) added /\
    In (INFO, "Actual File Hash: {}", [AStr (sha256 bytes)]) added /\
    (eq_int s (Z.of_nat (List.length bytes)) = false ->
     In (WARNING, "Warning: File size does not match!", []) added) /\
    (eq_str h (sha256 bytes) = false ->
     In (WARNING, "Warning: File hash does not match!", []) added).
Proof.
  intros Hmd Hwf Hcap Hcm Hready Hs Hh bytes.
  destruct (ExactFacts.decode_collects sha256 vp w md cap cm s h
              Hmd Hwf Hcap Hcm Hready Hs Hh) as (before & Hrun & _).
  fold bytes in Hrun.
  eexists. exists (before ++ saved_record :: integrity_log (sha256 bytes) s h bytes).
  split; [exact Hrun|]. split; [reflexivity|]. split; [reflexivity|].
  unfold integrity_log.
  repeat split.
  - apply in_or_app. right. cbn. tauto.
  - apply in_or_app. right. cbn. tauto.
  - apply in_or_app. right. cbn. tauto.
  - apply in_or_app. right. cbn. tauto.
  - intros ->. apply in_or_app. right. cbn. tauto.
  - intros ->. apply in_or_app. right. cbn. tauto.
Qed.

Lemma C6_witness :
  let bytes := collected_stream (repeat (zeros 8 8) 7) table_7 manifest_twice in
  exists w' added,
    convert_video_to_file digest "v.mp4" world_twice
    = (Ok (Some RECONSTRUCTED_FILE_PATH), w') /\
    reconstructed_file w' = Some bytes /\
    log w' = log world_twice ++ added /\
    In (INFO, "Expected File Size: {} bytes", [AJson (JNum 2)]) added /\
    In (INFO, "Actual File Size: {} bytes", [AInt (Z.of_nat (List.length bytes))]) added /\
    In (INFO, "Expected File Hash: {}", [AJson (JStr "2")]) added /\
    In (INFO, "Actual File Hash: {}", [AStr (digest bytes)]) added /\
    (eq_int (JNum 2) (Z.of_nat (List.length bytes)) = false ->
     In (WARNING, "Warning: File size does not match!", []) added) /\
    (eq_str (JStr "2") (digest bytes) = false ->
     In (WARNING, "Warning: File hash does not match!", []) added).
Proof.
  apply (C6_integrity_mismatch_is_advisory digest "v.mp4" world_twice manifest_twice
           (repeat (zeros 8 8) 7) table_7 (JNum 2) (JStr "2")).
  - reflexivity.
  - split.
    + intros k [<-|[<-|[<-|[]]]]; discriminate.
    + eexists. eexists. reflexivity.
  - reflexivity.
  - reflexivity.
  - right. intros es [= <-].
    repeat constructor; eexists; (split; [reflexivity | intros _; eexists; reflexivity]).
  - reflexivity.
  - reflexivity.
Defined.

(** C7 (corrected).  As the claim states it, with rounding to the nearest
    integer, the sampler is wrong on the frame [speck]: the mean of its
    block is 15/16 on every channel, the sampler returns 0, the nearest
    integer is 1.  Nor is every block outside the frame reported: at
    column -1 of a black 8x8 frame the guard passes, the slice [-1:3] is
    empty, its mean is NaN and [int] raises [ValueError]. *)
Lemma C7_counterexample :
  fst (process_block speck (JNum 0) (JNum 0) empty_world)
  <> Ok (Some (mean_rounded speck 0 0)) /\
  fst (process_block (zeros 8 8) (JNum (-1)) (JNum 0) empty_world)
  = Raise ValueError.
Proof. split; [vm_compute; discriminate | reflexivity]. Qed.

(** C7 (amended).  For a block with corner at column [x >= 0] and row
    [y >= 0] that fits in the frame, the sampler returns the mean colour
    of its sixteen pixels with each channel truncated toward zero; when
    the block passes the bottom or the right edge of the frame it returns
    [None] and logs the out-of-bounds warning. *)
Theorem C7_sampler_truncates_mean (frame : World.frame) (x y : Z) (w : world) :
  (0 <= x -> 0 <= y -> y + 4 <= shape0 frame -> x + 4 <= shape1 frame ->
   process_block frame (JNum x) (JNum y) w
   = (Ok (Some (mean_truncated frame x y)),
      append_log w
        [(DEBUG, "Average color for block ({}, {}): R={}, G={}, B={}",
          [AJson (JNum x); AJson (JNum y);
           AInt (chan_r (mean_truncated frame x y));
           AInt (chan_g (mean_truncated frame x y));
           AInt (chan_b (mean_truncated frame x y))])])) /\
  (shape0 frame < y + 4 \/ shape1 frame < x + 4 ->
   process_block frame (JNum x) (JNum y) w
   = (Ok None,
      append_log w
        [(WARNING, "Block out of frame bounds for ({}, {})",
          [AJson (JNum x); AJson (JNum y)])])).
Proof.
  split.
  - intros Hx Hy HH HW. unfold process_block.
    unfold bind at 1, lift at 1. cbn [as_int]. unfold bind at 1, ret at 1.
    destruct (Z.leb_spec (y + 4) (shape0 frame)); [|lia].
    unfold bind at 1. unfold bind at 1, lift at 1, ret at 1.
    destruct (Z.leb_spec (x + 4) (shape1 frame)); [|lia].
    unfold bind at 1, lift at 1. unfold bind at 1, lift at 1.
    rewrite LookupFacts.block_pixels_block4 by assumption.
    reflexivity.
  - intros Hout. unfold process_block.
    unfold bind at 1, lift at 1. cbn [as_int]. unfold bind at 1, ret at 1.
    destruct (Z.leb_spec (y + 4) (shape0 frame)).
    + unfold bind at 1. unfold bind at 1, lift at 1, ret at 1.
      destruct (Z.leb_spec (x + 4) (shape1 frame)); [lia|]. reflexivity.
    + reflexivity.
Qed.

Lemma C7_witness :
  process_block speck (JNum 0) (JNum 0) empty_world
  = (Ok (Some (mean_truncated speck 0 0)),
     append_log empty_world
       [(DEBUG, "Average color for block ({}, {}): R={}, G={}, B={}",
         [AJson (JNum 0); AJson (JNum 0);
          AInt (chan_r (mean_truncated speck 0 0));
          AInt (chan_g (mean_truncated speck 0 0));
          AInt (chan_b (mean_truncated speck 0 0))])]) /\
  process_block speck (JNum 0) (JNum 1) empty_world
  = (Ok None,
     append_log empty_world
       [(WARNING, "Block out of frame bounds for ({}, {})",
         [AJson (JNum 0); AJson (JNum 1)])]).
Proof.
  split.
  - apply (proj1 (C7_sampler_truncates_mean speck 0 0 empty_world)); cbn; lia.
  - apply (proj2 (C7_sampler_truncates_mean speck 0 1 empty_world)). left. cbn. lia.
Defined.

(** C8 (code defect).  An empty upload is not rejected up front.  The
    encoder saves the upload, opens the sink, writes the thirty filler
    frames and the frames of the futures collected before that of frame 5;
    collecting frame 5 raises [KeyError], which the handler logs, and the
    encoder returns [None].  No colour table and no manifest are saved. *)
Theorem C8_empty_upload_fails_after_writing
    (sha256 : list byte -> string) (filename : string) (schedule : list Z)
    (w0 : world) :
  In 5 schedule ->
  exists w1 k,
    convert_file_to_video sha256 filename [] schedule w0 = (Ok None, w1) /\
    uploads w1 = (path_join UPLOAD_DIRECTORY filename, []) :: uploads w0 /\
    assoc video_path (videos w1) = Some (repeat black_frame (30 + k)) /\
    (k < List.length schedule)%nat /\
    mapping_file w1 = mapping_file w0 /\
    metadata_file w1 = metadata_file w0 /\
    log w1 = log w0 ++ [(ERROR, "Error converting file to video: {}", [AExn KeyError])].
Proof.
  intros H5.
  destruct (EncodeFacts.encode_empty sha256 filename schedule w0 H5)
    as (w1 & k & H1 & H2 & H3 & H4 & H5' & H6 & _ & H8).
  exists w1, k. repeat split; assumption.
Qed.

Lemma C8_witness :
  exists w1 k,
    convert_file_to_video digest "empty.bin" [] in_order empty_world = (Ok None, w1) /\
    uploads w1 = (path_join UPLOAD_DIRECTORY "empty.bin", []) :: uploads empty_world /\
    assoc video_path (videos w1) = Some (repeat black_frame (30 + k)) /\
    (k < List.length in_order)%nat /\
    mapping_file w1 = mapping_file empty_world /\
    metadata_file w1 = metadata_file empty_world /\
    log w1 = log empty_world
             ++ [(ERROR, "Error converting file to video: {}", [AExn KeyError])].
Proof.
  apply (C8_empty_upload_fails_after_writing digest "empty.bin" in_order empty_world).
  vm_compute. tauto.
Defined.

(** C9.  In every manifest the encoder produces, each entry of
    [byte_ranges] is exactly [{"frame": 6, "block": i}], with no
    ['coordinates']; a decoder that runs on such a manifest, whatever the
    video and the colour table, reconstructs the empty stream; and the
    decoder run on the encoder's own output does return. *)
Theorem C9_encoded_manifest_decodes_to_nothing
    (sha256 : list byte -> string) (filename : string) (content : list byte)
    (schedule : list Z) (w0 w1 : world) (path : string) :
  convert_file_to_video sha256 filename content schedule w0 = (Ok (Some path), w1) ->
  exists md entries,
    metadata_file w1 = Some md /\
    field "byte_ranges" md = Some (JObj entries) /\
    List.length entries = List.length content /\
    (forall key info, In (key, info) entries ->
       contains_key "coordinates" info = Ok false /\
       exists i, info = JObj [("frame", JNum 6); ("block", JNum i)]) /\
    (forall vp w2 res w3,
       metadata_file w2 = Some md ->
       convert_video_to_file sha256 vp w2 = (Ok (Some res), w3) ->
       reconstructed_file w3 = Some []) /\
    (content <> [] ->
     exists w2,
       convert_video_to_file sha256 path w1 = (Ok (Some RECONSTRUCTED_FILE_PATH), w2) /\
       reconstructed_file w2 = Some []).
Proof.
  intros Henc.
  assert (Hok : content <> [] \/ ~ In 5 schedule).
  { destruct content as [|b content]; [|left; discriminate].
    destruct (in_dec Z.eq_dec 5 schedule) as [H5|H5]; [|now right].
    destruct (EncodeFacts.encode_empty sha256 filename schedule w0 H5)
      as (w & k & Hfail & _).
    rewrite Hfail in Henc. discriminate. }
  destruct (EncodeFacts.encode_run sha256 filename content schedule w0 Hok)
    as (w1' & Henc' & _ & _ & _ & Hmd & _ & _).
  rewrite Henc' in Henc. injection Henc as <- <-.
  eexists. eexists. split; [exact Hmd|].
  split; [apply RoundTripFacts.encoded_byte_ranges|].
  split; [apply RoundTripFacts.encoded_entries_length|].
  split; [|split].
  - intros key info Hin.
    destruct (RoundTripFacts.encoded_entry content _ Hin) as (i & _ & [= -> ->]).
    split; [reflexivity | now exists i].
  - intros vp w2 res w3 Hmd2 Hdec.
    eapply RoundTripFacts.decode_encoded_manifest; eassumption.
  - intros Hne.
    destruct (RoundTripFacts.encode_then_decode sha256 filename content schedule w0 Hne)
      as (w1'' & w2 & Henc'' & Hdec & Hrec).
    rewrite Henc' in Henc''. injection Henc'' as <-.
    now exists w2.
Qed.

Lemma C9_witness :
  exists md entries,
    metadata_file
      (snd (convert_file_to_video digest "abc.txt" abc in_order empty_world)) = Some md /\
    field "byte_ranges" md = Some (JObj entries) /\
    List.length entries = List.length abc /\
    (forall key info, In (key, info) entries ->
       contains_key "coordinates" info = Ok false /\
       exists i, info = JObj [("frame", JNum 6); ("block", JNum i)]) /\
    (forall vp w2 res w3,
       metadata_file w2 = Some md ->
       convert_video_to_file digest vp w2 = (Ok (Some res), w3) ->
       reconstructed_file w3 = Some []) /\
    (abc <> [] ->
     exists w2,
       convert_video_to_file digest video_path
         (snd (convert_file_to_video digest "abc.txt" abc in_order empty_world))
       = (Ok (Some RECONSTRUCTED_FILE_PATH), w2) /\
       reconstructed_file w2 = Some []).
Proof.
  apply (C9_encoded_manifest_decodes_to_nothing digest "abc.txt" abc in_order
           empty_world _ video_path).
  vm_compute. reflexivity.
Defined.

(** C10 (corrected).  As the claim states it, a matched index above 255
    makes the decoder return [None].  On the store [world_300] the lookup
    matches the key 300 and the append raises [ValueError], yet the decoder
    returns the path of the reconstructed file. *)
Lemma C10_counterexample :
  fst (match_color [("300", JObj [("r", JNum 0); ("g", JNum 0); ("b", JNum 0)])]
         (0, 0, 0) (JNum 0) (JNum 0) [] empty_world)
  = Raise ValueError /\
  fst (convert_video_to_file digest "v.mp4" world_300) <> Ok None.
Proof. split; [reflexivity | vm_compute; discriminate]. Qed.

(** C10 (amended).  When the sampled colour [c] equals an entry of the
    colour table, the lookup appends the integer read from the key of the
    first such entry, a byte position and not a byte value.  When that
    integer is 256 or more the append raises [ValueError], and so does the
    worker that reaches such a block after recovering the entries before
    it.  A future that raises is caught where it is collected: an error
    record is logged for it and it contributes no byte.  A decoder whose
    workers raise still writes the reconstructed file, empty, leaves every
    other file as it was, and returns the path of the file. *)
Theorem C10_recoverer_appends_matched_key
    (pre post : list (string * json)) (key : string) (v : json) (c : pixel)
    (x y : json) (buf : list byte) (w : world) (n : Z) :
  Forall (fun e => color_isnt (snd e) c) pre ->
  color_is v c ->
  int key = Ok n ->
  let table := pre ++ (key, v) :: post in
  (0 <= n < 256 ->
   exists b, Byte.to_N b = Z.to_N n /\
             fst (match_color table c x y buf w) = Ok (true, buf ++ [b])) /\
  (256 <= n ->
   fst (match_color table c x y buf w) = Raise ValueError /\
   forall frame md skipped k info rest xv yv buf0 w0,
     field "byte_ranges" md = Some (JObj (skipped ++ (k, info) :: rest)) ->
     fst (for_fold skipped [] (reconstruct_entry frame (JObj table)) w0) = Ok buf0 ->
     field "coordinates" info = Some (JArr [JNum xv; JNum yv]) ->
     0 <= xv -> 0 <= yv -> yv + 4 <= shape0 frame -> xv + 4 <= shape1 frame ->
     mean_truncated frame xv yv = c ->
     forall w', fst (reconstruct_bytes_from_frame frame (JObj table) md w')
                = Raise ValueError) /\
  (forall (future : M (list byte)) (rest : list (M (list byte))) e w' w'',
     future w' = (Raise e, w'') ->
     collect_futures (future :: rest) w'
     = collect_futures rest
         (append_log w'' [(ERROR, "Error processing future: {}", [AExn e])])) /\
  (forall sha256 vp w0 md cap frame cm e,
     metadata_file w0 = Some md ->
     well_formed_manifest md ->
     submittable md ->
     assoc vp (videos w0) = Some cap ->
     nth_error cap 6 = Some frame ->
     mapping_file w0 = Some cm ->
     fst (reconstruct_bytes_from_frame frame cm md w0) = Raise e ->
     (0 < frame_6_count md)%nat ->
     exists added,
       convert_video_to_file sha256 vp w0
       = (Ok (Some RECONSTRUCTED_FILE_PATH),
          append_log (with_reconstructed w0 []) added) /\
       In (ERROR, "Error processing future: {}", [AExn e]) added).
Proof.
  intros Hpre Hv Hkey table.
  assert (Hfirst : forall x' y' buf' w',
            fst (match_color table c x' y' buf' w')
            = match bytearray_append buf' n with
              | Ok buf'' => Ok (true, buf'')
              | Raise e => Raise e
              end).
  { intros x' y' buf' w'. unfold table.
    rewrite (LookupFacts.match_color_first pre post key v c x' y' buf' w' Hpre Hv).
    now rewrite Hkey. }
  split; [|split; [|split]].
  - intros Hn. destruct (LookupFacts.bytearray_append_ok buf n Hn) as (b & Hb & Happ).
    exists b. split; [exact Hb|]. now rewrite Hfirst, Happ.
  - intros Hn.
    assert (Hraise : forall x' y' buf' w',
              fst (match_color table c x' y' buf' w') = Raise ValueError).
    { intros x' y' buf' w'.
      rewrite Hfirst, LookupFacts.bytearray_append_out; [reflexivity | lia]. }
    split; [apply Hraise|].
    intros frame md skipped k info rest xv yv buf0 w0 Hbr Hskip Hco Hx Hy HH HW Hc w'.
    apply (ExactFacts.worker_raises frame table md skipped rest k info xv yv buf0 w0);
      try assumption.
    rewrite Hc. exact Hraise.
  - intros future rest e w' w'' Hraise. unfold collect_futures. cbn [for_fold].
    unfold bind at 1, try_except at 1, bind at 1. rewrite Hraise.
    reflexivity.
  - intros sha256 vp w0 md cap frame cm e Hmd Hwf Hsub Hcap H6 Hcm Hraise Hpos.
    destruct (MoreDecodeFacts.well_formed_fields md Hwf) as (s & h & Hs & Hh).
    destruct (ExactFacts.decode_collects sha256 vp w0 md cap cm s h
                Hmd Hwf Hcap Hcm (or_intror Hsub) Hs Hh) as (before & Hrun & Hin).
    assert (Hempty : collected_stream cap cm md = []).
    { unfold collected_stream. rewrite H6.
      rewrite (ExactFacts.worker_stream_run frame cm md w0), Hraise.
      apply ExactFacts.concat_repeat_nil. }
    rewrite Hempty in Hrun.
    eexists. split; [exact Hrun|].
    apply in_or_app. left. now apply (Hin frame e).
Qed.

Lemma C10_witness :
  (exists b, Byte.to_N b = 7%N /\
             fst (match_color [("7", JObj [("r", JNum 0); ("g", JNum 0); ("b", JNum 0)])]
                    (0, 0, 0) (JNum 0) (JNum 0) [] empty_world)
             = Ok (true, [b])) /\
  fst (match_color table_300 (0, 0, 0) (JNum 0) (JNum 0) [] empty_world)
  = Raise ValueError /\
  fst (reconstruct_bytes_from_frame (zeros 8 8) (JObj table_300) manifest_origin
         empty_world)
  = Raise ValueError /\
  exists added,
    convert_video_to_file digest "v.mp4" world_300
    = (Ok (Some RECONSTRUCTED_FILE_PATH),
       append_log (with_reconstructed world_300 []) added) /\
    In (ERROR, "Error processing future: {}", [AExn ValueError]) added.
Proof.
  assert (Hblack : color_is (JObj [("r", JNum 0); ("g", JNum 0); ("b", JNum 0)])
                     (0, 0, 0)).
  { exists (JNum 0), (JNum 0), (JNum 0). repeat split. }
  destruct (C10_recoverer_appends_matched_key [] []
              "7" (JObj [("r", JNum 0); ("g", JNum 0); ("b", JNum 0)])
              (0, 0, 0) (JNum 0) (JNum 0) [] empty_world 7
              (Forall_nil _) Hblack eq_refl) as (Hbyte & _).
  destruct (C10_recoverer_appends_matched_key [] []
              "300" (JObj [("r", JNum 0); ("g", JNum 0); ("b", JNum 0)])
              (0, 0, 0) (JNum 0) (JNum 0) [] empty_world 300
              (Forall_nil _) Hblack eq_refl) as (_ & Hout & _ & Hdecode).
  destruct Hout as (Hlookup & Hworker); [lia|].
  assert (Hraise : forall w',
            fst (reconstruct_bytes_from_frame (zeros 8 8) (JObj table_300)
                   manifest_origin w') = Raise ValueError).
  { apply (Hworker (zeros 8 8) manifest_origin [] "0"
             (snd entry_origin) [] 0 0 [] empty_world);
      try reflexivity; cbn; lia. }
  split; [apply Hbyte; lia|]. split; [exact Hlookup|]. split; [apply Hraise|].
  apply (Hdecode digest "v.mp4" world_300 manifest_origin (repeat (zeros 8 8) 7)
           (zeros 8 8) (JObj table_300) ValueError).
  - reflexivity.
  - split.
    + intros k [<-|[<-|[<-|[]]]]; discriminate.
    + eexists. eexists. reflexivity.
  - intros es [= <-].
    repeat constructor; eexists; (split; [reflexivity | intros _; eexists; reflexivity]).
  - reflexivity.
  - reflexivity.
  - reflexivity.
  - apply Hraise.
  - cbn. lia.
Defined.

(* ================================================================== *)
(** * Further properties of the code                                    *)
(* ================================================================== *)

(** X1.  The decoder reconstructs a file exactly when the metadata file
    holds a well-formed manifest, the video and the colour table exist,
    and either the video has no frame 6 or every entry of [byte_ranges]
    has a ['frame'] and, when that frame is 6, a ['block'].  In every
    other case it returns [None].  No exception escapes either way. *)
Theorem X1_decode_succeeds_iff_ready
    (sha256 : list byte -> string) (vp : string) (w : world) :
  (decode_ready vp w ->
   fst (convert_video_to_file sha256 vp w) = Ok (Some RECONSTRUCTED_FILE_PATH)) /\
  (~ decode_ready vp w ->
   fst (convert_video_to_file sha256 vp w) = Ok None).
Proof.
  split.
  - intros (md & cap & cm & Hmd & Hwf & Hcap & Hcm & Hready).
    destruct (MoreDecodeFacts.well_formed_fields md Hwf) as (s & h & Hs & Hh).
    rewrite (MoreDecodeFacts.decode_unfold sha256 vp w md cap cm s h) by assumption.
    cbv zeta. destruct (nth_error cap 6) as [frame|] eqn:H6.
    + destruct Hready as [|Hsub]; [discriminate|].
      destruct (MoreDecodeFacts.submit_blocks_exact frame cm md
                  (append_log w
                     ([(INFO, "Loaded metadata for video: {}", [AJson md]);
                       passed_record;
                       (INFO, "Total frames in video: {}",
                        [AInt (Z.of_nat (List.length cap))])]
                      ++ [(INFO, "Submitting frame 6 for processing", [])])) Hwf)
        as (o & l & Hrun & Hfwd & _).
      rewrite Hrun, (Hfwd Hsub). cbn [fst snd].
      edestruct (DecodeFacts.collect_futures_run (fun _ => True)) as (bytes & l' & Hcol & _);
        [| | | rewrite Hcol; reflexivity]; try trivial.
      intros f Hf. apply repeat_spec in Hf. subst f. apply DecodeFacts.reconstruct_logs_only.
    + cbn [fst snd]. reflexivity.
  - intros Hnot.
    destruct (DecodeFacts.decode_run sha256 vp w)
      as [(l0 & t & a & Hd & _) |
          (md & cap & cm & s & h & futures & w' & bytes & l0 &
           Hmd & Hwf & Hcap & Hcm & Hs & Hh & _ & _ & Hd)].
    + now rewrite Hd.
    + exfalso. apply Hnot. exists md, cap, cm. repeat (split; [assumption|]).
      destruct (nth_error cap 6) as [frame|] eqn:H6; [right | now left].
      rewrite (MoreDecodeFacts.decode_unfold sha256 vp w md cap cm s h) in Hd by assumption.
      cbv zeta in Hd. rewrite H6 in Hd.
      destruct (MoreDecodeFacts.submit_blocks_exact frame cm md
                  (append_log w
                     ([(INFO, "Loaded metadata for video: {}", [AJson md]);
                       passed_record;
                       (INFO, "Total frames in video: {}",
                        [AInt (Z.of_nat (List.length cap))])]
                      ++ [(INFO, "Submitting frame 6 for processing", [])])) Hwf)
        as (o & l & Hrun & _ & Hback).
      rewrite Hrun in Hd. cbn [fst snd] in Hd.
      destruct o as [fs|e]; [apply Hback; now exists fs | discriminate].
Qed.

Lemma X1_witness :
  fst (convert_video_to_file digest "v.mp4" world_twice)
  = Ok (Some RECONSTRUCTED_FILE_PATH) /\
  fst (convert_video_to_file digest "v.mp4" empty_world) = Ok None.
Proof.
  split.
  - apply (proj1 (X1_decode_succeeds_iff_ready digest "v.mp4" world_twice)).
    eexists. eexists. eexists.
    split; [reflexivity|]. split.
    { split.
      - intros k [<-|[<-|[<-|[]]]]; discriminate.
      - eexists. eexists. reflexivity. }
    split; [reflexivity|]. split; [reflexivity|].
    right. intros es [= <-].
    repeat constructor; eexists; (split; [reflexivity | intros _; eexists; reflexivity]).
  - apply (proj2 (X1_decode_succeeds_iff_ready digest "v.mp4" empty_world)).
    intros (md & cap & cm & Hmd & _). discriminate.
Defined.

(** X2.  When frame 6 is read, the decoder starts one worker per entry of
    [byte_ranges] whose frame is 6, and every worker reconstructs the whole
    manifest: the file written is the stream of one worker repeated once
    per such entry, and is empty when the worker raises.  The worker's
    outcome depends on the frame, the colour table and the manifest only. *)
Theorem X2_decode_repeats_worker_stream
    (sha256 : list byte -> string) (vp : string) (w : world)
    (md : json) (cap : list World.frame) (cm : json) (frame : World.frame) :
  metadata_file w = Some md ->
  well_formed_manifest md ->
  submittable md ->
  assoc vp (videos w) = Some cap ->
  nth_error cap 6 = Some frame ->
  mapping_file w = Some cm ->
  exists o,
    (forall w', fst (reconstruct_bytes_from_frame frame cm md w') = o) /\
    fst (convert_video_to_file sha256 vp w) = Ok (Some RECONSTRUCTED_FILE_PATH) /\
    reconstructed_file (snd (convert_video_to_file sha256 vp w))
    = Some (match o with
            | Ok r => List.concat (repeat r (frame_6_count md))
            | Raise _ => []
            end).
Proof.
  intros Hmd Hwf Hsub Hcap H6 Hcm.
  destruct (MoreDecodeFacts.reconstruct_oblivious frame cm md) as [o Ho].
  exists o. split.
  { intros w'. destruct (Ho w') as (l & ->). reflexivity. }
  destruct (MoreDecodeFacts.well_formed_fields md Hwf) as (s & h & Hs & Hh).
  rewrite (MoreDecodeFacts.decode_unfold sha256 vp w md cap cm s h) by assumption.
  cbv zeta. rewrite H6.
  destruct (MoreDecodeFacts.submit_blocks_exact frame cm md
              (append_log w
                 ([(INFO, "Loaded metadata for video: {}", [AJson md]);
                   passed_record;
                   (INFO, "Total frames in video: {}",
                    [AInt (Z.of_nat (List.length cap))])]
                  ++ [(INFO, "Submitting frame 6 for processing", [])])) Hwf)
    as (o' & l & Hrun & Hfwd & _).
  rewrite Hrun, (Hfwd Hsub). cbn [fst snd].
  unfold collect_futures.
  destruct (MoreDecodeFacts.collect_repeat _ o Ho (frame_6_count md) []
              (append_log
                 (append_log w
                    ([(INFO, "Loaded metadata for video: {}", [AJson md]);
                      passed_record;
                      (INFO, "Total frames in video: {}",
                       [AInt (Z.of_nat (List.length cap))])]
                     ++ [(INFO, "Submitting frame 6 for processing", [])])) l))
    as (l' & ->).
  cbn [fst snd List.app]. split; reflexivity.
Qed.

Lemma X2_witness :
  exists o,
    (forall w',
       fst (reconstruct_bytes_from_frame (zeros 8 8) table_7 manifest_twice w') = o) /\
    fst (convert_video_to_file digest "v.mp4" world_twice)
    = Ok (Some RECONSTRUCTED_FILE_PATH) /\
    reconstructed_file (snd (convert_video_to_file digest "v.mp4" world_twice))
    = Some (match o with
            | Ok r => List.concat (repeat r (frame_6_count manifest_twice))
            | Raise _ => []
            end).
Proof.
  apply (X2_decode_repeats_worker_stream digest "v.mp4" world_twice manifest_twice
           (repeat (zeros 8 8) 7) table_7 (zeros 8 8)).
  - reflexivity.
  - split.
    + intros k [<-|[<-|[<-|[]]]]; discriminate.
    + eexists. eexists. reflexivity.
  - intros es [= <-].
    repeat constructor; eexists; (split; [reflexivity | intros _; eexists; reflexivity]).
  - reflexivity.
  - reflexivity.
  - reflexivity.
Defined.

(** X3.  A video of six frames or fewer is no error to the decoder: it
    logs that frame 6 could not be read, writes an empty reconstructed
    file and returns its path. *)
Theorem X3_short_video_gives_empty_file
    (sha256 : list byte -> string) (vp : string) (w : world)
    (md : json) (cap : list World.frame) (cm : json) :
  metadata_file w = Some md ->
  well_formed_manifest md ->
  assoc vp (videos w) = Some cap ->
  (List.length cap <= 6)%nat ->
  mapping_file w = Some cm ->
  fst (convert_video_to_file sha256 vp w) = Ok (Some RECONSTRUCTED_FILE_PATH) /\
  reconstructed_file (snd (convert_video_to_file sha256 vp w)) = Some [] /\
  In (ERROR, "Failed to read frame 6. Stopping reconstruction.", [])
     (log (snd (convert_video_to_file sha256 vp w))).
Proof.
  intros Hmd Hwf Hcap Hlen Hcm.
  destruct (MoreDecodeFacts.well_formed_fields md Hwf) as (s & h & Hs & Hh).
  rewrite (MoreDecodeFacts.decode_unfold sha256 vp w md cap cm s h) by assumption.
  cbv zeta. rewrite (proj2 (nth_error_None cap 6) Hlen).
  cbn [fst snd]. rewrite !MoreDecodeFacts.collect_futures_nil. cbn [fst snd].
  split; [reflexivity|]. split; [reflexivity|].
  cbn [log append_log with_log with_reconstructed].
  rewrite !in_app_iff. cbn [In]. tauto.
Qed.

Lemma X3_witness :
  fst (convert_video_to_file digest "v.mp4" world_short)
  = Ok (Some RECONSTRUCTED_FILE_PATH) /\
  reconstructed_file (snd (convert_video_to_file digest "v.mp4" world_short)) = Some [] /\
  In (ERROR, "Failed to read frame 6. Stopping reconstruction.", [])
     (log (snd (convert_video_to_file digest "v.mp4" world_short))).
Proof.
  apply (X3_short_video_gives_empty_file digest "v.mp4" world_short manifest_twice
           (repeat (zeros 8 8) 3) table_7).
  - reflexivity.
  - split.
    + intros k [<-|[<-|[<-|[]]]]; discriminate.
    + eexists. eexists. reflexivity.
  - reflexivity.
  - cbn. lia.
  - reflexivity.
Defined.

(** X4.  With a well-formed manifest, a video that cannot be opened or,
    failing that, a missing colour mapping file makes the decoder return
    [None] after the two records of a passed verification and one error
    record naming what is missing; no file is written. *)
Theorem X4_missing_video_or_table_is_refused
    (sha256 : list byte -> string) (vp : string) (w : world) (md : json) :
  metadata_file w = Some md ->
  well_formed_manifest md ->
  assoc vp (videos w) = None \/ mapping_file w = None ->
  exists text args,
    convert_video_to_file sha256 vp w
    = (Ok None,
       append_log w
         [(INFO, "Loaded metadata for video: {}", [AJson md]);
          passed_record;
          (ERROR, text, args)]) /\
    (assoc vp (videos w) = None ->
     text = "Unable to open video file: {}" /\ args = [AStr vp]) /\
    (assoc vp (videos w) <> None ->
     text = "Color mapping file not found at {}" /\ args = [AStr COLOR_MAPPING_PATH]).
Proof.
  intros Hmd Hwf Hmiss.
  unfold convert_video_to_file, try_except.
  unfold bind at 1, get_world at 1. rewrite Hmd.
  unfold bind at 1, logger at 1. unfold bind at 1.
  destruct (DecodeFacts.verify_metadata_run md
              (append_log w [(INFO, "Loaded metadata for video: {}", [AJson md])]))
    as [[_ Hv] | [Hn _]]; [|contradiction].
  rewrite Hv. cbn [negb].
  destruct (assoc vp (videos w)) as [cap|] eqn:Hcap.
  - destruct Hmiss as [|Hcm]; [discriminate|]. rewrite Hcm.
    unfold bind, logger, ret. rewrite !Logic.append_log_app. cbn [List.app].
    eexists. eexists. split; [reflexivity|]. split; [discriminate | now intros _].
  - unfold bind, logger, ret. rewrite !Logic.append_log_app. cbn [List.app].
    eexists. eexists. split; [reflexivity|]. split; [now intros _ | congruence].
Qed.

Lemma X4_witness :
  exists text args,
    convert_video_to_file digest "missing.mp4" world_twice
    = (Ok None,
       append_log world_twice
         [(INFO, "Loaded metadata for video: {}", [AJson manifest_twice]);
          passed_record;
          (ERROR, text, args)]) /\
    (assoc "missing.mp4" (videos world_twice) = None ->
     text = "Unable to open video file: {}" /\ args = [AStr "missing.mp4"]) /\
    (assoc "missing.mp4" (videos world_twice) <> None ->
     text = "Color mapping file not found at {}" /\ args = [AStr COLOR_MAPPING_PATH]).
Proof.
  apply (X4_missing_video_or_table_is_refused digest "missing.mp4" world_twice
           manifest_twice).
  - reflexivity.
  - split.
    + intros k [<-|[<-|[<-|[]]]]; discriminate.
    + eexists. eexists. reflexivity.
  - left. reflexivity.
Defined.


(** X6.  [verify_metadata] returns [True] exactly on the manifests that
    hold the three required keys and a non-empty mapping under
    [byte_ranges]; it only adds to the log, and whenever it returns [False]
    what it adds is one error record.  On a JSON object that lacks a key
    the record names the first missing key, in the order the keys are
    checked; on a JSON object with the three keys whose [byte_ranges] is no
    non-empty mapping the record says so. *)
Theorem X6_verify_metadata_accepts_exactly_well_formed (md : json) (w : world) :
  (fst (verify_metadata md w) = Ok true <-> well_formed_manifest md) /\
  (exists added, snd (verify_metadata md w) = append_log w added) /\
  (fst (verify_metadata md w) = Ok false ->
   exists text args, log (snd (verify_metadata md w)) = log w ++ [(ERROR, text, args)]) /\
  (forall kvs pre key post,
     md = JObj kvs ->
     required_keys = pre ++ key :: post ->
     (forall k, In k pre -> field k md <> None) ->
     field key md = None ->
     verify_metadata md w
     = (Ok false,
        append_log w [(ERROR, "Missing required metadata key: {}", [AStr key])])) /\
  (forall kvs,
     md = JObj kvs ->
     (forall k, In k required_keys -> field k md <> None) ->
     ~ (exists kv rest, field "byte_ranges" md = Some (JObj (kv :: rest))) ->
     verify_metadata md w
     = (Ok false,
        append_log w [(ERROR, "Byte ranges should be a non-empty dictionary.", [])])).
Proof.
  split; [|split; [|split; [|split]]].
  - destruct (DecodeFacts.verify_metadata_run md w)
      as [[Hwf Hv] | [Hn [(t & a & Hv) | (e & Hv)]]]; rewrite Hv; cbn [fst];
      (split; [first [tauto | discriminate] | first [reflexivity | contradiction]]).
  - destruct (DecodeFacts.verify_metadata_run md w)
      as [[Hwf Hv] | [Hn [(t & a & Hv) | (e & Hv)]]]; rewrite Hv; cbn [snd].
    + now eexists.
    + now eexists.
    + exists []. now rewrite Logic.append_log_nil.
  - destruct (DecodeFacts.verify_metadata_run md w)
      as [[Hwf Hv] | [Hn [(t & a & Hv) | (e & Hv)]]]; rewrite Hv; cbn [fst snd];
      [discriminate | | discriminate].
    intros _. now exists t, a.
  - intros kvs pre key post -> Hsplit Hpre Hkey.
    now apply (ExactFacts.verify_missing_key kvs pre key post w).
  - intros kvs -> Hall Hbad. now apply ExactFacts.verify_bad_ranges.
Qed.

(** X7.  On metadata that is a JSON list holding the three key names,
    [verify_metadata] does not return [False]: the membership tests pass
    and indexing the list by ['byte_ranges'] raises [TypeError].  The
    decoder catches it in its outermost handler and returns [None],
    without the record of a failed verification. *)
Theorem X7_verify_metadata_raises_on_list
    (sha256 : list byte -> string) (vp : string) (elems : list json) (w : world) :
  (forall key, In key required_keys -> In (JStr key) elems) ->
  metadata_file w = Some (JArr elems) ->
  verify_metadata (JArr elems) w = (Raise TypeError, w) /\
  convert_video_to_file sha256 vp w
  = (Ok None,
     append_log w
       [(INFO, "Loaded metadata for video: {}", [AJson (JArr elems)]);
        (ERROR, "An error occurred during video to file conversion: {}",
         [AExn TypeError])]).
Proof.
  intros Hkeys Hmd.
  assert (Hin : forall key, In key required_keys ->
                  contains_key key (JArr elems) = Ok true).
  { intros key Hk. cbn [contains_key]. f_equal. apply existsb_exists.
    exists (JStr key). split; [now apply Hkeys | apply String.eqb_refl]. }
  assert (Hv : forall w0, verify_metadata (JArr elems) w0 = (Raise TypeError, w0)).
  { intros w0. unfold verify_metadata, bind, lift, required_keys. cbn [first_missing].
    rewrite !Hin by (cbn; tauto). reflexivity. }
  split; [apply Hv|].
  unfold convert_video_to_file, try_except.
  unfold bind at 1, get_world at 1. rewrite Hmd.
  unfold bind at 1, logger at 1. unfold bind at 1. rewrite Hv.
  unfold bind, logger, ret. now rewrite Logic.append_log_app.
Qed.

Lemma X7_witness :
  verify_metadata (JArr key_names) world_key_names = (Raise TypeError, world_key_names) /\
  convert_video_to_file digest "v.mp4" world_key_names
  = (Ok None,
     append_log world_key_names
       [(INFO, "Loaded metadata for video: {}", [AJson (JArr key_names)]);
        (ERROR, "An error occurred during video to file conversion: {}",
         [AExn TypeError])]).
Proof.
  apply (X7_verify_metadata_raises_on_list digest "v.mp4" key_names world_key_names).
  - intros key [<-|[<-|[<-|[]]]]; cbn; tauto.
  - reflexivity.
Defined.

(** X8.  Painting and sampling agree: after a 4x4 block that fits in the
    frame is assigned one colour, the sampler at the corner of that block
    returns exactly that colour. *)
Theorem X8_sampling_a_painted_block_returns_its_colour
    (f : World.frame) (x y : Z) (c : pixel) (w : world) :
  0 <= x -> 0 <= y -> y + 4 <= shape0 f -> x + 4 <= shape1 f ->
  fst (process_block (assign_block f y (y + 4) x (x + 4) c) (JNum x) (JNum y) w)
  = Ok (Some c).
Proof.
  intros Hx Hy HH HW.
  destruct (MoreLookupFacts.sample_painted_block f x y c w Hx Hy HH HW) as (l & ->).
  reflexivity.
Qed.

Lemma X8_witness :
  fst (process_block (assign_block (zeros 8 8) 2 (2 + 4) 3 (3 + 4) (10, 20, 30))
         (JNum 3) (JNum 2) empty_world)
  = Ok (Some (10, 20, 30)).
Proof.
  apply (X8_sampling_a_painted_block_returns_its_colour (zeros 8 8) 3 2 (10, 20, 30)
           empty_world); cbn; lia.
Defined.

(** X9.  The pieces of the codec compose on the one block the encoder
    paints: for a non-empty upload, sampling the frame of index 5 at
    column 3838 and row 2158 returns the colour of the byte index
    [total_bytes // 2], the colour table the encoder saves maps that colour
    back to [(total_bytes // 2) mod 256], and the recoverer, given the
    painted frame, that table and a manifest entry with those coordinates,
    appends that one byte. *)
Theorem X9_painted_block_is_recovered
    (total_bytes : Z) (key : string) (info : json) (buf : list byte) (w : world) :
  1 <= total_bytes ->
  field "coordinates" info = Some (JArr [JNum 3838; JNum 2158]) ->
  let table := dumped (build_color_mapping total_bytes) in
  fst (process_block (frame_of total_bytes 5) (JNum 3838) (JNum 2158) w)
  = Ok (Some (rgb (total_bytes / 2))) /\
  byteFor table (rgb (total_bytes / 2)) = Some ((total_bytes / 2) mod 256) /\
  exists b,
    Byte.to_N b = Z.to_N ((total_bytes / 2) mod 256) /\
    fst (reconstruct_entry (frame_of total_bytes 5) table buf (key, info) w)
    = Ok (buf ++ [b]).
Proof.
  intros Htotal Hcoord table.
  assert (Hhalf : 0 <= total_bytes / 2 < total_bytes).
  { split; [apply Z.div_pos; lia | apply Z.div_lt_upper_bound; lia]. }
  assert (Hsample : forall w0, exists l,
             process_block (frame_of total_bytes 5) (JNum 3838) (JNum 2158) w0
             = (Ok (Some (rgb (total_bytes / 2))), append_log w0 l)).
  { intros w0. change (frame_of total_bytes 5)
      with (assign_block black_frame 2158 (2158 + 4) 3838 (3838 + 4)
              (rgb (total_bytes / 2))).
    apply MoreLookupFacts.sample_painted_block;
      [lia | lia | vm_compute; discriminate | vm_compute; discriminate]. }
  split; [destruct (Hsample w) as (l & ->); reflexivity|].
  split; [now apply MoreLookupFacts.byteFor_table|].
  unfold reconstruct_entry. cbn [snd].
  assert (Hhas : contains_key "coordinates" info = Ok true).
  { destruct info; try discriminate. apply DecodeFacts.contains_key_field. congruence. }
  unfold bind at 1, lift at 1. rewrite Hhas.
  unfold bind at 1, lift at 1. rewrite (DecodeFacts.field_getitem _ _ _ Hcoord).
  unfold bind at 1, lift at 1. cbn [unpack2 fst snd].
  unfold bind at 1. destruct (Hsample w) as (l & ->).
  unfold bind at 1, logger at 1. unfold bind at 1, lift at 1.
  unfold table, dumped. cbn [items].
  match goal with
  | |- exists b, _ /\ fst (bind (match_color ?es ?c ?x ?y ?bf) _ ?w0) = _ =>
      destruct (MoreLookupFacts.match_color_table total_bytes (total_bytes / 2) x y bf w0 Hhalf)
        as (b & Hb & Hm);
      exists b; split; [exact Hb|];
      unfold bind at 1; destruct (match_color es c x y bf w0) as [o w1]
  end.
  cbn [fst] in Hm. subst o. reflexivity.
Qed.

Lemma X9_witness :
  let table := dumped (build_color_mapping 3) in
  fst (process_block (frame_of 3 5) (JNum 3838) (JNum 2158) empty_world)
  = Ok (Some (rgb (3 / 2))) /\
  byteFor table (rgb (3 / 2)) = Some ((3 / 2) mod 256) /\
  exists b,
    Byte.to_N b = Z.to_N ((3 / 2) mod 256) /\
    fst (reconstruct_entry (frame_of 3 5) table []
           ("1", JObj [("coordinates", JArr [JNum 3838; JNum 2158])]) empty_world)
    = Ok ([] ++ [b]).
Proof.
  apply (X9_painted_block_is_recovered 3 "1"
           (JObj [("coordinates", JArr [JNum 3838; JNum 2158])]) [] empty_world).
  - lia.
  - reflexivity.
Defined.

(** X10.  Two byte indices get the same colour exactly when they are
    congruent modulo 256, and every channel of a colour is a byte. *)
Theorem X10_colours_collide_exactly_modulo_256 (i j : Z) :
  (rgb i = rgb j <-> i mod 256 = j mod 256) /\
  0 <= chan_r (rgb i) < 256 /\
  0 <= chan_g (rgb i) < 256 /\
  0 <= chan_b (rgb i) < 256.
Proof.
  split.
  - split.
    + intros H. unfold rgb in H. injection H as Hr _ _.
      rewrite <- (Z.mul_mod_idemp_l i), <- (Z.mul_mod_idemp_l j) in Hr by lia.
      pose proof (Z.mod_pos_bound i 256 ltac:(lia)).
      pose proof (Z.mod_pos_bound j 256 ltac:(lia)).
      pose proof (Z.div_mod (i mod 256 * 3) 256 ltac:(lia)).
      pose proof (Z.div_mod (j mod 256 * 3) 256 ltac:(lia)).
      pose proof (Z.mod_pos_bound (i mod 256 * 3) 256 ltac:(lia)).
      lia.
    + intros H. rewrite <- (LookupFacts.rgb_mod i), <- (LookupFacts.rgb_mod j).
      now rewrite H.
  - unfold rgb, chan_r, chan_g, chan_b. cbn [fst snd].
    repeat split; apply Z.mod_pos_bound; lia.
Qed.

(** X11.  A worker never reconstructs more bytes than [byte_ranges] has
    entries: a stream it returns is at most as long as the manifest's
    mapping. *)
Theorem X11_worker_stream_is_bounded_by_the_manifest
    (frame : World.frame) (cm md : json) (w : world) (stream : list byte) :
  fst (reconstruct_bytes_from_frame frame cm md w) = Ok stream ->
  exists entries,
    field "byte_ranges" md = Some (JObj entries) /\
    (List.length stream <= List.length entries)%nat.
Proof.
  unfold reconstruct_bytes_from_frame. intros H.
  apply MoreLookupFacts.bind_inv in H. destruct H as ([] & w1 & _ & H).
  apply MoreLookupFacts.bind_inv in H. destruct H as (br & w2 & Hbr & H).
  apply MoreLookupFacts.bind_inv in H. destruct H as (entries & w3 & Hit & H).
  apply MoreLookupFacts.bind_inv in H. destruct H as (bytes & w4 & Hloop & H).
  apply MoreLookupFacts.bind_inv in H. destruct H as ([] & w5 & _ & H).
  injection H as <-.
  unfold lift in Hbr, Hit. injection Hbr as Hbr _. injection Hit as Hit _.
  destruct br; try discriminate. injection Hit as ->.
  exists entries. split.
  - destruct md; try discriminate. cbn [getitem field] in *.
    destruct (assoc "byte_ranges" kvs); [now injection Hbr as -> | discriminate].
  - pose proof (f_equal fst Hloop) as Hl. cbn [fst] in Hl.
    apply MoreLookupFacts.reconstruct_loop_grows in Hl. cbn [List.length] in Hl. lia.
Qed.

Lemma X11_witness :
  exists entries,
    field "byte_ranges" manifest_twice = Some (JObj entries) /\
    (List.length [x07; x07] <= List.length entries)%nat.
Proof.
  apply (X11_worker_stream_is_bounded_by_the_manifest (zeros 8 8) table_7
           manifest_twice empty_world [x07; x07]).
  reflexivity.
Defined.

(** X12.  A sampled colour that no entry of the colour table carries is
    skipped, not an error: the recoverer leaves the stream as it was and
    the last record it logs is the warning that no colour matched. *)
Theorem X12_unknown_colour_is_skipped
    (frame : World.frame) (x y : Z) (table : list (string * json))
    (key : string) (info : json) (buf : list byte) (w : world) :
  0 <= x -> 0 <= y -> y + 4 <= shape0 frame -> x + 4 <= shape1 frame ->
  field "coordinates" info = Some (JArr [JNum x; JNum y]) ->
  Forall (fun e => color_isnt (snd e) (mean_truncated frame x y)) table ->
  exists l,
    reconstruct_entry frame (JObj table) buf (key, info) w
    = (Ok buf,
       append_log w
         (l ++ [(WARNING, "No matching color found for block at ({}, {}): {}",
                 [AJson (JNum x); AJson (JNum y);
                  AColor (Some (mean_truncated frame x y))])])).
Proof.
  intros Hx Hy HH HW Hcoord Hnone.
  unfold reconstruct_entry. cbn [snd].
  assert (Hhas : contains_key "coordinates" info = Ok true).
  { destruct info; try discriminate. apply DecodeFacts.contains_key_field. congruence. }
  unfold bind at 1, lift at 1. rewrite Hhas.
  unfold bind at 1, lift at 1. rewrite (DecodeFacts.field_getitem _ _ _ Hcoord).
  unfold bind at 1, lift at 1. cbn [unpack2 fst snd].
  unfold bind at 1. rewrite MoreLookupFacts.process_block_in_bounds by assumption.
  unfold bind at 1, logger at 1. unfold bind at 1, lift at 1. cbn [items].
  unfold bind at 1.
  match goal with
  | |- context [match_color table ?c ?xs ?ys buf ?w0] =>
      destruct (LookupFacts.match_color_skip table [] c xs ys buf Hnone w0) as (l & Hskip)
  end.
  rewrite app_nil_r in Hskip. rewrite Hskip. cbn [match_color].
  unfold ret at 1. cbn [fst snd]. unfold bind, logger, ret.
  rewrite !Logic.append_log_app. eexists. f_equal. f_equal.
  rewrite !app_assoc. reflexivity.
Qed.

Lemma X12_witness :
  exists l,
    reconstruct_entry (zeros 8 8) (JObj table_white) [] entry_origin empty_world
    = (Ok [],
       append_log empty_world
         (l ++ [(WARNING, "No matching color found for block at ({}, {}): {}",
                 [AJson (JNum 0); AJson (JNum 0);
                  AColor (Some (mean_truncated (zeros 8 8) 0 0))])])).
Proof.
  apply (X12_unknown_colour_is_skipped (zeros 8 8) 0 0 table_white
           "0" (snd entry_origin) [] empty_world); try (cbn; lia).
  - reflexivity.
  - repeat constructor. exists (JNum 255), (JNum 255), (JNum 255). repeat split.
Defined.

(** X13.  A negative column passes the bounds test of the sampler.  On a
    frame at least four pixels wide, a column from -4 to -1 selects an
    empty slice and the sampler raises [ValueError]; a column of -5 or less
    that still lies within the width counted from the right edge samples
    the block at [x + width]. *)
Theorem X13_negative_column_is_not_out_of_bounds
    (frame : World.frame) (x y : Z) (w : world) :
  x < 0 -> 0 <= x + shape1 frame -> 4 <= shape1 frame ->
  0 <= y -> y + 4 <= shape0 frame ->
  fst (process_block frame (JNum x) (JNum y) w)
  = if -4 <=? x then Raise ValueError
    else Ok (Some (mean_truncated frame (x + shape1 frame) y)).
Proof.
  intros Hx Hwrap HW Hy HH. unfold process_block.
  unfold bind at 1, lift at 1. cbn [as_int]. unfold bind at 1, ret at 1.
  destruct (Z.leb_spec (y + 4) (shape0 frame)); [|lia].
  unfold bind at 1. unfold bind at 1, lift at 1, ret at 1.
  destruct (Z.leb_spec (x + 4) (shape1 frame)); [|lia].
  unfold bind at 1, lift at 1. unfold bind at 1, lift at 1.
  unfold block_pixels. rewrite (LookupFacts.slice_indices_block _ y Hy HH).
  destruct (Z.leb_spec (-4) x).
  - rewrite MoreLookupFacts.slice_negative_empty by lia. reflexivity.
  - rewrite MoreLookupFacts.slice_negative_wraps by lia. reflexivity.
Qed.

Lemma X13_witness :
  fst (process_block (zeros 8 8) (JNum (-1)) (JNum 0) empty_world)
  = (if -4 <=? -1 then Raise ValueError
     else Ok (Some (mean_truncated (zeros 8 8) (-1 + shape1 (zeros 8 8)) 0))) /\
  fst (process_block speck (JNum (-4)) (JNum 0) empty_world)
  = (if -4 <=? -4 then Raise ValueError
     else Ok (Some (mean_truncated speck (-4 + shape1 speck) 0))) /\
  fst (process_block (zeros 8 8) (JNum (-6)) (JNum 0) empty_world)
  = (if -4 <=? -6 then Raise ValueError
     else Ok (Some (mean_truncated (zeros 8 8) (-6 + shape1 (zeros 8 8)) 0))).
Proof.
  split; [|split].
  - apply (X13_negative_column_is_not_out_of_bounds (zeros 8 8) (-1) 0 empty_world);
      cbn; lia.
  - apply (X13_negative_column_is_not_out_of_bounds speck (-4) 0 empty_world);
      cbn; lia.
  - apply (X13_negative_column_is_not_out_of_bounds (zeros 8 8) (-6) 0 empty_world);
      cbn; lia.
Defined.

(** X14.  On a frame of bytes the sampler returns bytes: for a block that
    fits in a frame whose channels all lie in [0, 256), each channel of the
    sampled colour is the floor of the mean of the sixteen pixels and lies
    in [0, 256).  The frames the encoder builds are such frames. *)
Theorem X14_sampled_colour_is_a_byte_triple
    (frame : World.frame) (x y : Z) (w : world) :
  uint8_frame frame ->
  0 <= x -> 0 <= y -> y + 4 <= shape0 frame -> x + 4 <= shape1 frame ->
  exists c,
    fst (process_block frame (JNum x) (JNum y) w) = Ok (Some c) /\
    chan_r c = channel_sum chan_r (block4 frame x y) / 16 /\
    chan_g c = channel_sum chan_g (block4 frame x y) / 16 /\
    chan_b c = channel_sum chan_b (block4 frame x y) / 16 /\
    0 <= chan_r c < 256 /\ 0 <= chan_g c < 256 /\ 0 <= chan_b c < 256 /\
    (forall total_bytes frame_idx, uint8_frame (frame_of total_bytes frame_idx)).
Proof.
  intros Hu Hx Hy HH HW.
  exists (mean_truncated frame x y).
  rewrite MoreLookupFacts.process_block_in_bounds by assumption.
  split; [reflexivity|].
  assert (Hsum : forall chan,
             (chan = chan_r \/ chan = chan_g \/ chan = chan_b) ->
             0 <= channel_sum chan (block4 frame x y) <= 4080).
  { intros chan Hchan. unfold channel_sum, block4.
    cbn [flat_map map List.app fold_right].
    pose proof (Hu (y + 0) (x + 0)). pose proof (Hu (y + 0) (x + 1)).
    pose proof (Hu (y + 0) (x + 2)). pose proof (Hu (y + 0) (x + 3)).
    pose proof (Hu (y + 1) (x + 0)). pose proof (Hu (y + 1) (x + 1)).
    pose proof (Hu (y + 1) (x + 2)). pose proof (Hu (y + 1) (x + 3)).
    pose proof (Hu (y + 2) (x + 0)). pose proof (Hu (y + 2) (x + 1)).
    pose proof (Hu (y + 2) (x + 2)). pose proof (Hu (y + 2) (x + 3)).
    pose proof (Hu (y + 3) (x + 0)). pose proof (Hu (y + 3) (x + 1)).
    pose proof (Hu (y + 3) (x + 2)). pose proof (Hu (y + 3) (x + 3)).
    destruct Hchan as [-> | [-> | ->]]; lia. }
  pose proof (Hsum chan_r (or_introl eq_refl)) as Hr.
  pose proof (Hsum chan_g (or_intror (or_introl eq_refl))) as Hg.
  pose proof (Hsum chan_b (or_intror (or_intror eq_refl))) as Hb.
  assert (Er : chan_r (mean_truncated frame x y)
               = channel_sum chan_r (block4 frame x y) / 16)
    by (apply Z.quot_div_nonneg; lia).
  assert (Eg : chan_g (mean_truncated frame x y)
               = channel_sum chan_g (block4 frame x y) / 16)
    by (apply Z.quot_div_nonneg; lia).
  assert (Eb : chan_b (mean_truncated frame x y)
               = channel_sum chan_b (block4 frame x y) / 16)
    by (apply Z.quot_div_nonneg; lia).
  rewrite Er, Eg, Eb.
  split; [reflexivity|]. split; [reflexivity|]. split; [reflexivity|].
  split; [split; [apply Z.div_pos; lia | apply Z.div_lt_upper_bound; lia]|].
  split; [split; [apply Z.div_pos; lia | apply Z.div_lt_upper_bound; lia]|].
  split; [split; [apply Z.div_pos; lia | apply Z.div_lt_upper_bound; lia]|].
  exact MoreLookupFacts.frame_of_uint8.
Qed.

Lemma X14_witness :
  exists c,
    fst (process_block speck (JNum 0) (JNum 0) empty_world) = Ok (Some c) /\
    chan_r c = channel_sum chan_r (block4 speck 0 0) / 16 /\
    chan_g c = channel_sum chan_g (block4 speck 0 0) / 16 /\
    chan_b c = channel_sum chan_b (block4 speck 0 0) / 16 /\
    0 <= chan_r c < 256 /\ 0 <= chan_g c < 256 /\ 0 <= chan_b c < 256 /\
    (forall total_bytes frame_idx, uint8_frame (frame_of total_bytes frame_idx)).
Proof.
  apply (X14_sampled_colour_is_a_byte_triple speck 0 0 empty_world); try (cbn; lia).
  intros y x. unfold speck, chan_r, chan_g, chan_b. cbn [px].
  destruct ((y =? 0) && (x =? 0))%bool; cbn; lia.
Defined.

(** X15.  What the encoder writes depends on the length of the upload
    only: two non-empty uploads of the same length, whatever their bytes
    and names, give the same video, the same colour table and the same
    [byte_ranges] for the same collection order. *)
Theorem X15_encoding_depends_on_the_length_only
    (sha256 : list byte -> string) (name1 name2 : string)
    (content1 content2 : list byte) (schedule : list Z) (w0 w0' : world) :
  content1 <> [] ->
  List.length content1 = List.length content2 ->
  exists w1 w2 md1 md2,
    convert_file_to_video sha256 name1 content1 schedule w0
    = (Ok (Some video_path), w1) /\
    convert_file_to_video sha256 name2 content2 schedule w0'
    = (Ok (Some video_path), w2) /\
    assoc video_path (videos w1) = assoc video_path (videos w2) /\
    mapping_file w1 = mapping_file w2 /\
    metadata_file w1 = Some md1 /\
    metadata_file w2 = Some md2 /\
    field "byte_ranges" md1 = field "byte_ranges" md2.
Proof.
  intros Hne Hlen.
  assert (Hne2 : content2 <> []).
  { intros ->. destruct content1; [congruence | discriminate]. }
  destruct (EncodeFacts.encode_run sha256 name1 content1 schedule w0 (or_introl Hne))
    as (w1 & H1 & _ & Hv1 & Hm1 & Hd1 & _).
  destruct (EncodeFacts.encode_run sha256 name2 content2 schedule w0' (or_introl Hne2))
    as (w2 & H2 & _ & Hv2 & Hm2 & Hd2 & _).
  exists w1, w2. eexists. eexists.
  split; [exact H1|]. split; [exact H2|].
  split; [rewrite Hv1, Hv2, Hlen; reflexivity|].
  split; [rewrite Hm1, Hm2, Hlen; reflexivity|].
  split; [exact Hd1|]. split; [exact Hd2|].
  unfold metadata_of. cbn [field assoc String.eqb Ascii.eqb Bool.eqb]. now rewrite Hlen.
Qed.

Lemma X15_witness :
  exists w1 w2 md1 md2,
    convert_file_to_video digest "abc.txt" abc in_order empty_world
    = (Ok (Some video_path), w1) /\
    convert_file_to_video digest "xyz.bin" [x78; x79; x7a] in_order empty_world
    = (Ok (Some video_path), w2) /\
    assoc video_path (videos w1) = assoc video_path (videos w2) /\
    mapping_file w1 = mapping_file w2 /\
    metadata_file w1 = Some md1 /\
    metadata_file w2 = Some md2 /\
    field "byte_ranges" md1 = field "byte_ranges" md2.
Proof.
  apply (X15_encoding_depends_on_the_length_only digest "abc.txt" "xyz.bin"
           abc [x78; x79; x7a] in_order empty_world empty_world).
  - discriminate.
  - reflexivity.
Defined.

(** X16.  For a non-empty upload and any order in which the thirty futures
    complete, the video has sixty frames, its first thirty frames are the
    black fillers (so the frame 6 the decoder reads is a filler), and
    exactly one of the last thirty is the painted frame, at the place
    where the future of frame 5 was collected. *)
Theorem X16_video_is_thirty_fillers_and_one_painted_frame
    (sha256 : list byte -> string) (filename : string) (content : list byte)
    (schedule : list Z) (w0 : world) :
  content <> [] ->
  Permutation (range 30) schedule ->
  let total_bytes := Z.of_nat (List.length content) in
  exists w1 written k,
    convert_file_to_video sha256 filename content schedule w0
    = (Ok (Some video_path), w1) /\
    assoc video_path (videos w1) = Some written /\
    List.length written = 60%nat /\
    (forall j, (j < 30)%nat -> nth_error written j = Some black_frame) /\
    (k < 30)%nat /\
    nth_error schedule k = Some 5 /\
    nth_error written (30 + k) = Some (painted_frame total_bytes) /\
    (forall j, (j < 30)%nat -> j <> k ->
       nth_error written (30 + j) = Some black_frame).
Proof.
  intros Hne Hperm total_bytes.
  destruct (EncodeFacts.encode_run sha256 filename content schedule w0 (or_introl Hne))
    as (w1 & Henc & _ & Hvid & _).
  assert (Hlen : List.length schedule = 30%nat).
  { rewrite <- (Permutation_length Hperm). apply EncodeFacts.range_length. }
  assert (Hnodup : NoDup schedule).
  { eapply Permutation_NoDup; [exact Hperm | apply EncodeFacts.range_NoDup]. }
  assert (H5 : In 5 schedule).
  { eapply Permutation_in; [exact Hperm|]. apply EncodeFacts.in_range. lia. }
  destruct (In_nth_error _ _ H5) as (k & Hk).
  assert (Hk30 : (k < 30)%nat).
  { rewrite <- Hlen. apply nth_error_Some. congruence. }
  exists w1. eexists. exists k.
  split; [exact Henc|]. split; [exact Hvid|].
  split; [rewrite length_app, repeat_length, length_map; lia|].
  split.
  { intros j Hj. rewrite nth_error_app1 by (rewrite repeat_length; lia).
    now apply nth_error_repeat. }
  split; [exact Hk30|]. split; [exact Hk|].
  split.
  { rewrite nth_error_app2 by (rewrite repeat_length; lia).
    rewrite repeat_length. replace (30 + k - 30)%nat with k by lia.
    rewrite nth_error_map, Hk. reflexivity. }
  intros j Hj Hjk.
  rewrite nth_error_app2 by (rewrite repeat_length; lia).
  rewrite repeat_length. replace (30 + j - 30)%nat with j by lia.
  rewrite nth_error_map.
  destruct (nth_error schedule j) as [idx|] eqn:Hidx.
  - cbn [option_map]. unfold frame_of.
    destruct (Z.eqb_spec idx 5) as [->|_]; [|reflexivity].
    exfalso. apply Hjk.
    apply (proj1 (NoDup_nth_error schedule) Hnodup); [lia | congruence].
  - apply nth_error_None in Hidx. lia.
Qed.

Lemma X16_witness :
  exists w1 written k,
    convert_file_to_video digest "abc.txt" abc reversed empty_world
    = (Ok (Some video_path), w1) /\
    assoc video_path (videos w1) = Some written /\
    List.length written = 60%nat /\
    (forall j, (j < 30)%nat -> nth_error written j = Some black_frame) /\
    (k < 30)%nat /\
    nth_error reversed k = Some 5 /\
    nth_error written (30 + k) = Some (painted_frame 3) /\
    (forall j, (j < 30)%nat -> j <> k ->
       nth_error written (30 + j) = Some black_frame).
Proof.
  apply (X16_video_is_thirty_fillers_and_one_painted_frame digest "abc.txt" abc
           reversed empty_world).
  - discriminate.
  - apply Permutation_rev.
Defined.

(** X17.  The integrity check agrees with the manifest the encoder writes:
    run on that manifest and a reconstructed file holding [data], it never
    raises, and it logs no warning exactly when [data] has the length and
    the digest of the upload. *)
Theorem X17_integrity_check_passes_exactly_on_matching_data
    (sha256 : list byte -> string) (filename : string) (content data : list byte)
    (w : world) :
  reconstructed_file w = Some data ->
  exists added,
    check_file_properties sha256 (metadata_of sha256 filename content video_path) w
    = (Ok tt, append_log w added) /\
    ((forall text args, ~ In (WARNING, text, args) added) <->
     (List.length data = List.length content /\ sha256 data = sha256 content)).
Proof.
  intros Hdata. eexists. split.
  { apply (DecodeFacts.check_file_properties_run sha256 _ w data
             (JNum (Z.of_nat (List.length content))) (JStr (sha256 content)));
      [exact Hdata | reflexivity | reflexivity]. }
  unfold integrity_log, eq_int, eq_str. cbn [as_int].
  destruct (Z.eqb_spec (Z.of_nat (List.length content)) (Z.of_nat (List.length data)))
    as [Hs|Hs];
    destruct (String.eqb_spec (sha256 content) (sha256 data)) as [Hh|Hh].
  - split.
    + intros _. split; [lia | congruence].
    + intros _ text args Hin. cbn [In] in Hin.
      repeat (destruct Hin as [Hin|Hin]; [discriminate|]). exact Hin.
  - split; [|intros [_ E]; congruence].
    intros H. exfalso. apply (H "Warning: File hash does not match!" []).
    cbn [In]. tauto.
  - split; [|intros [E _]; lia].
    intros H. exfalso. apply (H "Warning: File size does not match!" []).
    cbn [In]. tauto.
  - split; [|intros [E _]; lia].
    intros H. exfalso. apply (H "Warning: File size does not match!" []).
    cbn [In]. tauto.
Qed.

Lemma X17_witness :
  exists added,
    check_file_properties digest (metadata_of digest "abc.txt" abc video_path)
      (with_reconstructed empty_world abc)
    = (Ok tt, append_log (with_reconstructed empty_world abc) added) /\
    ((forall text args, ~ In (WARNING, text, args) added) <->
     (List.length abc = List.length abc /\ digest abc = digest abc)).
Proof.
  apply (X17_integrity_check_passes_exactly_on_matching_data digest "abc.txt" abc abc
           (with_reconstructed empty_world abc)).
  reflexivity.
Defined.

(** X18.  The keys of the colour table survive the trip through JSON: the
    encoder stores the entries under the indices 0 .. total_bytes - 1, the
    saved table holds them in that order under their decimal text, and
    [int] reads every key back as its index.  The bound on [total_bytes]
    keeps the keys within the number of digits [int] accepts. *)
Theorem X18_table_keys_read_back_as_indices (total_bytes : Z) :
  total_bytes <= 10 ^ max_str_digits ->
  exists entries,
    items (dumped (build_color_mapping total_bytes)) = Ok entries /\
    map (fun kv => int (fst kv)) entries = map Ok (range total_bytes) /\
    map snd entries = map color_entry (range total_bytes).
Proof.
  intros Hle.
  eexists. split; [reflexivity|]. unfold build_color_mapping.
  rewrite !map_map. cbn [fst snd]. split; [|reflexivity].
  apply map_ext_in. intros i Hi. apply EncodeFacts.in_range in Hi.
  apply PyFacts.int_str. lia.
Qed.

Lemma X18_witness :
  exists entries,
    items (dumped (build_color_mapping 300)) = Ok entries /\
    map (fun kv => int (fst kv)) entries = map Ok (range 300) /\
    map snd entries = map color_entry (range 300).
Proof.
  apply (X18_table_keys_read_back_as_indices 300).
  apply Z.le_trans with (10 ^ 3); [lia|].
  apply Z.pow_le_mono_r; unfold max_str_digits; lia.
Defined.


(** X20.  The [original_format] the manifest records is the part of the
    file name after its last dot, or the whole name when it has no dot: it
    holds no dot and the file name ends with it. *)
Theorem X20_original_format_is_the_last_extension
    (sha256 : list byte -> string) (filename : string) (content : list byte) :
  exists ext,
    field "original_format" (metadata_of sha256 filename content video_path)
    = Some (JStr ext) /\
    existsb (Ascii.eqb ".") (list_ascii_of_string ext) = false /\
    (filename = ext \/ exists stem, filename = (stem ++ String "." ext)%string).
Proof.
  exists (last_field "." filename). split; [reflexivity|].
  apply MoreEncodeFacts.last_field_spec.
Qed.

(** X21.  The file endpoint never answers with an error: whatever is
    uploaded, the answer has status 200 and one field [video_url].  For a
    non-empty upload the field is the path of the video; for an empty
    upload whose frame 5 is processed it is null, the failure being
    swallowed by the encoder. *)
Theorem X21_file_endpoint_always_answers_200
    (sha256 : list byte -> string) (filename : string) (content : list byte)
    (schedule : list Z) (w0 : world) :
  exists url,
    fst (Routes.upload_file sha256 filename content schedule w0)
    = Ok (200, JObj [("video_url", url)]) /\
    (content <> [] -> url = JStr video_path) /\
    (content = [] -> In 5 schedule -> url = JNull) /\
    (content = [] -> ~ In 5 schedule -> url = JStr video_path).
Proof.
  set (w' := append_log w0 [(INFO, "Uploaded file: {}, Size: {} bytes",
                             [AStr filename; AInt (Z.of_nat (List.length content))])]).
  assert (Hrun : forall r w1,
            convert_file_to_video sha256 filename content schedule w' = (Ok r, w1) ->
            fst (Routes.upload_file sha256 filename content schedule w0)
            = Ok (200, JObj [("video_url", Routes.json_of_path r)])).
  { intros r w1 Henc. unfold Routes.upload_file, try_except.
    unfold bind at 1, logger at 1. fold w'. unfold bind at 1. rewrite Henc.
    reflexivity. }
  destruct content as [|b content].
  - destruct (in_dec Z.eq_dec 5 schedule) as [H5|H5].
    + destruct (EncodeFacts.encode_empty sha256 filename schedule w' H5)
        as (w1 & k & Henc & _).
      exists JNull. split; [exact (Hrun _ _ Henc)|].
      split; [congruence|]. split; [reflexivity|]. intros _ H. now destruct H.
    + destruct (EncodeFacts.encode_run sha256 filename [] schedule w' (or_intror H5))
        as (w1 & Henc & _).
      exists (JStr video_path). split; [exact (Hrun _ _ Henc)|].
      split; [reflexivity|]. split; [|reflexivity]. intros _ H. now destruct H5.
  - assert (Hne : b :: content <> []) by discriminate.
    destruct (EncodeFacts.encode_run sha256 filename (b :: content) schedule w'
                (or_introl Hne)) as (w1 & Henc & _).
    exists (JStr video_path). split; [exact (Hrun _ _ Henc)|].
    split; [reflexivity|]. split; discriminate.
Qed.

